(** * A2DP offload: session state machine and codec configuration

    A shallow embedding of [hal/audio_extn/a2dp.c].  The global
    [struct a2dp_data a2dp] is threaded explicitly; the Bluetooth IPC
    library and the ALSA mixer live in an abstract [world]; every call
    into the IPC library and into the mixer is recorded in a trace of
    [event]s, so that statements such as "the IPC stop operation is
    invoked" can be read off a run. *)

From Stdlib Require Import ZArith List String Bool Lia.
Import ListNotations.
Local Open Scope Z_scope.

(** ** Constants of the file *)

(* Media format definitions *)
Definition ENC_MEDIA_FMT_AAC : Z := 0x00010DA6.
Definition ENC_MEDIA_FMT_APTX : Z := 0x000131ff.
Definition ENC_MEDIA_FMT_APTX_HD : Z := 0x00013200.
Definition ENC_MEDIA_FMT_LDAC : Z := 0x00013224.
Definition ENC_MEDIA_FMT_SBC : Z := 0x00010BF2.
Definition ENC_MEDIA_FMT_NONE : Z := 0.
Definition MEDIA_FMT_SBC_ALLOCATION_METHOD_LOUDNESS : Z := 0.
Definition MEDIA_FMT_SBC_ALLOCATION_METHOD_SNR : Z := 1.
Definition MEDIA_FMT_AAC_AOT_LC : Z := 2.
Definition MEDIA_FMT_AAC_AOT_SBR : Z := 5.
Definition MEDIA_FMT_AAC_AOT_PS : Z := 29.
Definition MEDIA_FMT_SBC_CHANNEL_MODE_MONO : Z := 1.
Definition MEDIA_FMT_SBC_CHANNEL_MODE_STEREO : Z := 2.
Definition MEDIA_FMT_SBC_CHANNEL_MODE_DUAL_MONO : Z := 8.
Definition MEDIA_FMT_SBC_CHANNEL_MODE_JOINT_STEREO : Z := 9.

(* PCM channels *)
Definition PCM_CHANNEL_L : Z := 1.
Definition PCM_CHANNEL_R : Z := 2.
Definition PCM_CHANNEL_C : Z := 3.

(* Mixer controls sent to ALSA *)
Definition MIXER_ENC_CONFIG_BLOCK : string := "SLIM_7_RX Encoder Config"%string.
Definition MIXER_ENC_BIT_FORMAT : string := "AFE Input Bit Format"%string.
Definition MIXER_SCRAMBLER_MODE : string := "AFE Scrambler Mode"%string.
Definition MIXER_SAMPLE_RATE : string := "BT SampleRate"%string.
Definition MIXER_AFE_IN_CHANNELS : string := "AFE Input Channels"%string.

Definition SYSPROP_A2DP_OFFLOAD_ENABLED : string :=
  "persist.vendor.bluetooth.a2dp_offload.enable"%string.

Definition DEFAULT_ENCODER_BIT_FORMAT : Z := 16.

(* enc_codec_t: the enumerators are the audio-base.h format values that
   the comments of the enum spell out. *)
Definition ENC_CODEC_TYPE_INVALID : Z := 0xFFFFFFFF.
Definition ENC_CODEC_TYPE_AAC : Z := 0x04000000.
Definition ENC_CODEC_TYPE_SBC : Z := 0x1F000000.
Definition ENC_CODEC_TYPE_APTX : Z := 0x20000000.
Definition ENC_CODEC_TYPE_APTX_HD : Z := 0x21000000.
Definition ENC_CODEC_TYPE_LDAC : Z := 0x23000000.

(* <errno.h> of the Linux targets this HAL is built for. *)
Definition ENOSYS : Z := 38.
Definition ETIMEDOUT : Z := 110.

Inductive A2DP_STATE : Type :=
| A2DP_STATE_CONNECTED
| A2DP_STATE_STARTED
| A2DP_STATE_STOPPED
| A2DP_STATE_DISCONNECTED.

Definition A2DP_STATE_eqb (a b : A2DP_STATE) : bool :=
  match a, b with
  | A2DP_STATE_CONNECTED, A2DP_STATE_CONNECTED
  | A2DP_STATE_STARTED, A2DP_STATE_STARTED
  | A2DP_STATE_STOPPED, A2DP_STATE_STOPPED
  | A2DP_STATE_DISCONNECTED, A2DP_STATE_DISCONNECTED => true
  | _, _ => false
  end.

(** [int] arithmetic.  The session counter is a C [int]; [++] on it is
    modelled with the two's-complement wrap of the targets (the C
    standard leaves the overflow undefined). *)
Definition INT_MAX : Z := 2147483647.
Definition wrap_int (z : Z) : Z := (z + 2 ^ 31) mod 2 ^ 32 - 2 ^ 31.

(** ** DSP configurable structures

    All of them are [__attribute__((packed))]; the [sizeof] constants
    below are the sums of the field widths. *)

Module aac_enc_cfg_t.
Record t : Type := mk {
    enc_format : Z;   (* uint32_t *)
    bit_rate : Z;     (* uint32_t *)
    enc_mode : Z;     (* uint32_t *)
    aac_fmt_flag : Z; (* uint16_t *)
    channel_cfg : Z;  (* uint16_t *)
    sample_rate : Z   (* uint32_t *)
  }.
Definition sizeof : Z := 20.
End aac_enc_cfg_t.

Module sbc_enc_cfg_t.
Record t : Type := mk {
    enc_format : Z;
    num_subbands : Z;
    blk_len : Z;
    channel_mode : Z;
    alloc_method : Z;
    bit_rate : Z;
    sample_rate : Z
  }.
Definition sizeof : Z := 28.
  (* memset(&cfg, 0x0, sizeof(cfg)) *)
Definition zero : t := mk 0 0 0 0 0 0 0.
End sbc_enc_cfg_t.

Module custom_enc_cfg_t.
Record t : Type := mk {
    enc_format : Z;             (* uint32_t *)
    sample_rate : Z;            (* uint32_t *)
    num_channels : Z;           (* uint16_t *)
    reserved : Z;               (* uint16_t *)
    channel_mapping : list Z;   (* uint8_t [8] *)
    custom_size : Z             (* uint32_t *)
  }.
Definition sizeof : Z := 24.
End custom_enc_cfg_t.

Module aptx_v2_enc_cfg_ext_t.
Record t : Type := mk { sync_mode : Z (* uint32_t *) }.
End aptx_v2_enc_cfg_ext_t.

Module aptx_enc_cfg_t.
Record t : Type := mk {
    custom_cfg : custom_enc_cfg_t.t;
    aptx_v2_cfg : aptx_v2_enc_cfg_ext_t.t
  }.
Definition sizeof : Z := 28.
End aptx_enc_cfg_t.

Module ldac_specific_enc_cfg_t.
Record t : Type := mk {
    bit_rate : Z;      (* uint32_t *)
    channel_mode : Z;  (* uint16_t *)
    mtu : Z            (* uint16_t *)
  }.
End ldac_specific_enc_cfg_t.

Module ldac_enc_cfg_t.
Record t : Type := mk {
    custom_cfg : custom_enc_cfg_t.t;
    ldac_cfg : ldac_specific_enc_cfg_t.t
  }.
Definition sizeof : Z := 32.
End ldac_enc_cfg_t.

(** ** Encoder configurations handed over by the Bluetooth IPC library *)

Module audio_sbc_encoder_config.
Record t : Type := mk {
    subband : Z;          (* uint32_t: 4, 8 *)
    blk_len : Z;          (* uint32_t: 4, 8, 12, 16 *)
    sampling_rate : Z;    (* uint16_t *)
    channels : Z;         (* uint8_t: 0(Mono), 1(Dual_mono), 2(Stereo), 3(JS) *)
    alloc : Z;            (* uint8_t: 0(Loudness), 1(SNR) *)
    min_bitpool : Z;      (* uint8_t *)
    max_bitpool : Z;      (* uint8_t *)
    bitrate : Z;          (* uint32_t *)
    bits_per_sample : Z   (* uint32_t *)
  }.
End audio_sbc_encoder_config.

Module audio_aptx_default_config.
Record t : Type := mk {
    sampling_rate : Z;    (* uint16_t *)
    channels : Z;         (* uint8_t *)
    bitrate : Z;          (* uint32_t *)
    bits_per_sample : Z   (* uint32_t *)
  }.
End audio_aptx_default_config.

Module audio_aptx_dual_mono_config.
Record t : Type := mk {
    sampling_rate : Z;    (* uint16_t *)
    channels : Z;         (* uint8_t *)
    bitrate : Z;          (* uint32_t *)
    sync_mode : Z         (* uint32_t *)
  }.
End audio_aptx_dual_mono_config.

Module audio_aac_encoder_config.
Record t : Type := mk {
    enc_mode : Z;         (* uint32_t: LC, SBR, PS *)
    format_flag : Z;      (* uint16_t *)
    channels : Z;         (* uint16_t *)
    sampling_rate : Z;    (* uint32_t *)
    bitrate : Z;          (* uint32_t *)
    bits_per_sample : Z   (* uint32_t *)
  }.
End audio_aac_encoder_config.

Module audio_ldac_encoder_config.
Record t : Type := mk {
    sampling_rate : Z;    (* uint32_t *)
    bit_rate : Z;         (* uint32_t *)
    channel_mode : Z;     (* uint16_t: 0, 4, 2, 1 *)
    mtu : Z;              (* uint16_t *)
    bits_per_sample : Z   (* uint32_t *)
  }.
End audio_ldac_encoder_config.

(** The object a non-null [codec_info] points to.  The source casts the
    [void *] to the structure that goes with the reported codec type, so
    the pointee is kept as what each cast reads from it. *)
Module codec_info.
Record t : Type := mk {
    as_sbc : audio_sbc_encoder_config.t;
    as_aptx_default : audio_aptx_default_config.t;
    as_aptx_dual_mono : audio_aptx_dual_mono_config.t;
    as_aac : audio_aac_encoder_config.t;
    as_ldac : audio_ldac_encoder_config.t
  }.
End codec_info.

(** [audio_aptx_encoder_config]: a union of two pointers, [default_cfg]
    and [dual_mono_cfg], to the same object; [None] is the null pointer. *)
Module audio_aptx_encoder_config.
Definition t : Type := option codec_info.t.
Definition default_cfg (u : t) : option audio_aptx_default_config.t :=
    option_map codec_info.as_aptx_default u.
Definition dual_mono_cfg (u : t) : option audio_aptx_dual_mono_config.t :=
    option_map codec_info.as_aptx_dual_mono u.
End audio_aptx_encoder_config.

(** What [mixer_ctl_set_array] is given on the encoder config control. *)
Inductive dsp_block : Type :=
| BlkSbc (c : sbc_enc_cfg_t.t)
| BlkAptx (c : aptx_enc_cfg_t.t)
| BlkCustom (c : custom_enc_cfg_t.t)
| BlkAac (c : aac_enc_cfg_t.t)
| BlkLdac (c : ldac_enc_cfg_t.t).

(** ** The DSP records built by the configure functions *)

(* configure_sbc_enc_format: memset, then the assignments up to the
   mixer write. *)
Definition sbc_dsp_cfg (sbc_bt_cfg : audio_sbc_encoder_config.t) : sbc_enc_cfg_t.t :=
  {| sbc_enc_cfg_t.enc_format := ENC_MEDIA_FMT_SBC;
     sbc_enc_cfg_t.num_subbands := audio_sbc_encoder_config.subband sbc_bt_cfg;
     sbc_enc_cfg_t.blk_len := audio_sbc_encoder_config.blk_len sbc_bt_cfg;
     sbc_enc_cfg_t.channel_mode :=
       (let channels := audio_sbc_encoder_config.channels sbc_bt_cfg in
        if channels =? 0 then MEDIA_FMT_SBC_CHANNEL_MODE_MONO
        else if channels =? 1 then MEDIA_FMT_SBC_CHANNEL_MODE_DUAL_MONO
        else if channels =? 3 then MEDIA_FMT_SBC_CHANNEL_MODE_JOINT_STEREO
        else (* case 2: default: *) MEDIA_FMT_SBC_CHANNEL_MODE_STEREO);
     sbc_enc_cfg_t.alloc_method :=
       (if negb (audio_sbc_encoder_config.alloc sbc_bt_cfg =? 0)
        then MEDIA_FMT_SBC_ALLOCATION_METHOD_LOUDNESS
        else MEDIA_FMT_SBC_ALLOCATION_METHOD_SNR);
     sbc_enc_cfg_t.bit_rate := audio_sbc_encoder_config.bitrate sbc_bt_cfg;
     sbc_enc_cfg_t.sample_rate := audio_sbc_encoder_config.sampling_rate sbc_bt_cfg |}.

(* The switch on num_channels shared by the APTX and APTX HD records,
   applied to the zeroed channel_mapping. *)
Definition aptx_channel_mapping (num_channels : Z) : list Z :=
  if num_channels =? 1 then [PCM_CHANNEL_C; 0; 0; 0; 0; 0; 0; 0]
  else (* case 2: default: *) [PCM_CHANNEL_L; PCM_CHANNEL_R; 0; 0; 0; 0; 0; 0].

(* configure_aptx_enc_format.  [dual_mono] is
   a2dp.is_aptx_dual_mono_supported; the two arguments are what the two
   members of the union point to. *)
Definition aptx_dsp_cfg (dual_mono : bool)
    (default_cfg : audio_aptx_default_config.t)
    (dual_mono_cfg : audio_aptx_dual_mono_config.t) : aptx_enc_cfg_t.t :=
  let sample_rate :=
    if negb dual_mono then audio_aptx_default_config.sampling_rate default_cfg
    else audio_aptx_dual_mono_config.sampling_rate dual_mono_cfg in
  let num_channels :=
    if negb dual_mono then audio_aptx_default_config.channels default_cfg
    else audio_aptx_dual_mono_config.channels dual_mono_cfg in
  {| aptx_enc_cfg_t.custom_cfg :=
       {| custom_enc_cfg_t.enc_format := ENC_MEDIA_FMT_APTX;
          custom_enc_cfg_t.sample_rate := sample_rate;
          custom_enc_cfg_t.num_channels := num_channels;
          custom_enc_cfg_t.reserved := 0;
          custom_enc_cfg_t.channel_mapping := aptx_channel_mapping num_channels;
          custom_enc_cfg_t.custom_size := 0 |};
     aptx_enc_cfg_t.aptx_v2_cfg :=
       {| aptx_v2_enc_cfg_ext_t.sync_mode :=
            if negb dual_mono then 0
            else audio_aptx_dual_mono_config.sync_mode dual_mono_cfg |} |}.

(* configure_aptx_hd_enc_format *)
Definition aptx_hd_dsp_cfg (aptx_bt_cfg : audio_aptx_default_config.t)
    : custom_enc_cfg_t.t :=
  let num_channels := audio_aptx_default_config.channels aptx_bt_cfg in
  {| custom_enc_cfg_t.enc_format := ENC_MEDIA_FMT_APTX_HD;
     custom_enc_cfg_t.sample_rate := audio_aptx_default_config.sampling_rate aptx_bt_cfg;
     custom_enc_cfg_t.num_channels := num_channels;
     custom_enc_cfg_t.reserved := 0;
     custom_enc_cfg_t.channel_mapping := aptx_channel_mapping num_channels;
     custom_enc_cfg_t.custom_size := 0 |}.

(* configure_aac_enc_format *)
Definition aac_dsp_cfg (aac_bt_cfg : audio_aac_encoder_config.t) : aac_enc_cfg_t.t :=
  {| aac_enc_cfg_t.enc_format := ENC_MEDIA_FMT_AAC;
     aac_enc_cfg_t.bit_rate := audio_aac_encoder_config.bitrate aac_bt_cfg;
     aac_enc_cfg_t.enc_mode :=
       (let enc_mode := audio_aac_encoder_config.enc_mode aac_bt_cfg in
        if enc_mode =? 0 then MEDIA_FMT_AAC_AOT_LC
        else if enc_mode =? 2 then MEDIA_FMT_AAC_AOT_PS
        else (* case 1: default: *) MEDIA_FMT_AAC_AOT_SBR);
     aac_enc_cfg_t.aac_fmt_flag := audio_aac_encoder_config.format_flag aac_bt_cfg;
     aac_enc_cfg_t.channel_cfg := audio_aac_encoder_config.channels aac_bt_cfg;
     aac_enc_cfg_t.sample_rate := audio_aac_encoder_config.sampling_rate aac_bt_cfg |}.

(* configure_ldac_enc_format *)
Definition ldac_dsp_cfg (ldac_bt_cfg : audio_ldac_encoder_config.t) : ldac_enc_cfg_t.t :=
  let channel_mode := audio_ldac_encoder_config.channel_mode ldac_bt_cfg in
  {| ldac_enc_cfg_t.custom_cfg :=
       {| custom_enc_cfg_t.enc_format := ENC_MEDIA_FMT_LDAC;
          custom_enc_cfg_t.sample_rate := audio_ldac_encoder_config.sampling_rate ldac_bt_cfg;
          custom_enc_cfg_t.num_channels :=
            (if channel_mode =? 4 then 1 else (* case 2: case 1: default: *) 2);
          custom_enc_cfg_t.reserved := 0;
          custom_enc_cfg_t.channel_mapping :=
            (if channel_mode =? 4 then [PCM_CHANNEL_C; 0; 0; 0; 0; 0; 0; 0]
             else [PCM_CHANNEL_L; PCM_CHANNEL_R; 0; 0; 0; 0; 0; 0]);
          custom_enc_cfg_t.custom_size := ldac_enc_cfg_t.sizeof |};
     ldac_enc_cfg_t.ldac_cfg :=
       {| ldac_specific_enc_cfg_t.bit_rate := audio_ldac_encoder_config.bit_rate ldac_bt_cfg;
          ldac_specific_enc_cfg_t.channel_mode := channel_mode;
          ldac_specific_enc_cfg_t.mtu := audio_ldac_encoder_config.mtu ldac_bt_cfg |} |}.

(** ** The collaborators

    The tinyalsa mixer and the property store are not part of the file;
    they are taken as an interface over an abstract [world].  A mixer
    write returns the status tinyalsa reports and the world after it. *)

Class Env : Type := {
  world : Type;
  mixer_ctl : Type;
  mixer_get_ctl_by_name : world -> string -> option mixer_ctl;
  mixer_ctl_set_array : mixer_ctl -> dsp_block -> Z -> world -> Z * world;
  mixer_ctl_set_enum_by_string : mixer_ctl -> string -> world -> Z * world;
  mixer_ctl_set_value : mixer_ctl -> Z -> Z -> world -> Z * world;
  property_get_bool : string -> bool -> world -> bool
}.

(** Calls that leave the file, in the order they are made.  A mixer
    write is logged under the name its control was looked up by. *)
Inductive event : Type :=
| E_audio_stream_start
| E_audio_stream_stop
| E_audio_stream_close
| E_audio_get_codec_config
| E_audio_check_a2dp_ready
| E_audio_is_scrambling_enabled
| E_mixer_get_ctl_by_name (name : string)
| E_mixer_ctl_set_array (name : string) (blk : dsp_block) (size : Z)
| E_mixer_ctl_set_enum_by_string (name : string) (value : string)
| E_mixer_ctl_set_value (name : string) (id : Z) (value : Z).

Definition is_stream_start (e : event) : bool :=
  match e with E_audio_stream_start => true | _ => false end.
Definition is_stream_stop (e : event) : bool :=
  match e with E_audio_stream_stop => true | _ => false end.
Definition is_get_codec_config (e : event) : bool :=
  match e with E_audio_get_codec_config => true | _ => false end.
Definition is_enc_config_write (e : event) : bool :=
  match e with E_mixer_ctl_set_array _ _ _ => true | _ => false end.

(* How often a kind of call occurs in a trace. *)
Definition count_events (p : event -> bool) (t : list event) : nat :=
  List.length (filter p t).

Section A2dp.
Context {E : Env}.

(* The function pointers resolved from libbthost_if.so; [None] is a
   null pointer. *)
Definition ipc_int_t : Type := world -> Z * world.
Definition ipc_void_t : Type := world -> world.
(* audio_get_codec_config: the returned codec_info pointer and the
   value left in *codec_type. *)
Definition audio_get_codec_config_t : Type :=
  world -> (option codec_info.t * Z) * world.

(** [struct a2dp_data].  [adev] is left out: it is only followed to
    reach the mixer, which is part of [world]. *)
Record a2dp_data : Type := mk_a2dp_data {
  bt_lib_handle : bool;   (* whether the dlopen handle is non-null *)
  audio_stream_open : option ipc_int_t;
  audio_stream_close : option ipc_int_t;
  audio_stream_start : option ipc_int_t;
  audio_stream_stop : option ipc_int_t;
  audio_stream_suspend : option ipc_int_t;
  audio_handoff_triggered : option ipc_void_t;
  clear_a2dp_suspend_flag : option ipc_void_t;
  audio_get_codec_config : option audio_get_codec_config_t;
  audio_check_a2dp_ready : option ipc_int_t;
  audio_is_scrambling_enabled : option ipc_int_t;
  bt_state : A2DP_STATE;
  bt_encoder_format : Z;                   (* enc_codec_t *)
  enc_sampling_rate : Z;                   (* uint32_t *)
  enc_channels : Z;                        (* uint32_t *)
  a2dp_started : bool;
  a2dp_suspended : bool;
  a2dp_total_active_session_request : Z;   (* int *)
  is_a2dp_offload_supported : bool;
  is_handoff_in_progress : bool;
  is_aptx_dual_mono_supported : bool
}.

Definition set_bt_lib_handle (v : bool) (a : a2dp_data) : a2dp_data :=
  mk_a2dp_data v (audio_stream_open a) (audio_stream_close a)
    (audio_stream_start a) (audio_stream_stop a) (audio_stream_suspend a)
    (audio_handoff_triggered a) (clear_a2dp_suspend_flag a)
    (audio_get_codec_config a) (audio_check_a2dp_ready a)
    (audio_is_scrambling_enabled a) (bt_state a) (bt_encoder_format a)
    (enc_sampling_rate a) (enc_channels a) (a2dp_started a) (a2dp_suspended a)
    (a2dp_total_active_session_request a) (is_a2dp_offload_supported a)
    (is_handoff_in_progress a) (is_aptx_dual_mono_supported a).

Definition set_bt_state (v : A2DP_STATE) (a : a2dp_data) : a2dp_data :=
  mk_a2dp_data (bt_lib_handle a) (audio_stream_open a) (audio_stream_close a)
    (audio_stream_start a) (audio_stream_stop a) (audio_stream_suspend a)
    (audio_handoff_triggered a) (clear_a2dp_suspend_flag a)
    (audio_get_codec_config a) (audio_check_a2dp_ready a)
    (audio_is_scrambling_enabled a) v (bt_encoder_format a)
    (enc_sampling_rate a) (enc_channels a) (a2dp_started a) (a2dp_suspended a)
    (a2dp_total_active_session_request a) (is_a2dp_offload_supported a)
    (is_handoff_in_progress a) (is_aptx_dual_mono_supported a).

Definition set_bt_encoder_format (v : Z) (a : a2dp_data) : a2dp_data :=
  mk_a2dp_data (bt_lib_handle a) (audio_stream_open a) (audio_stream_close a)
    (audio_stream_start a) (audio_stream_stop a) (audio_stream_suspend a)
    (audio_handoff_triggered a) (clear_a2dp_suspend_flag a)
    (audio_get_codec_config a) (audio_check_a2dp_ready a)
    (audio_is_scrambling_enabled a) (bt_state a) v
    (enc_sampling_rate a) (enc_channels a) (a2dp_started a) (a2dp_suspended a)
    (a2dp_total_active_session_request a) (is_a2dp_offload_supported a)
    (is_handoff_in_progress a) (is_aptx_dual_mono_supported a).

Definition set_enc_sampling_rate (v : Z) (a : a2dp_data) : a2dp_data :=
  mk_a2dp_data (bt_lib_handle a) (audio_stream_open a) (audio_stream_close a)
    (audio_stream_start a) (audio_stream_stop a) (audio_stream_suspend a)
    (audio_handoff_triggered a) (clear_a2dp_suspend_flag a)
    (audio_get_codec_config a) (audio_check_a2dp_ready a)
    (audio_is_scrambling_enabled a) (bt_state a) (bt_encoder_format a)
    v (enc_channels a) (a2dp_started a) (a2dp_suspended a)
    (a2dp_total_active_session_request a) (is_a2dp_offload_supported a)
    (is_handoff_in_progress a) (is_aptx_dual_mono_supported a).

Definition set_enc_channels (v : Z) (a : a2dp_data) : a2dp_data :=
  mk_a2dp_data (bt_lib_handle a) (audio_stream_open a) (audio_stream_close a)
    (audio_stream_start a) (audio_stream_stop a) (audio_stream_suspend a)
    (audio_handoff_triggered a) (clear_a2dp_suspend_flag a)
    (audio_get_codec_config a) (audio_check_a2dp_ready a)
    (audio_is_scrambling_enabled a) (bt_state a) (bt_encoder_format a)
    (enc_sampling_rate a) v (a2dp_started a) (a2dp_suspended a)
    (a2dp_total_active_session_request a) (is_a2dp_offload_supported a)
    (is_handoff_in_progress a) (is_aptx_dual_mono_supported a).

Definition set_a2dp_started (v : bool) (a : a2dp_data) : a2dp_data :=
  mk_a2dp_data (bt_lib_handle a) (audio_stream_open a) (audio_stream_close a)
    (audio_stream_start a) (audio_stream_stop a) (audio_stream_suspend a)
    (audio_handoff_triggered a) (clear_a2dp_suspend_flag a)
    (audio_get_codec_config a) (audio_check_a2dp_ready a)
    (audio_is_scrambling_enabled a) (bt_state a) (bt_encoder_format a)
    (enc_sampling_rate a) (enc_channels a) v (a2dp_suspended a)
    (a2dp_total_active_session_request a) (is_a2dp_offload_supported a)
    (is_handoff_in_progress a) (is_aptx_dual_mono_supported a).

Definition set_a2dp_suspended (v : bool) (a : a2dp_data) : a2dp_data :=
  mk_a2dp_data (bt_lib_handle a) (audio_stream_open a) (audio_stream_close a)
    (audio_stream_start a) (audio_stream_stop a) (audio_stream_suspend a)
    (audio_handoff_triggered a) (clear_a2dp_suspend_flag a)
    (audio_get_codec_config a) (audio_check_a2dp_ready a)
    (audio_is_scrambling_enabled a) (bt_state a) (bt_encoder_format a)
    (enc_sampling_rate a) (enc_channels a) (a2dp_started a) v
    (a2dp_total_active_session_request a) (is_a2dp_offload_supported a)
    (is_handoff_in_progress a) (is_aptx_dual_mono_supported a).

Definition set_a2dp_total_active_session_request (v : Z) (a : a2dp_data)
    : a2dp_data :=
  mk_a2dp_data (bt_lib_handle a) (audio_stream_open a) (audio_stream_close a)
    (audio_stream_start a) (audio_stream_stop a) (audio_stream_suspend a)
    (audio_handoff_triggered a) (clear_a2dp_suspend_flag a)
    (audio_get_codec_config a) (audio_check_a2dp_ready a)
    (audio_is_scrambling_enabled a) (bt_state a) (bt_encoder_format a)
    (enc_sampling_rate a) (enc_channels a) (a2dp_started a) (a2dp_suspended a)
    v (is_a2dp_offload_supported a)
    (is_handoff_in_progress a) (is_aptx_dual_mono_supported a).

Definition set_is_a2dp_offload_supported (v : bool) (a : a2dp_data) : a2dp_data :=
  mk_a2dp_data (bt_lib_handle a) (audio_stream_open a) (audio_stream_close a)
    (audio_stream_start a) (audio_stream_stop a) (audio_stream_suspend a)
    (audio_handoff_triggered a) (clear_a2dp_suspend_flag a)
    (audio_get_codec_config a) (audio_check_a2dp_ready a)
    (audio_is_scrambling_enabled a) (bt_state a) (bt_encoder_format a)
    (enc_sampling_rate a) (enc_channels a) (a2dp_started a) (a2dp_suspended a)
    (a2dp_total_active_session_request a) v
    (is_handoff_in_progress a) (is_aptx_dual_mono_supported a).

Definition set_is_handoff_in_progress (v : bool) (a : a2dp_data) : a2dp_data :=
  mk_a2dp_data (bt_lib_handle a) (audio_stream_open a) (audio_stream_close a)
    (audio_stream_start a) (audio_stream_stop a) (audio_stream_suspend a)
    (audio_handoff_triggered a) (clear_a2dp_suspend_flag a)
    (audio_get_codec_config a) (audio_check_a2dp_ready a)
    (audio_is_scrambling_enabled a) (bt_state a) (bt_encoder_format a)
    (enc_sampling_rate a) (enc_channels a) (a2dp_started a) (a2dp_suspended a)
    (a2dp_total_active_session_request a) (is_a2dp_offload_supported a)
    v (is_aptx_dual_mono_supported a).

Definition set_is_aptx_dual_mono_supported (v : bool) (a : a2dp_data) : a2dp_data :=
  mk_a2dp_data (bt_lib_handle a) (audio_stream_open a) (audio_stream_close a)
    (audio_stream_start a) (audio_stream_stop a) (audio_stream_suspend a)
    (audio_handoff_triggered a) (clear_a2dp_suspend_flag a)
    (audio_get_codec_config a) (audio_check_a2dp_ready a)
    (audio_is_scrambling_enabled a) (bt_state a) (bt_encoder_format a)
    (enc_sampling_rate a) (enc_channels a) (a2dp_started a) (a2dp_suspended a)
    (a2dp_total_active_session_request a) (is_a2dp_offload_supported a)
    (is_handoff_in_progress a) v.

(* A pointer used as a condition. *)
Definition non_null {A : Type} (p : option A) : bool :=
  match p with Some _ => true | None => false end.

(** ** Running the code

    A function of the file takes the global [a2dp] and the world and
    gives its return value, the new [a2dp], the new world and the calls
    it made; [None] stands for a run that dereferences or calls a null
    pointer. *)
Definition M (A : Type) : Type :=
  a2dp_data -> world -> option (A * a2dp_data * world * list event).

Definition ret {A : Type} (a : A) : M A :=
  fun s w => Some (a, s, w, []).

Definition bind {A B : Type} (m : M A) (f : A -> M B) : M B :=
  fun s w =>
    match m s w with
    | None => None
    | Some (a, s1, w1, t1) =>
        match f a s1 w1 with
        | None => None
        | Some (b, s2, w2, t2) => Some (b, s2, w2, t1 ++ t2)
        end
    end.

Definition get : M a2dp_data := fun s w => Some (s, s, w, []).

Definition modify (f : a2dp_data -> a2dp_data) : M unit :=
  fun s w => Some (tt, f s, w, []).

Definition fault {A : Type} : M A := fun _ _ => None.

(* Something read off the world; not recorded in the trace. *)
Definition read {A : Type} (f : world -> A) : M A :=
  fun s w => Some (f w, s, w, []).

(* A call into a collaborator. *)
Definition extern {A : Type} (e : event) (f : world -> A * world) : M A :=
  fun s w => let (a, w') := f w in Some (a, s, w', [e]).

(* A call through one of the function pointers of [a2dp]. *)
Definition call {A : Type} (e : event) (p : option (world -> A * world)) : M A :=
  match p with
  | Some f => extern e f
  | None => fault
  end.

Definition get_ctl (name : string) : M (option mixer_ctl) :=
  fun s w => Some (mixer_get_ctl_by_name w name, s, w, [E_mixer_get_ctl_by_name name]).

Definition set_array (name : string) (ctl : mixer_ctl) (blk : dsp_block) (size : Z)
    : M Z :=
  extern (E_mixer_ctl_set_array name blk size) (mixer_ctl_set_array ctl blk size).

Definition set_enum_by_string (name : string) (ctl : mixer_ctl) (value : string)
    : M Z :=
  extern (E_mixer_ctl_set_enum_by_string name value)
         (mixer_ctl_set_enum_by_string ctl value).

Definition set_value (name : string) (ctl : mixer_ctl) (id value : Z) : M Z :=
  extern (E_mixer_ctl_set_value name id value) (mixer_ctl_set_value ctl id value).

End A2dp.

Notation "x <- m ;; k" := (bind m (fun x => k))
  (at level 61, m at next level, right associativity).
Notation "m ;; k" := (bind m (fun _ => k))
  (at level 61, right associativity).

Section Functions.
Context {E : Env}.

(** ** The functions of a2dp.c *)

Definition a2dp_common_init : M unit :=
  modify (set_a2dp_started false) ;;
  modify (set_a2dp_total_active_session_request 0) ;;
  modify (set_a2dp_suspended false) ;;
  modify (set_bt_encoder_format ENC_CODEC_TYPE_INVALID) ;;
  modify (set_bt_state A2DP_STATE_DISCONNECTED).

Definition update_offload_codec_support : M unit :=
  supported <- read (property_get_bool SYSPROP_A2DP_OFFLOAD_ENABLED false) ;;
  modify (set_is_a2dp_offload_supported supported).

Definition close_a2dp_output : M Z :=
  a2dp <- get ;;
  if negb (bt_lib_handle a2dp && non_null (audio_stream_close a2dp))
  then ret (- ENOSYS)
  else
    (if negb (A2DP_STATE_eqb (bt_state a2dp) A2DP_STATE_DISCONNECTED)
     then
       (* a false return is only logged *)
       _ <- call E_audio_stream_close (audio_stream_close a2dp) ;; ret tt
     else ret tt) ;;
    a2dp_common_init ;;
    modify (set_enc_sampling_rate 0) ;;
    modify (set_enc_channels 0) ;;
    ret 0.

Definition a2dp_check_and_set_scrambler : M Z :=
  a2dp <- get ;;
  scrambler_mode <-
    (if non_null (audio_is_scrambling_enabled a2dp)
        && negb (A2DP_STATE_eqb (bt_state a2dp) A2DP_STATE_DISCONNECTED)
     then
       r <- call E_audio_is_scrambling_enabled (audio_is_scrambling_enabled a2dp) ;;
       ret (negb (r =? 0))      (* int stored into a bool *)
     else ret false) ;;
  if (scrambler_mode : bool) then
    ctrl_scrambler_mode <- get_ctl MIXER_SCRAMBLER_MODE ;;
    match ctrl_scrambler_mode with
    | None => ret (- ENOSYS)
    | Some ctl =>
        r <- set_value MIXER_SCRAMBLER_MODE ctl 0 1 ;;
        if negb (r =? 0) then ret r else ret 0
    end
  else ret 0.

(* a2dp_set_backend_cfg: the local sampling_rate after the LDAC test. *)
Definition backend_sampling_rate (a2dp : a2dp_data) : Z :=
  let sampling_rate := enc_sampling_rate a2dp in
  if (bt_encoder_format a2dp =? ENC_CODEC_TYPE_LDAC)
     && ((sampling_rate =? 48000) || (sampling_rate =? 44100))
  then sampling_rate * 2
  else sampling_rate.

(* a2dp_set_backend_cfg: switch (sampling_rate) *)
Definition rate_str (sampling_rate : Z) : string :=
  if sampling_rate =? 44100 then "KHZ_44P1"%string
  else if sampling_rate =? 48000 then "KHZ_48"%string
  else if sampling_rate =? 88200 then "KHZ_88P2"%string
  else if sampling_rate =? 96000 then "KHZ_96"%string
  else "KHZ_48"%string.

(* a2dp_set_backend_cfg: switch (a2dp.enc_channels) *)
Definition in_channels (enc_channels : Z) : string :=
  if enc_channels =? 1 then "One"%string else (* case 2: default: *) "Two"%string.

Definition a2dp_set_backend_cfg : M unit :=
  a2dp <- get ;;
  let sampling_rate := backend_sampling_rate a2dp in
  ctl_sample_rate <- get_ctl MIXER_SAMPLE_RATE ;;
  match ctl_sample_rate with
  | None => ret tt
  | Some ctl =>
      r <- set_enum_by_string MIXER_SAMPLE_RATE ctl (rate_str sampling_rate) ;;
      if negb (r =? 0) then ret tt
      else
        ctrl_in_channels <- get_ctl MIXER_AFE_IN_CHANNELS ;;
        match ctrl_in_channels with
        | None => ret tt
        | Some ctl' =>
            _ <- set_enum_by_string MIXER_AFE_IN_CHANNELS ctl'
                   (in_channels (enc_channels a2dp)) ;;
            ret tt
        end
  end.

(* a2dp_set_bit_format: switch (enc_bit_format) *)
Definition bit_format (enc_bit_format : Z) : string :=
  if enc_bit_format =? 32 then "S32_LE"%string
  else if enc_bit_format =? 24 then "S24_LE"%string
  else (* case 16: default: *) "S16_LE"%string.

Definition a2dp_set_bit_format (enc_bit_format : Z) : M Z :=
  ctrl_bit_format <- get_ctl MIXER_ENC_BIT_FORMAT ;;
  match ctrl_bit_format with
  | None => ret (- ENOSYS)
  | Some ctl =>
      r <- set_enum_by_string MIXER_ENC_BIT_FORMAT ctl (bit_format enc_bit_format) ;;
      if negb (r =? 0) then ret (- ENOSYS) else ret 0
  end.

Definition a2dp_reset_backend_cfg : M unit :=
  ctl_sample_rate <- get_ctl MIXER_SAMPLE_RATE ;;
  match ctl_sample_rate with
  | None => ret tt
  | Some ctl =>
      r <- set_enum_by_string MIXER_SAMPLE_RATE ctl "KHZ_8"%string ;;
      if negb (r =? 0) then ret tt
      else
        ctrl_in_channels <- get_ctl MIXER_AFE_IN_CHANNELS ;;
        match ctrl_in_channels with
        | None => ret tt
        | Some ctl' =>
            _ <- set_enum_by_string MIXER_AFE_IN_CHANNELS ctl' "Zero"%string ;;
            ret tt
        end
  end.

(* API to configure SBC DSP encoder *)
Definition configure_sbc_enc_format (sbc_bt_cfg : option audio_sbc_encoder_config.t)
    : M bool :=
  match sbc_bt_cfg with
  | None => ret false
  | Some cfg =>
      ctl_enc_data <- get_ctl MIXER_ENC_CONFIG_BLOCK ;;
      match ctl_enc_data with
      | None => ret false
      | Some ctl =>
          let dsp := sbc_dsp_cfg cfg in
          r <- set_array MIXER_ENC_CONFIG_BLOCK ctl (BlkSbc dsp)
                 sbc_enc_cfg_t.sizeof ;;
          if negb (r =? 0) then ret false
          else
            r' <- a2dp_set_bit_format
                    (audio_sbc_encoder_config.bits_per_sample cfg) ;;
            if negb (r' =? 0) then ret false
            else
              modify (set_bt_encoder_format ENC_CODEC_TYPE_SBC) ;;
              modify (set_enc_sampling_rate
                        (audio_sbc_encoder_config.sampling_rate cfg)) ;;
              modify (set_enc_channels
                        (if sbc_enc_cfg_t.channel_mode dsp
                            =? MEDIA_FMT_SBC_CHANNEL_MODE_MONO
                         then 1 else 2)) ;;
              ret true
      end
  end.

(* API to configure APTX DSP encoder.  The argument points to the union;
   the pointer stored in the union is followed without a test. *)
Definition configure_aptx_enc_format
    (aptx_bt_cfg : option audio_aptx_encoder_config.t) : M bool :=
  match aptx_bt_cfg with
  | None => ret false
  | Some u =>
      ctl_enc_data <- get_ctl MIXER_ENC_CONFIG_BLOCK ;;
      match ctl_enc_data with
      | None => ret false
      | Some ctl =>
          a2dp <- get ;;
          match audio_aptx_encoder_config.default_cfg u,
                audio_aptx_encoder_config.dual_mono_cfg u with
          | Some default_cfg, Some dual_mono_cfg =>
              let dsp := aptx_dsp_cfg (is_aptx_dual_mono_supported a2dp)
                           default_cfg dual_mono_cfg in
              r <- set_array MIXER_ENC_CONFIG_BLOCK ctl (BlkAptx dsp)
                     aptx_enc_cfg_t.sizeof ;;
              if negb (r =? 0) then ret false
              else
                r' <- a2dp_set_bit_format
                        (audio_aptx_default_config.bits_per_sample default_cfg) ;;
                if negb (r' =? 0) then ret false
                else
                  modify (set_bt_encoder_format ENC_CODEC_TYPE_APTX) ;;
                  modify (set_enc_channels
                            (custom_enc_cfg_t.num_channels
                               (aptx_enc_cfg_t.custom_cfg dsp))) ;;
                  modify (set_enc_sampling_rate
                            (if negb (is_aptx_dual_mono_supported a2dp)
                             then audio_aptx_default_config.sampling_rate
                                    default_cfg
                             else audio_aptx_dual_mono_config.sampling_rate
                                    dual_mono_cfg)) ;;
                  ret true
          | _, _ => fault
          end
      end
  end.

(* API to configure APTX HD DSP encoder *)
Definition configure_aptx_hd_enc_format
    (aptx_bt_cfg : option audio_aptx_default_config.t) : M bool :=
  match aptx_bt_cfg with
  | None => ret false
  | Some cfg =>
      ctl_enc_data <- get_ctl MIXER_ENC_CONFIG_BLOCK ;;
      match ctl_enc_data with
      | None => ret false
      | Some ctl =>
          r <- set_array MIXER_ENC_CONFIG_BLOCK ctl
                 (BlkCustom (aptx_hd_dsp_cfg cfg)) custom_enc_cfg_t.sizeof ;;
          if negb (r =? 0) then ret false
          else
            r' <- a2dp_set_bit_format
                    (audio_aptx_default_config.bits_per_sample cfg) ;;
            if negb (r' =? 0) then ret false
            else
              modify (set_bt_encoder_format ENC_CODEC_TYPE_APTX_HD) ;;
              modify (set_enc_sampling_rate
                        (audio_aptx_default_config.sampling_rate cfg)) ;;
              modify (set_enc_channels (audio_aptx_default_config.channels cfg)) ;;
              ret true
      end
  end.

(* API to configure AAC DSP encoder *)
Definition configure_aac_enc_format (aac_bt_cfg : option audio_aac_encoder_config.t)
    : M bool :=
  match aac_bt_cfg with
  | None => ret false
  | Some cfg =>
      ctl_enc_data <- get_ctl MIXER_ENC_CONFIG_BLOCK ;;
      match ctl_enc_data with
      | None => ret false
      | Some ctl =>
          r <- set_array MIXER_ENC_CONFIG_BLOCK ctl (BlkAac (aac_dsp_cfg cfg))
                 aac_enc_cfg_t.sizeof ;;
          if negb (r =? 0) then ret false
          else
            r' <- a2dp_set_bit_format
                    (audio_aac_encoder_config.bits_per_sample cfg) ;;
            if negb (r' =? 0) then ret false
            else
              modify (set_bt_encoder_format ENC_CODEC_TYPE_AAC) ;;
              modify (set_enc_sampling_rate
                        (audio_aac_encoder_config.sampling_rate cfg)) ;;
              modify (set_enc_channels (audio_aac_encoder_config.channels cfg)) ;;
              ret true
      end
  end.

Definition configure_ldac_enc_format (ldac_bt_cfg : option audio_ldac_encoder_config.t)
    : M bool :=
  match ldac_bt_cfg with
  | None => ret false
  | Some cfg =>
      ldac_enc_data <- get_ctl MIXER_ENC_CONFIG_BLOCK ;;
      match ldac_enc_data with
      | None => ret false
      | Some ctl =>
          let dsp := ldac_dsp_cfg cfg in
          r <- set_array MIXER_ENC_CONFIG_BLOCK ctl (BlkLdac dsp)
                 ldac_enc_cfg_t.sizeof ;;
          if negb (r =? 0) then ret false
          else
            r' <- a2dp_set_bit_format
                    (audio_ldac_encoder_config.bits_per_sample cfg) ;;
            if negb (r' =? 0) then ret false
            else
              modify (set_bt_encoder_format ENC_CODEC_TYPE_LDAC) ;;
              modify (set_enc_sampling_rate
                        (audio_ldac_encoder_config.sampling_rate cfg)) ;;
              modify (set_enc_channels
                        (custom_enc_cfg_t.num_channels
                           (ldac_enc_cfg_t.custom_cfg dsp))) ;;
              ret true
      end
  end.

Definition configure_a2dp_encoder_format : M bool :=
  a2dp <- get ;;
  if negb (non_null (audio_get_codec_config a2dp)) then ret false
  else
    r <- call E_audio_get_codec_config (audio_get_codec_config a2dp) ;;
    let (codec_info, codec_type) := (r : option codec_info.t * Z) in
    if codec_type =? ENC_CODEC_TYPE_SBC then
      configure_sbc_enc_format (option_map codec_info.as_sbc codec_info)
    else if codec_type =? ENC_CODEC_TYPE_APTX then
      modify (set_is_aptx_dual_mono_supported false) ;;
      (* &aptx_encoder_cfg, the address of a local, is never null *)
      configure_aptx_enc_format (Some codec_info)
    else if codec_type =? ENC_CODEC_TYPE_APTX_HD then
      configure_aptx_hd_enc_format (option_map codec_info.as_aptx_default codec_info)
    else if codec_type =? ENC_CODEC_TYPE_AAC then
      configure_aac_enc_format (option_map codec_info.as_aac codec_info)
    else if codec_type =? ENC_CODEC_TYPE_LDAC then
      configure_ldac_enc_format (option_map codec_info.as_ldac codec_info)
    else ret false.

Definition audio_extn_a2dp_start_playback : M Z :=
  a2dp <- get ;;
  if negb (bt_lib_handle a2dp && non_null (audio_stream_start a2dp)
           && non_null (audio_get_codec_config a2dp))
  then ret (- ENOSYS)
  else if a2dp_suspended a2dp then
    (* session will be restarted after suspend completion *)
    ret (- ENOSYS)
  else
    ret_ <-
      (if negb (a2dp_started a2dp) && (a2dp_total_active_session_request a2dp =? 0)
       then
         r <- call E_audio_stream_start (audio_stream_start a2dp) ;;
         if negb (r =? 0) then modify (set_a2dp_started false) ;; ret r
         else
           is_configured <- configure_a2dp_encoder_format ;;
           if (is_configured : bool)
           then modify (set_a2dp_started true) ;; ret 0
           else modify (set_a2dp_started false) ;; ret (- ETIMEDOUT)
       else ret 0) ;;
    a2dp' <- get ;;
    (if a2dp_started a2dp' then
       modify (fun a =>
                 set_a2dp_total_active_session_request
                   (wrap_int (a2dp_total_active_session_request a + 1)) a) ;;
       _ <- a2dp_check_and_set_scrambler ;;
       a2dp_set_backend_cfg
     else ret tt) ;;
    ret ret_.

Definition reset_a2dp_enc_config_params : M Z :=
  ctl_enc_config <- get_ctl MIXER_ENC_CONFIG_BLOCK ;;
  match ctl_enc_config with
  | None => ret tt
  | Some ctl =>
      _ <- set_array MIXER_ENC_CONFIG_BLOCK ctl (BlkSbc sbc_enc_cfg_t.zero)
             sbc_enc_cfg_t.sizeof ;;
      modify (set_bt_encoder_format ENC_MEDIA_FMT_NONE)
  end ;;
  a2dp_set_bit_format DEFAULT_ENCODER_BIT_FORMAT.

Definition audio_extn_a2dp_stop_playback : M Z :=
  a2dp <- get ;;
  if negb (bt_lib_handle a2dp && non_null (audio_stream_stop a2dp))
  then ret (- ENOSYS)
  else
    (if 0 <? a2dp_total_active_session_request a2dp
     then modify (fun a =>
                    set_a2dp_total_active_session_request
                      (a2dp_total_active_session_request a - 1) a)
     else ret tt) ;;
    a2dp' <- get ;;
    (if a2dp_started a2dp' && (a2dp_total_active_session_request a2dp' =? 0)
     then
       (* a negative return is only logged *)
       _ <- call E_audio_stream_stop (audio_stream_stop a2dp') ;;
       _ <- reset_a2dp_enc_config_params ;;
       a2dp_reset_backend_cfg ;;
       modify (set_a2dp_started false)
     else ret tt) ;;
    ret 0.

Definition audio_extn_a2dp_is_ready : M bool :=
  a2dp <- get ;;
  if a2dp_suspended a2dp then ret false
  else if negb (A2DP_STATE_eqb (bt_state a2dp) A2DP_STATE_DISCONNECTED)
          && is_a2dp_offload_supported a2dp
          && non_null (audio_check_a2dp_ready a2dp)
  then
    r <- call E_audio_check_a2dp_ready (audio_check_a2dp_ready a2dp) ;;
    ret (negb (r =? 0))
  else ret false.

Definition audio_extn_a2dp_init : M unit :=
  modify (set_bt_lib_handle false) ;;
  a2dp_common_init ;;
  modify (set_enc_sampling_rate 48000) ;;
  modify (set_is_a2dp_offload_supported false) ;;
  modify (set_is_handoff_in_progress false) ;;
  modify (set_is_aptx_dual_mono_supported false) ;;
  _ <- reset_a2dp_enc_config_params ;;
  update_offload_codec_support.

(** ** Requests served in sequence *)

Inductive request : Type := Start | Stop.

Definition serve (r : request) : M Z :=
  match r with
  | Start => audio_extn_a2dp_start_playback
  | Stop => audio_extn_a2dp_stop_playback
  end.

(* One served request: the session before and after it, the value
   returned and the calls made. *)
Record step : Type := mk_step {
  req : request;
  before : a2dp_data;
  after : a2dp_data;
  result : Z;
  calls : list event
}.

(* The requests served one after the other, up to the first one that
   does not return. *)
Fixpoint run (rs : list request) (s : a2dp_data) (w : world) : list step :=
  match rs with
  | [] => []
  | r :: rs' =>
      match serve r s w with
      | None => []
      | Some (res, s', w', t) => mk_step r s s' res t :: run rs' s' w'
      end
  end.

(* The counter goes from 1 to 0 while the datapath is started. *)
Definition reaches_zero (st : step) : bool :=
  a2dp_started (before st)
  && (a2dp_total_active_session_request (before st) =? 1)
  && (a2dp_total_active_session_request (after st) =? 0).

(* What one served request does to the counter and to the IPC stop. *)
Definition step_ok (st : step) : Prop :=
  0 <= a2dp_total_active_session_request (after st)
  /\ count_events is_stream_stop (calls st)
     = (if reaches_zero st then 1 else 0)%nat
  /\ (0 < a2dp_total_active_session_request (after st) ->
      count_events is_stream_stop (calls st) = 0%nat)
  /\ (req st = Stop ->
      a2dp_total_active_session_request (after st)
      = a2dp_total_active_session_request (before st)
      \/ (0 < a2dp_total_active_session_request (before st)
          /\ a2dp_total_active_session_request (after st)
             = a2dp_total_active_session_request (before st) - 1)).

(* The disconnect branch of audio_extn_a2dp_set_parameters. *)
Definition device_disconnect : M Z :=
  _ <- reset_a2dp_enc_config_params ;;
  close_a2dp_output.

(** ** Vocabulary of the statements *)

Definition post (A : Type) : Type :=
  A -> a2dp_data -> world -> list event -> Prop.

(* The run returns, and what it returns satisfies [Q]. *)
Definition runs {A : Type} (m : M A) (s : a2dp_data) (w : world) (Q : post A)
    : Prop :=
  exists a s' w' t, m s w = Some (a, s', w', t) /\ Q a s' w' t.

(* If the run returns, what it returns satisfies [Q]. *)
Definition may {A : Type} (m : M A) (s : a2dp_data) (w : world) (Q : post A)
    : Prop :=
  forall a s' w' t, m s w = Some (a, s', w', t) -> Q a s' w' t.

(* The session with the fields the encoder configuration owns blanked:
   two sessions with the same image differ in those fields only. *)
Definition codec_erased (a : a2dp_data) : a2dp_data :=
  set_is_aptx_dual_mono_supported false
    (set_enc_channels 0 (set_enc_sampling_rate 0 (set_bt_encoder_format 0 a))).

(* The same with the start/stop bookkeeping blanked as well: what is
   left is the library handle, its entry points, the connection state
   and the suspend, offload and handoff flags. *)
Definition session_erased (a : a2dp_data) : a2dp_data :=
  set_a2dp_started false
    (set_a2dp_total_active_session_request 0 (codec_erased a)).

(* What holds of the counter between requests. *)
Definition counter_inv (a : a2dp_data) : Prop :=
  0 <= a2dp_total_active_session_request a
  /\ (a2dp_started a = true -> 1 <= a2dp_total_active_session_request a).

(* The three fields the configure functions store on success. *)
Definition enc_fields (a : a2dp_data) : Z * Z * Z :=
  (bt_encoder_format a, enc_sampling_rate a, enc_channels a).

End Functions.

(* Calls made by the scrambler and backend configuration. *)
Definition aux_event (e : event) : bool :=
  match e with
  | E_audio_is_scrambling_enabled
  | E_mixer_get_ctl_by_name _
  | E_mixer_ctl_set_enum_by_string _ _
  | E_mixer_ctl_set_value _ _ _ => true
  | _ => false
  end.

(* Calls made while an encoder is configured or reset. *)
Definition config_event (e : event) : bool :=
  aux_event e || is_enc_config_write e || is_get_codec_config e.

(* Calls that tear a stream down: the IPC stop and close, the lookup of
   a mixer control, the write of the zeroed encoder block and of the
   reset values of the bit format, the backend sample rate and the AFE
   input channels. *)
Definition teardown_call (e : event) : Prop :=
  match e with
  | E_audio_stream_stop | E_audio_stream_close => True
  | E_mixer_get_ctl_by_name _ => True
  | E_mixer_ctl_set_array name blk size =>
      name = MIXER_ENC_CONFIG_BLOCK
      /\ blk = BlkSbc sbc_enc_cfg_t.zero
      /\ size = sbc_enc_cfg_t.sizeof
  | E_mixer_ctl_set_enum_by_string name value =>
      (name = MIXER_ENC_BIT_FORMAT /\ value = "S16_LE"%string)
      \/ (name = MIXER_SAMPLE_RATE /\ value = "KHZ_8"%string)
      \/ (name = MIXER_AFE_IN_CHANNELS /\ value = "Zero"%string)
  | _ => False
  end.

(** ** A concrete platform, to run the model on examples *)

Module Sim.

Record sim_world : Type := mk_sim_world {
  ctl_present : string -> bool;   (* which controls the mixer has *)
  array_status : Z;               (* what mixer_ctl_set_array returns *)
  enum_status : string -> Z;      (* what set_enum_by_string returns, by value *)
  value_status : Z;               (* what mixer_ctl_set_value returns *)
  offload_prop : bool             (* the a2dp_offload.enable property *)
}.

Definition env : Env :=
  {| world := sim_world;
     mixer_ctl := string;
     mixer_get_ctl_by_name :=
       fun w name => if ctl_present w name then Some name else None;
     mixer_ctl_set_array := fun _ _ _ w => (array_status w, w);
     mixer_ctl_set_enum_by_string := fun _ value w => (enum_status w value, w);
     mixer_ctl_set_value := fun _ _ _ w => (value_status w, w);
     property_get_bool := fun _ _ w => offload_prop w |}.

(* A mixer with every control, accepting every write. *)
Definition good_mixer : sim_world :=
  mk_sim_world (fun _ => true) 0 (fun _ => 0) 0 true.

(* A mixer without any control. *)
Definition empty_mixer : sim_world :=
  mk_sim_world (fun _ => false) 0 (fun _ => 0) 0 true.

(* An IPC entry point returning a fixed status. *)
Definition ipc (status : Z) : option (@ipc_int_t env) :=
  Some (fun w => (status, w)).

Definition ipc_void : option (@ipc_void_t env) := Some (fun w => w).

(* SBC {subbands=8, blockLength=16, samplingRate=44100, channels=2,
   alloc=false, bitrate=328000, bitsPerSample=16} *)
Definition sbc_params : audio_sbc_encoder_config.t :=
  audio_sbc_encoder_config.mk 8 16 44100 2 0 2 53 328000 16.

(* LDAC {samplingRate=48000, channelMode=4, bitRate=606000, mtu=679,
   bitsPerSample=16} *)
Definition ldac_params : audio_ldac_encoder_config.t :=
  audio_ldac_encoder_config.mk 48000 606000 4 679 16.

Definition aac_params : audio_aac_encoder_config.t :=
  audio_aac_encoder_config.mk 1 0 2 44100 256000 16.

Definition aptx_params : audio_aptx_default_config.t :=
  audio_aptx_default_config.mk 48000 2 352000 16.

Definition info : codec_info.t :=
  codec_info.mk sbc_params aptx_params
    (audio_aptx_dual_mono_config.mk 48000 2 352000 0) aac_params ldac_params.

Definition get_codec (codec_type : Z) : option (@audio_get_codec_config_t env) :=
  Some (fun w => ((Some info, codec_type), w)).

(* The session once the IPC library is loaded and the stream opened,
   every entry point resolved; [close] and [stop] are the close and stop
   entry points, [codec_type] the codec the stack negotiated. *)
Definition loaded (close stop : option (@ipc_int_t env)) (codec_type : Z)
    : @a2dp_data env :=
  mk_a2dp_data true (ipc 0) close (ipc 0) stop (ipc 0) ipc_void ipc_void
    (get_codec codec_type) (ipc 1) (ipc 0)
    A2DP_STATE_CONNECTED ENC_CODEC_TYPE_INVALID 48000 0
    false false 0 true false false.

(* Every entry point succeeding, SBC negotiated. *)
Definition connected : @a2dp_data env :=
  loaded (ipc 1) (ipc 0) ENC_CODEC_TYPE_SBC.

(* What one successful start request with [sbc_params] makes of a
   session. *)
Definition on_air (a : @a2dp_data env) : @a2dp_data env :=
  set_a2dp_total_active_session_request 1
    (set_a2dp_started true
       (set_enc_channels 2
          (set_enc_sampling_rate 44100
             (set_bt_encoder_format ENC_CODEC_TYPE_SBC a)))).

Definition playing : @a2dp_data env := on_air connected.

(* The session as zero-initialised: nothing loaded. *)
Definition unloaded : @a2dp_data env :=
  mk_a2dp_data false None None None None None None None None None None
    A2DP_STATE_CONNECTED 0 0 0 false false 0 false false false.

(* The session audio_extn_a2dp_init leaves on [good_mixer]. *)
Definition initialised : @a2dp_data env :=
  mk_a2dp_data false None None None None None None None None None None
    A2DP_STATE_DISCONNECTED ENC_MEDIA_FMT_NONE 48000 0
    false false 0 true false false.

End Sim.

(** * Loading, parameters and queries

    The functions of a2dp.c that load the Bluetooth IPC library, react
    to parameter events and answer queries.  Their runs record, besides
    the calls of [event], the loader and IPC calls [event] has no name
    for. *)

Inductive host_event : Type :=
| Traced (e : event)
| H_dlopen (name : string)
| H_dlclose
| H_audio_stream_open
| H_audio_stream_suspend
| H_clear_a2dp_suspend_flag
| H_check_a2dp_restore (restore : bool).

Definition is_dlopen (e : host_event) : bool :=
  match e with H_dlopen _ => true | _ => false end.
Definition is_dlclose (e : host_event) : bool :=
  match e with H_dlclose => true | _ => false end.
Definition is_host_stream_open (e : host_event) : bool :=
  match e with H_audio_stream_open => true | _ => false end.
Definition is_host_stream_start (e : host_event) : bool :=
  match e with Traced E_audio_stream_start => true | _ => false end.
Definition is_host_stream_stop (e : host_event) : bool :=
  match e with Traced E_audio_stream_stop => true | _ => false end.
Definition is_host_stream_close (e : host_event) : bool :=
  match e with Traced E_audio_stream_close => true | _ => false end.
Definition is_host_stream_suspend (e : host_event) : bool :=
  match e with H_audio_stream_suspend => true | _ => false end.
Definition is_clear_suspend_flag (e : host_event) : bool :=
  match e with H_clear_a2dp_suspend_flag => true | _ => false end.

Definition count_host_events (p : host_event -> bool) (t : list host_event) : nat :=
  List.length (filter p t).

(* Other constants of the file *)
Definition BT_IPC_LIB_NAME : string := "libbthost_if.so"%string.
Definition SYSPROP_A2DP_CODEC_LATENCIES : string :=
  "vendor.audio.a2dp.codec.latency"%string.
Definition DEFAULT_ENCODER_LATENCY : Z := 200.
Definition ENCODER_LATENCY_AAC : Z := 70.
Definition ENCODER_LATENCY_APTX : Z := 40.
Definition ENCODER_LATENCY_APTX_HD : Z := 20.
Definition ENCODER_LATENCY_LDAC : Z := 40.
Definition ENCODER_LATENCY_SBC : Z := 10.
Definition DEFAULT_SINK_LATENCY_AAC : Z := 180.
Definition DEFAULT_SINK_LATENCY_APTX : Z := 160.
Definition DEFAULT_SINK_LATENCY_APTX_HD : Z := 180.
Definition DEFAULT_SINK_LATENCY_LDAC : Z := 180.
Definition DEFAULT_SINK_LATENCY_SBC : Z := 140.

(* Conversion to uint32_t. *)
Definition to_uint32 (z : Z) : Z := z mod 2 ^ 32.

Section HostRuns.
Context {E : Env}.

(* A run as in [M], with the richer record of calls. *)
Definition L (A : Type) : Type :=
  a2dp_data -> world -> option (A * a2dp_data * world * list host_event).

Definition retL {A : Type} (a : A) : L A :=
  fun s w => Some (a, s, w, []).

Definition bindL {A B : Type} (m : L A) (f : A -> L B) : L B :=
  fun s w =>
    match m s w with
    | None => None
    | Some (a, s1, w1, t1) =>
        match f a s1 w1 with
        | None => None
        | Some (b, s2, w2, t2) => Some (b, s2, w2, t1 ++ t2)
        end
    end.

Definition getL : L a2dp_data := fun s w => Some (s, s, w, []).

Definition modifyL (f : a2dp_data -> a2dp_data) : L unit :=
  fun s w => Some (tt, f s, w, []).

Definition readL {A : Type} (f : world -> A) : L A :=
  fun s w => Some (f w, s, w, []).

Definition externL {A : Type} (e : host_event) (f : world -> A * world) : L A :=
  fun s w => let (a, w') := f w in Some (a, s, w', [e]).

(* A call through a function pointer returning int. *)
Definition callL (e : host_event) (p : option ipc_int_t) : L Z :=
  match p with
  | Some f => externL e f
  | None => fun _ _ => None
  end.

(* A call through a function pointer returning void. *)
Definition call_voidL (e : host_event) (p : option ipc_void_t) : L unit :=
  match p with
  | Some f => externL e (fun w => (tt, f w))
  | None => fun _ _ => None
  end.

(* A function of the first part, run here. *)
Definition lift {A : Type} (m : M A) : L A :=
  fun s w =>
    match m s w with
    | None => None
    | Some (a, s', w', t) => Some (a, s', w', map Traced t)
    end.

Definition set_audio_stream_open (v : option ipc_int_t) (a : a2dp_data) : a2dp_data :=
  mk_a2dp_data (bt_lib_handle a) v (audio_stream_close a)
    (audio_stream_start a) (audio_stream_stop a) (audio_stream_suspend a)
    (audio_handoff_triggered a) (clear_a2dp_suspend_flag a)
    (audio_get_codec_config a) (audio_check_a2dp_ready a)
    (audio_is_scrambling_enabled a) (bt_state a) (bt_encoder_format a)
    (enc_sampling_rate a) (enc_channels a) (a2dp_started a) (a2dp_suspended a)
    (a2dp_total_active_session_request a) (is_a2dp_offload_supported a)
    (is_handoff_in_progress a) (is_aptx_dual_mono_supported a).

Definition set_audio_stream_close (v : option ipc_int_t) (a : a2dp_data) : a2dp_data :=
  mk_a2dp_data (bt_lib_handle a) (audio_stream_open a) v
    (audio_stream_start a) (audio_stream_stop a) (audio_stream_suspend a)
    (audio_handoff_triggered a) (clear_a2dp_suspend_flag a)
    (audio_get_codec_config a) (audio_check_a2dp_ready a)
    (audio_is_scrambling_enabled a) (bt_state a) (bt_encoder_format a)
    (enc_sampling_rate a) (enc_channels a) (a2dp_started a) (a2dp_suspended a)
    (a2dp_total_active_session_request a) (is_a2dp_offload_supported a)
    (is_handoff_in_progress a) (is_aptx_dual_mono_supported a).

Definition set_audio_stream_start (v : option ipc_int_t) (a : a2dp_data) : a2dp_data :=
  mk_a2dp_data (bt_lib_handle a) (audio_stream_open a) (audio_stream_close a)
    v (audio_stream_stop a) (audio_stream_suspend a)
    (audio_handoff_triggered a) (clear_a2dp_suspend_flag a)
    (audio_get_codec_config a) (audio_check_a2dp_ready a)
    (audio_is_scrambling_enabled a) (bt_state a) (bt_encoder_format a)
    (enc_sampling_rate a) (enc_channels a) (a2dp_started a) (a2dp_suspended a)
    (a2dp_total_active_session_request a) (is_a2dp_offload_supported a)
    (is_handoff_in_progress a) (is_aptx_dual_mono_supported a).

Definition set_audio_stream_stop (v : option ipc_int_t) (a : a2dp_data) : a2dp_data :=
  mk_a2dp_data (bt_lib_handle a) (audio_stream_open a) (audio_stream_close a)
    (audio_stream_start a) v (audio_stream_suspend a)
    (audio_handoff_triggered a) (clear_a2dp_suspend_flag a)
    (audio_get_codec_config a) (audio_check_a2dp_ready a)
    (audio_is_scrambling_enabled a) (bt_state a) (bt_encoder_format a)
    (enc_sampling_rate a) (enc_channels a) (a2dp_started a) (a2dp_suspended a)
    (a2dp_total_active_session_request a) (is_a2dp_offload_supported a)
    (is_handoff_in_progress a) (is_aptx_dual_mono_supported a).

Definition set_audio_stream_suspend (v : option ipc_int_t) (a : a2dp_data) : a2dp_data :=
  mk_a2dp_data (bt_lib_handle a) (audio_stream_open a) (audio_stream_close a)
    (audio_stream_start a) (audio_stream_stop a) v
    (audio_handoff_triggered a) (clear_a2dp_suspend_flag a)
    (audio_get_codec_config a) (audio_check_a2dp_ready a)
    (audio_is_scrambling_enabled a) (bt_state a) (bt_encoder_format a)
    (enc_sampling_rate a) (enc_channels a) (a2dp_started a) (a2dp_suspended a)
    (a2dp_total_active_session_request a) (is_a2dp_offload_supported a)
    (is_handoff_in_progress a) (is_aptx_dual_mono_supported a).

Definition set_audio_handoff_triggered (v : option ipc_void_t) (a : a2dp_data)
    : a2dp_data :=
  mk_a2dp_data (bt_lib_handle a) (audio_stream_open a) (audio_stream_close a)
    (audio_stream_start a) (audio_stream_stop a) (audio_stream_suspend a)
    v (clear_a2dp_suspend_flag a)
    (audio_get_codec_config a) (audio_check_a2dp_ready a)
    (audio_is_scrambling_enabled a) (bt_state a) (bt_encoder_format a)
    (enc_sampling_rate a) (enc_channels a) (a2dp_started a) (a2dp_suspended a)
    (a2dp_total_active_session_request a) (is_a2dp_offload_supported a)
    (is_handoff_in_progress a) (is_aptx_dual_mono_supported a).

Definition set_clear_a2dp_suspend_flag (v : option ipc_void_t) (a : a2dp_data)
    : a2dp_data :=
  mk_a2dp_data (bt_lib_handle a) (audio_stream_open a) (audio_stream_close a)
    (audio_stream_start a) (audio_stream_stop a) (audio_stream_suspend a)
    (audio_handoff_triggered a) v
    (audio_get_codec_config a) (audio_check_a2dp_ready a)
    (audio_is_scrambling_enabled a) (bt_state a) (bt_encoder_format a)
    (enc_sampling_rate a) (enc_channels a) (a2dp_started a) (a2dp_suspended a)
    (a2dp_total_active_session_request a) (is_a2dp_offload_supported a)
    (is_handoff_in_progress a) (is_aptx_dual_mono_supported a).

Definition set_audio_get_codec_config (v : option audio_get_codec_config_t)
    (a : a2dp_data) : a2dp_data :=
  mk_a2dp_data (bt_lib_handle a) (audio_stream_open a) (audio_stream_close a)
    (audio_stream_start a) (audio_stream_stop a) (audio_stream_suspend a)
    (audio_handoff_triggered a) (clear_a2dp_suspend_flag a)
    v (audio_check_a2dp_ready a)
    (audio_is_scrambling_enabled a) (bt_state a) (bt_encoder_format a)
    (enc_sampling_rate a) (enc_channels a) (a2dp_started a) (a2dp_suspended a)
    (a2dp_total_active_session_request a) (is_a2dp_offload_supported a)
    (is_handoff_in_progress a) (is_aptx_dual_mono_supported a).

Definition set_audio_check_a2dp_ready (v : option ipc_int_t) (a : a2dp_data)
    : a2dp_data :=
  mk_a2dp_data (bt_lib_handle a) (audio_stream_open a) (audio_stream_close a)
    (audio_stream_start a) (audio_stream_stop a) (audio_stream_suspend a)
    (audio_handoff_triggered a) (clear_a2dp_suspend_flag a)
    (audio_get_codec_config a) v
    (audio_is_scrambling_enabled a) (bt_state a) (bt_encoder_format a)
    (enc_sampling_rate a) (enc_channels a) (a2dp_started a) (a2dp_suspended a)
    (a2dp_total_active_session_request a) (is_a2dp_offload_supported a)
    (is_handoff_in_progress a) (is_aptx_dual_mono_supported a).

Definition set_audio_is_scrambling_enabled (v : option ipc_int_t) (a : a2dp_data)
    : a2dp_data :=
  mk_a2dp_data (bt_lib_handle a) (audio_stream_open a) (audio_stream_close a)
    (audio_stream_start a) (audio_stream_stop a) (audio_stream_suspend a)
    (audio_handoff_triggered a) (clear_a2dp_suspend_flag a)
    (audio_get_codec_config a) (audio_check_a2dp_ready a)
    v (bt_state a) (bt_encoder_format a)
    (enc_sampling_rate a) (enc_channels a) (a2dp_started a) (a2dp_suspended a)
    (a2dp_total_active_session_request a) (is_a2dp_offload_supported a)
    (is_handoff_in_progress a) (is_aptx_dual_mono_supported a).

End HostRuns.

Notation "x <~ m ;; k" := (bindL m (fun x => k))
  (at level 61, m at next level, right associativity).

(** The dynamic loader, the parameter strings, the property store and
    the device manager, as far as the file uses them.  None of them is
    part of the file. *)
Class Host {E : Env} : Type := {
  (* <dlfcn.h>.  The handle is kept in [a2dp] only as null or not, so
     [dlclose] takes the library from the world. *)
  lib_handle : Type;
  dlopen : string -> world -> option lib_handle * world;
  errno : world -> Z;
  dlsym_int : lib_handle -> string -> world -> option ipc_int_t;
  dlsym_void : lib_handle -> string -> world -> option ipc_void_t;
  dlsym_get_codec_config :
    lib_handle -> string -> world -> option audio_get_codec_config_t;
  dlclose : world -> world;
  (* <cutils/str_parms.h>: the status returned and the value copied out. *)
  str_parms : Type;
  str_parms_get_str : str_parms -> string -> Z * string;
  (* <system/audio.h> *)
  AUDIO_PARAMETER_DEVICE_CONNECT : string;
  AUDIO_PARAMETER_DEVICE_DISCONNECT : string;
  audio_is_a2dp_out_device : Z -> bool;
  atoi : string -> Z;
  (* audio_hw: the use cases of the device; whether one is a PCM
     playback routed to an A2DP output; check_a2dp_restore, which may
     come back into this file. *)
  audio_usecase : Type;
  usecase_list : world -> list audio_usecase;
  is_a2dp_playback : audio_usecase -> world -> bool;
  check_a2dp_restore : audio_usecase -> bool -> L unit;
  (* <cutils/properties.h>: the length returned and the value. *)
  property_get : string -> world -> Z * string;
  (* sscanf (value, "%d/%d/%d/%d/%d", ...): the number of conversions
     and the five integers after the call. *)
  sscanf_offsets : string -> Z * (Z * Z * Z * Z * Z)
}.

Section HostFunctions.
Context {E : Env} {HO : Host}.

(* API to open Bluetooth IPC library to start IPC communication *)
Definition open_a2dp_output : L Z :=
  a2dp <~ getL ;;
  if negb (A2DP_STATE_eqb (bt_state a2dp) A2DP_STATE_DISCONNECTED)
  then retL (- ENOSYS)
  else
    failed <~
      (if negb (bt_lib_handle a2dp) then
         handle <~ externL (H_dlopen BT_IPC_LIB_NAME) (dlopen BT_IPC_LIB_NAME) ;;
         match handle with
         | None =>
             e <~ readL errno ;;
             _ <~ modifyL (set_bt_state A2DP_STATE_DISCONNECTED) ;;
             retL (Some (- e))
         | Some lib =>
             _ <~ modifyL (set_bt_lib_handle true) ;;
             p <~ readL (dlsym_int lib "audio_stream_open") ;;
             _ <~ modifyL (set_audio_stream_open p) ;;
             p <~ readL (dlsym_int lib "audio_stream_start") ;;
             _ <~ modifyL (set_audio_stream_start p) ;;
             p <~ readL (dlsym_get_codec_config lib "audio_get_codec_config") ;;
             _ <~ modifyL (set_audio_get_codec_config p) ;;
             p <~ readL (dlsym_int lib "audio_stream_suspend") ;;
             _ <~ modifyL (set_audio_stream_suspend p) ;;
             p <~ readL (dlsym_void lib "audio_handoff_triggered") ;;
             _ <~ modifyL (set_audio_handoff_triggered p) ;;
             p <~ readL (dlsym_void lib "clear_a2dp_suspend_flag") ;;
             _ <~ modifyL (set_clear_a2dp_suspend_flag p) ;;
             p <~ readL (dlsym_int lib "audio_stream_stop") ;;
             _ <~ modifyL (set_audio_stream_stop p) ;;
             p <~ readL (dlsym_int lib "audio_stream_close") ;;
             _ <~ modifyL (set_audio_stream_close p) ;;
             p <~ readL (dlsym_int lib "audio_check_a2dp_ready") ;;
             _ <~ modifyL (set_audio_check_a2dp_ready p) ;;
             p <~ readL (dlsym_int lib "audio_is_scrambling_enabled") ;;
             _ <~ modifyL (set_audio_is_scrambling_enabled p) ;;
             retL None
         end
       else retL None) ;;
    match (failed : option Z) with
    | Some ret => retL ret
    | None =>
        a2dp' <~ getL ;;
        if bt_lib_handle a2dp' && non_null (audio_stream_open a2dp') then
          ret <~ callL H_audio_stream_open (audio_stream_open a2dp') ;;
          if negb (ret =? 0) then
            _ <~ externL H_dlclose (fun w => (tt, dlclose w)) ;;
            _ <~ modifyL (set_bt_lib_handle false) ;;
            _ <~ modifyL (set_bt_state A2DP_STATE_DISCONNECTED) ;;
            retL ret
          else
            _ <~ modifyL (set_bt_state A2DP_STATE_CONNECTED) ;;
            retL ret
        else
          _ <~ modifyL (set_bt_state A2DP_STATE_DISCONNECTED) ;;
          retL (- ENOSYS)
    end.

(* audio_extn_a2dp_set_parameters: one of the two list_for_each loops.
   The use case list is the one the device has when the loop starts;
   the device lock is released around each call, which the run does
   not show. *)
Fixpoint restore_usecases (restore : bool) (usecases : list audio_usecase) : L unit :=
  match usecases with
  | [] => retL tt
  | uc_info :: rest =>
      routed <~ readL (is_a2dp_playback uc_info) ;;
      _ <~ (if (routed : bool) then
              _ <~ externL (H_check_a2dp_restore restore) (fun w => (tt, w)) ;;
              check_a2dp_restore uc_info restore
            else retL tt) ;;
      restore_usecases restore rest
  end.

(* audio_extn_a2dp_set_parameters: the branch that sets the suspend
   state. *)
Definition suspend_branch : L unit :=
  _ <~ modifyL (set_a2dp_suspended true) ;;
  usecases <~ readL usecase_list ;;
  _ <~ restore_usecases false usecases ;;
  _ <~ lift reset_a2dp_enc_config_params ;;
  a2dp <~ getL ;;
  if non_null (audio_stream_suspend a2dp)
  then _ <~ callL H_audio_stream_suspend (audio_stream_suspend a2dp) ;; retL tt
  else retL tt.

(* audio_extn_a2dp_set_parameters: the branch that resets the suspend
   state. *)
Definition resume_branch : L unit :=
  a2dp <~ getL ;;
  _ <~ (if non_null (clear_a2dp_suspend_flag a2dp)
        then call_voidL H_clear_a2dp_suspend_flag (clear_a2dp_suspend_flag a2dp)
        else retL tt) ;;
  _ <~ modifyL (set_a2dp_suspended false) ;;
  a2dp' <~ getL ;;
  _ <~ (if 0 <? a2dp_total_active_session_request a2dp' then
          if non_null (audio_stream_start a2dp') then
            ret <~ lift (call E_audio_stream_start (audio_stream_start a2dp')) ;;
            if negb (ret =? 0) then modifyL (set_a2dp_started false) else retL tt
          else retL tt
        else retL tt) ;;
  usecases <~ readL usecase_list ;;
  restore_usecases true usecases.

Definition audio_extn_a2dp_set_parameters (parms : str_parms) : L unit :=
  a2dp <~ getL ;;
  if negb (is_a2dp_offload_supported a2dp) then retL tt
  else
    let (ret, value) := str_parms_get_str parms AUDIO_PARAMETER_DEVICE_CONNECT in
    if 0 <=? ret then
      if audio_is_a2dp_out_device (atoi value)
      then _ <~ open_a2dp_output ;; retL tt
      else retL tt
    else
      let (ret, value) :=
        str_parms_get_str parms AUDIO_PARAMETER_DEVICE_DISCONNECT in
      if 0 <=? ret then
        if audio_is_a2dp_out_device (atoi value)
        then
          _ <~ lift reset_a2dp_enc_config_params ;;
          _ <~ lift close_a2dp_output ;;
          retL tt
        else retL tt
      else
        let (ret, value) := str_parms_get_str parms "A2dpSuspended" in
        if 0 <=? ret then
          if bt_lib_handle a2dp
             && negb (A2DP_STATE_eqb (bt_state a2dp) A2DP_STATE_DISCONNECTED)
          then
            if String.eqb value "true" && negb (a2dp_suspended a2dp)
            then suspend_branch
            else if a2dp_suspended a2dp then resume_branch
            else retL tt
          else retL tt
        else retL tt.

Definition audio_extn_a2dp_set_handoff_mode (is_on : bool) : M unit :=
  modify (set_is_handoff_in_progress is_on).

Definition audio_extn_a2dp_is_force_device_switch : M bool :=
  a2dp <- get ;;
  ret (is_handoff_in_progress a2dp || negb (a2dp_started a2dp)).

(* *sample_rate = a2dp.enc_sampling_rate: the uint32_t field is stored
   into the int of the caller, so a rate of 2^31 or more comes back
   negative. *)
Definition audio_extn_a2dp_get_sample_rate : M Z :=
  a2dp <- get ;;
  ret (wrap_int (enc_sampling_rate a2dp)).

Definition audio_extn_a2dp_is_suspended : M bool :=
  a2dp <- get ;;
  ret (a2dp_suspended a2dp).

(* audio_extn_a2dp_get_encoder_latency: latency = runtime ? offset :
   default; latency += sink, in uint32_t. *)
Definition codec_latency (runtime : bool) (offset encoder sink : Z) : Z :=
  to_uint32 (to_uint32 (if runtime then offset else encoder) + sink).

Definition audio_extn_a2dp_get_encoder_latency : M Z :=
  p <- read (property_get SYSPROP_A2DP_CODEC_LATENCIES) ;;
  let (len, value) := (p : Z * string) in
  let scanned := sscanf_offsets value in
  (* avsync_runtime_prop, after the sscanf test *)
  let avsync_runtime_prop :=
    if 0 <? len then (if negb (fst scanned =? 5) then 0 else len) else len in
  (* the offsets: zero unless sscanf ran *)
  let '(sbc_offset, aptx_offset, aptxhd_offset, aac_offset, ldac_offset) :=
    if 0 <? len then snd scanned else (0, 0, 0, 0, 0) in
  let runtime := 0 <? avsync_runtime_prop in
  a2dp <- get ;;
  let fmt := bt_encoder_format a2dp in
  if fmt =? ENC_CODEC_TYPE_SBC then
    ret (codec_latency runtime sbc_offset ENCODER_LATENCY_SBC DEFAULT_SINK_LATENCY_SBC)
  else if fmt =? ENC_CODEC_TYPE_APTX then
    ret (codec_latency runtime aptx_offset ENCODER_LATENCY_APTX
           DEFAULT_SINK_LATENCY_APTX)
  else if fmt =? ENC_CODEC_TYPE_APTX_HD then
    ret (codec_latency runtime aptxhd_offset ENCODER_LATENCY_APTX_HD
           DEFAULT_SINK_LATENCY_APTX_HD)
  else if fmt =? ENC_CODEC_TYPE_AAC then
    ret (codec_latency runtime aac_offset ENCODER_LATENCY_AAC
           DEFAULT_SINK_LATENCY_AAC)
  else if fmt =? ENC_CODEC_TYPE_LDAC then
    ret (codec_latency runtime ldac_offset ENCODER_LATENCY_LDAC
           DEFAULT_SINK_LATENCY_LDAC)
  else ret (to_uint32 DEFAULT_ENCODER_LATENCY).

(** ** Vocabulary of the statements about these runs *)

Definition postL (A : Type) : Type :=
  A -> a2dp_data -> world -> list host_event -> Prop.

Definition runsL {A : Type} (m : L A) (s : a2dp_data) (w : world) (Q : postL A)
    : Prop :=
  exists a s' w' t, m s w = Some (a, s', w', t) /\ Q a s' w' t.

(* The entry points of the session, in the order of the structure. *)
Definition entry_points (a : a2dp_data) :=
  (audio_stream_open a, audio_stream_close a, audio_stream_start a,
   audio_stream_stop a, audio_stream_suspend a, audio_handoff_triggered a,
   clear_a2dp_suspend_flag a, audio_get_codec_config a,
   audio_check_a2dp_ready a, audio_is_scrambling_enabled a).

(* The session with the library handle, the entry points and the
   connection state blanked: what open_a2dp_output may change. *)
Definition binding_erased (a : a2dp_data) : a2dp_data :=
  mk_a2dp_data false None None None None None None None None None None
    A2DP_STATE_DISCONNECTED (bt_encoder_format a)
    (enc_sampling_rate a) (enc_channels a) (a2dp_started a) (a2dp_suspended a)
    (a2dp_total_active_session_request a) (is_a2dp_offload_supported a)
    (is_handoff_in_progress a) (is_aptx_dual_mono_supported a).

(* No use case of the device is a PCM playback routed to A2DP. *)
Definition no_a2dp_playback (w : world) : Prop :=
  forall uc, In uc (usecase_list w) -> is_a2dp_playback uc w = false.

(* The parameter set has no connect key and names an A2DP device under
   its disconnect key, and offload is supported: the event is a
   disconnect request. *)
Definition disconnect_request (parms : str_parms) (a : a2dp_data) : Prop :=
  is_a2dp_offload_supported a = true
  /\ fst (str_parms_get_str parms AUDIO_PARAMETER_DEVICE_CONNECT) < 0
  /\ 0 <= fst (str_parms_get_str parms AUDIO_PARAMETER_DEVICE_DISCONNECT)
  /\ audio_is_a2dp_out_device
       (atoi (snd (str_parms_get_str parms AUDIO_PARAMETER_DEVICE_DISCONNECT)))
     = true.

(* The parameter set has neither a connect nor a disconnect key, its
   "A2dpSuspended" key has the value [value], offload is supported,
   the library is loaded and the state is not DISCONNECTED: the event
   reaches the test of the value. *)
Definition suspend_request (parms : str_parms) (value : string) (a : a2dp_data)
    : Prop :=
  is_a2dp_offload_supported a = true
  /\ fst (str_parms_get_str parms AUDIO_PARAMETER_DEVICE_CONNECT) < 0
  /\ fst (str_parms_get_str parms AUDIO_PARAMETER_DEVICE_DISCONNECT) < 0
  /\ 0 <= fst (str_parms_get_str parms "A2dpSuspended")
  /\ snd (str_parms_get_str parms "A2dpSuspended") = value
  /\ bt_lib_handle a = true
  /\ bt_state a <> A2DP_STATE_DISCONNECTED.

(* The world in which the resume branch calls audio_stream_start:
   after clear_a2dp_suspend_flag, if that entry point is set. *)
Definition after_clear_flag (a : a2dp_data) (w : world) : world :=
  match clear_a2dp_suspend_flag a with
  | Some f => f w
  | None => w
  end.

(* The world in which the resume branch walks the use cases: after
   clear_a2dp_suspend_flag and, when a request is active and the entry
   point is set, after audio_stream_start. *)
Definition resume_loop_world (a : a2dp_data) (w : world) : world :=
  if 0 <? a2dp_total_active_session_request a then
    match audio_stream_start a with
    | Some f => snd (f (after_clear_flag a w))
    | None => after_clear_flag a w
    end
  else after_clear_flag a w.

End HostFunctions.

(** ** A concrete host, to run these functions on examples *)

Module SimHost.

(* The library has every entry point; [open_status] and [start_status]
   are what its audio_stream_open and audio_stream_start return. *)
Definition entry (open_status start_status : Z) (name : string)
    : option (@ipc_int_t Sim.env) :=
  if String.eqb name "audio_stream_open" then Sim.ipc open_status
  else if String.eqb name "audio_stream_start" then Sim.ipc start_status
  else if String.eqb name "audio_stream_close" then Sim.ipc 1
  else if String.eqb name "audio_check_a2dp_ready" then Sim.ipc 1
  else Sim.ipc 0.

(* Parameters as key/value pairs. *)
Fixpoint get_str (parms : list (string * string)) (key : string) : Z * string :=
  match parms with
  | [] => (-2, EmptyString)
  | (k, v) :: rest =>
      if String.eqb k key then (Z.of_nat (String.length v), v)
      else get_str rest key
  end.

(* [loadable]: dlopen finds the library (errno is 2 when it does not);
   [usecases]: how many A2DP playback use cases the device has;
   [latency]: the value of the codec latency property. *)
Definition host (loadable : bool) (open_status start_status : Z)
    (usecases : nat) (latency : string) : @Host Sim.env :=
  {| lib_handle := unit;
     dlopen := fun _ w => (if loadable then Some tt else None, w);
     errno := fun _ => 2;
     dlsym_int := fun _ name _ => entry open_status start_status name;
     dlsym_void := fun _ _ _ => Sim.ipc_void;
     dlsym_get_codec_config := fun _ _ _ => Sim.get_codec ENC_CODEC_TYPE_SBC;
     dlclose := fun w => w;
     str_parms := list (string * string);
     str_parms_get_str := get_str;
     AUDIO_PARAMETER_DEVICE_CONNECT := "connect"%string;
     AUDIO_PARAMETER_DEVICE_DISCONNECT := "disconnect"%string;
     audio_is_a2dp_out_device := fun d => d =? 128;
     atoi := fun v => if String.eqb v "128" then 128 else 0;
     audio_usecase := unit;
     usecase_list := fun _ => repeat tt usecases;
     is_a2dp_playback := fun _ _ => true;
     check_a2dp_restore := fun _ _ => retL tt;
     property_get := fun _ _ => (Z.of_nat (String.length latency), latency);
     sscanf_offsets := fun v =>
       if String.eqb v "10/20/30/40/50" then (5, (10, 20, 30, 40, 50))
       else (0, (0, 0, 0, 0, 0)) |}.

(* A loadable library whose entry points succeed, no use case, no
   latency property. *)
Definition plain : @Host Sim.env := host true 0 0 0 EmptyString.

End SimHost.

(** * Reasoning about runs *)

Section Runs.
Context {E : Env}.

Lemma runs_may {A : Type} (m : M A) s w (Q : post A) :
  runs m s w Q -> may m s w Q.
Proof.
  intros (a & s' & w' & t & Hm & HQ) a0 s0 w0 t0 H0.
  rewrite Hm in H0. inversion H0; subst. exact HQ.
Qed.

Lemma runs_weaken {A : Type} (m : M A) s w (Q Q' : post A) :
  runs m s w Q -> (forall a s' w' t, Q a s' w' t -> Q' a s' w' t) ->
  runs m s w Q'.
Proof.
  intros (a & s' & w' & t & Hm & HQ) HQQ'. exists a, s', w', t. auto.
Qed.

Lemma may_weaken {A : Type} (m : M A) s w (Q Q' : post A) :
  may m s w Q -> (forall a s' w' t, Q a s' w' t -> Q' a s' w' t) ->
  may m s w Q'.
Proof. unfold may. eauto. Qed.

Lemma runs_ret {A : Type} (a : A) s w (Q : post A) :
  Q a s w [] -> runs (ret a) s w Q.
Proof. intros HQ. exists a, s, w, []. auto. Qed.

Lemma runs_get s w (Q : post a2dp_data) : Q s s w [] -> runs get s w Q.
Proof. intros HQ. exists s, s, w, []. auto. Qed.

Lemma runs_modify f s w (Q : post unit) : Q tt (f s) w [] -> runs (modify f) s w Q.
Proof. intros HQ. exists tt, (f s), w, []. auto. Qed.

Lemma runs_extern {A : Type} e (f : world -> A * world) s w (Q : post A) :
  Q (fst (f w)) s (snd (f w)) [e] -> runs (extern e f) s w Q.
Proof.
  unfold runs, extern. destruct (f w) as [a w']; simpl.
  intros HQ. exists a, s, w', [e]. auto.
Qed.

Lemma runs_get_ctl name s w (Q : post (option mixer_ctl)) :
  Q (mixer_get_ctl_by_name w name) s w [E_mixer_get_ctl_by_name name] ->
  runs (get_ctl name) s w Q.
Proof.
  intros HQ. unfold runs, get_ctl.
  exists (mixer_get_ctl_by_name w name), s, w, [E_mixer_get_ctl_by_name name]. auto.
Qed.

Lemma runs_bind {A B : Type} (m : M A) (f : A -> M B) s w (Q : post B) :
  runs m s w (fun a s1 w1 t1 =>
    runs (f a) s1 w1 (fun b s2 w2 t2 => Q b s2 w2 (t1 ++ t2))) ->
  runs (bind m f) s w Q.
Proof.
  intros (a & s1 & w1 & t1 & Hm & b & s2 & w2 & t2 & Hf & HQ).
  exists b, s2, w2, (t1 ++ t2). unfold bind. rewrite Hm, Hf. auto.
Qed.

Lemma may_bind {A B : Type} (m : M A) (f : A -> M B) s w (Q : post B) :
  may m s w (fun a s1 w1 t1 =>
    may (f a) s1 w1 (fun b s2 w2 t2 => Q b s2 w2 (t1 ++ t2))) ->
  may (bind m f) s w Q.
Proof.
  intros H b s2 w2 t Hb. unfold bind in Hb.
  destruct (m s w) as [[[[a s1] w1] t1]|] eqn:Hm; [|discriminate].
  destruct (f a s1 w1) as [[[[b' s2'] w2'] t2]|] eqn:Hf; [|discriminate].
  inversion Hb; subst. exact (H _ _ _ _ Hm _ _ _ _ Hf).
Qed.

Lemma may_fault {A : Type} s w (Q : post A) : may fault s w Q.
Proof. intros a s' w' t H. discriminate. Qed.

(* A run that returns is the only run. *)
Lemma runs_inv {A : Type} (m : M A) s w (Q : post A) a s' w' t :
  runs m s w Q -> m s w = Some (a, s', w', t) -> Q a s' w' t.
Proof. intros H. exact (runs_may _ _ _ _ H a s' w' t). Qed.

End Runs.

(* Symbolic execution of straight-line code. *)
Ltac wp_step :=
  lazymatch goal with
  | |- runs (bind _ _) _ _ _ => apply runs_bind
  | |- runs (ret _) _ _ _ => apply runs_ret
  | |- runs get _ _ _ => apply runs_get
  | |- runs (modify _) _ _ _ => apply runs_modify
  | |- runs (extern _ _) _ _ _ => apply runs_extern
  | |- runs (get_ctl _) _ _ _ => apply runs_get_ctl
  | |- may (bind _ _) _ _ _ => apply may_bind
  | |- may fault _ _ _ => apply may_fault
  | |- may (ret _) _ _ _ => apply runs_may, runs_ret
  | |- may get _ _ _ => apply runs_may, runs_get
  | |- may (modify _) _ _ _ => apply runs_may, runs_modify
  | |- may (extern _ _) _ _ _ => apply runs_may, runs_extern
  | |- may (get_ctl _) _ _ _ => apply runs_may, runs_get_ctl
  end.

Ltac wp_case :=
  match goal with
  | |- runs (match ?x with _ => _ end) _ _ _ => destruct x eqn:?
  | |- may (match ?x with _ => _ end) _ _ _ => destruct x eqn:?
  end.

Ltac wp := repeat (wp_step; cbv beta).

(* Run through the code, splitting at every test. *)
Ltac wp_all := repeat (wp; try wp_case).

(* Split a conjunction without introducing anything. *)
Ltac splits := repeat match goal with |- _ /\ _ => split end.

(* Use a lemma about a callee in the middle of a run. *)
Ltac wp_use lem :=
  first
    [ eapply runs_weaken; [apply lem|]
    | eapply may_weaken; [apply lem|]
    | eapply may_weaken; [apply runs_may; apply lem|] ];
  cbv beta.

(** ** Arithmetic and traces *)

Lemma wrap_int_small (z : Z) : - 2 ^ 31 <= z < 2 ^ 31 -> wrap_int z = z.
Proof.
  intros H. unfold wrap_int.
  rewrite Z.mod_small by lia. lia.
Qed.

Lemma count_events_app p t1 t2 :
  count_events p (t1 ++ t2) = (count_events p t1 + count_events p t2)%nat.
Proof.
  unfold count_events. rewrite filter_app, length_app. reflexivity.
Qed.

Lemma count_events_absent (p q : event -> bool) t :
  (forall e, q e = true -> p e = false) ->
  forallb q t = true -> count_events p t = 0%nat.
Proof.
  intros Hpq. unfold count_events.
  induction t as [|e t IH]; simpl; [reflexivity|].
  intros H. apply andb_true_iff in H as [He Ht].
  rewrite (Hpq e He). auto.
Qed.

Lemma aux_is_config t : forallb aux_event t = true -> forallb config_event t = true.
Proof.
  rewrite !forallb_forall. intros H e He. unfold config_event.
  rewrite (H e He). reflexivity.
Qed.

Lemma config_no_start_stop e :
  config_event e = true -> is_stream_start e = false /\ is_stream_stop e = false.
Proof. destruct e; cbv; intros H; split; congruence. Qed.

Lemma aux_quiet e :
  aux_event e = true ->
  is_stream_start e = false /\ is_stream_stop e = false
  /\ is_get_codec_config e = false /\ is_enc_config_write e = false.
Proof. destruct e; cbv; intros H; repeat split; congruence. Qed.

Lemma count_stop_config t :
  forallb config_event t = true -> count_events is_stream_stop t = 0%nat.
Proof.
  apply count_events_absent. intros e He. apply (config_no_start_stop e He).
Qed.

Lemma count_start_config t :
  forallb config_event t = true -> count_events is_stream_start t = 0%nat.
Proof.
  apply count_events_absent. intros e He. apply (config_no_start_stop e He).
Qed.

Lemma count_events_cons p e t :
  count_events p (e :: t) = ((if p e then 1 else 0) + count_events p t)%nat.
Proof. unfold count_events. simpl. destruct (p e); reflexivity. Qed.

(** ** The mixer helpers leave the session alone *)

Section Helpers.
Context {E : Env}.

Lemma a2dp_set_bit_format_runs bits s w :
  runs (a2dp_set_bit_format bits) s w
    (fun r s' _ t => s' = s /\ forallb aux_event t = true /\ (r = 0 \/ r = - ENOSYS)).
Proof. unfold a2dp_set_bit_format, set_enum_by_string. wp_all; auto. Qed.

Lemma a2dp_set_backend_cfg_runs s w :
  runs a2dp_set_backend_cfg s w
    (fun _ s' _ t => s' = s /\ forallb aux_event t = true).
Proof. unfold a2dp_set_backend_cfg, set_enum_by_string. wp_all; auto. Qed.

Lemma a2dp_reset_backend_cfg_runs s w :
  runs a2dp_reset_backend_cfg s w
    (fun _ s' _ t => s' = s /\ forallb aux_event t = true).
Proof. unfold a2dp_reset_backend_cfg, set_enum_by_string. wp_all; auto. Qed.

Lemma a2dp_check_and_set_scrambler_runs s w :
  runs a2dp_check_and_set_scrambler s w
    (fun _ s' _ t => s' = s /\ forallb aux_event t = true).
Proof.
  unfold a2dp_check_and_set_scrambler, set_value. wp.
  destruct (audio_is_scrambling_enabled s) as [f|]; simpl; wp_all; auto.
Qed.

End Helpers.

(** ** The configure functions *)

Section Configure.
Context {E : Env}.

(* From the encoder block write on, a configure function either gives
   up and leaves the session as it was, or stores the negotiated
   format; the block write is the first call. *)
Lemma configure_tail_runs ctl blk size bits (commit : M bool) s sc w :
  (forall w1,
     runs commit s w1 (fun ok s' _ t => ok = true /\ s' = sc /\ t = [])) ->
  runs
    (r <- set_array MIXER_ENC_CONFIG_BLOCK ctl blk size ;;
     if negb (r =? 0) then ret false
     else
       r' <- a2dp_set_bit_format bits ;;
       if negb (r' =? 0) then ret false
       else commit) s w
    (fun ok s' _ t =>
       forallb config_event t = true
       /\ hd_error t = Some (E_mixer_ctl_set_array MIXER_ENC_CONFIG_BLOCK blk size)
       /\ ((ok = false /\ s' = s) \/ (ok = true /\ s' = sc))).
Proof.
  intros Hcommit. unfold set_array. wp. wp_case; wp.
  - splits; auto.
  - wp_use a2dp_set_bit_format_runs.
    intros r' s' w' t (-> & Ht & _). apply aux_is_config in Ht.
    wp_case; wp.
    + rewrite app_nil_r. simpl. rewrite Ht. splits; auto.
    + wp_use Hcommit. intros ok s2 w2 t2 (-> & -> & ->).
      rewrite !app_nil_r. simpl. rewrite Ht. splits; auto.
Qed.

(* The assignments after the last fallible step. *)
Ltac commit_runs := intros; wp; splits; reflexivity.

Lemma configure_sbc_enc_format_runs cfg s w :
  runs (configure_sbc_enc_format cfg) s w
    (fun ok s' _ t =>
       forallb config_event t = true
       /\ (forall c ctl,
             cfg = Some c ->
             mixer_get_ctl_by_name w MIXER_ENC_CONFIG_BLOCK = Some ctl ->
             exists t',
               t = E_mixer_get_ctl_by_name MIXER_ENC_CONFIG_BLOCK
                   :: E_mixer_ctl_set_array MIXER_ENC_CONFIG_BLOCK
                        (BlkSbc (sbc_dsp_cfg c)) sbc_enc_cfg_t.sizeof
                   :: t')
       /\ ((ok = false /\ s' = s)
           \/ (ok = true /\ exists c, cfg = Some c
               /\ s' = set_enc_channels
                         (if sbc_enc_cfg_t.channel_mode (sbc_dsp_cfg c)
                             =? MEDIA_FMT_SBC_CHANNEL_MODE_MONO then 1 else 2)
                         (set_enc_sampling_rate (audio_sbc_encoder_config.sampling_rate c)
                            (set_bt_encoder_format ENC_CODEC_TYPE_SBC s))))).
Proof.
  unfold configure_sbc_enc_format. destruct cfg as [c|]; wp;
    [|splits; auto; discriminate].
  wp_case; [|wp; splits; auto; discriminate].
  cbv zeta. eapply runs_weaken; [apply configure_tail_runs; commit_runs|].
  cbv beta. intros ok s' w' t (Ht & Hhd & Hs). splits; eauto.
  - intros c0 ctl0 Hc _. inversion Hc; subst c0.
    destruct t as [|e t]; [discriminate|]. inversion Hhd; subst.
    exists t. reflexivity.
  - destruct Hs as [Hs|[-> ->]]; eauto.
Qed.

Lemma configure_aptx_hd_enc_format_runs cfg s w :
  runs (configure_aptx_hd_enc_format cfg) s w
    (fun ok s' _ t =>
       forallb config_event t = true
       /\ ((ok = false /\ s' = s)
           \/ (ok = true /\ exists c, cfg = Some c
               /\ s' = set_enc_channels (audio_aptx_default_config.channels c)
                         (set_enc_sampling_rate (audio_aptx_default_config.sampling_rate c)
                            (set_bt_encoder_format ENC_CODEC_TYPE_APTX_HD s))))).
Proof.
  unfold configure_aptx_hd_enc_format. destruct cfg as [c|]; wp; auto.
  wp_case; [|wp; auto].
  eapply runs_weaken; [apply configure_tail_runs; commit_runs|].
  cbv beta. intros ok s' w' t (Ht & _ & [[-> ->]|[-> ->]]); split; eauto.
Qed.

Lemma configure_aac_enc_format_runs cfg s w :
  runs (configure_aac_enc_format cfg) s w
    (fun ok s' _ t =>
       forallb config_event t = true
       /\ (forall c ctl,
             cfg = Some c ->
             mixer_get_ctl_by_name w MIXER_ENC_CONFIG_BLOCK = Some ctl ->
             exists t',
               t = E_mixer_get_ctl_by_name MIXER_ENC_CONFIG_BLOCK
                   :: E_mixer_ctl_set_array MIXER_ENC_CONFIG_BLOCK
                        (BlkAac (aac_dsp_cfg c)) aac_enc_cfg_t.sizeof
                   :: t')
       /\ ((ok = false /\ s' = s)
           \/ (ok = true /\ exists c, cfg = Some c
               /\ s' = set_enc_channels (audio_aac_encoder_config.channels c)
                         (set_enc_sampling_rate (audio_aac_encoder_config.sampling_rate c)
                            (set_bt_encoder_format ENC_CODEC_TYPE_AAC s))))).
Proof.
  unfold configure_aac_enc_format. destruct cfg as [c|]; wp;
    [|splits; auto; discriminate].
  wp_case; [|wp; splits; auto; discriminate].
  eapply runs_weaken; [apply configure_tail_runs; commit_runs|].
  cbv beta. intros ok s' w' t (Ht & Hhd & Hs). splits; eauto.
  - intros c0 ctl0 Hc _. inversion Hc; subst c0.
    destruct t as [|e t]; [discriminate|]. inversion Hhd; subst.
    exists t. reflexivity.
  - destruct Hs as [Hs|[-> ->]]; eauto.
Qed.

Lemma configure_ldac_enc_format_runs cfg s w :
  runs (configure_ldac_enc_format cfg) s w
    (fun ok s' _ t =>
       forallb config_event t = true
       /\ (forall c ctl,
             cfg = Some c ->
             mixer_get_ctl_by_name w MIXER_ENC_CONFIG_BLOCK = Some ctl ->
             exists t',
               t = E_mixer_get_ctl_by_name MIXER_ENC_CONFIG_BLOCK
                   :: E_mixer_ctl_set_array MIXER_ENC_CONFIG_BLOCK
                        (BlkLdac (ldac_dsp_cfg c)) ldac_enc_cfg_t.sizeof
                   :: t')
       /\ ((ok = false /\ s' = s)
           \/ (ok = true /\ exists c, cfg = Some c
               /\ s' = set_enc_channels
                         (custom_enc_cfg_t.num_channels
                            (ldac_enc_cfg_t.custom_cfg (ldac_dsp_cfg c)))
                         (set_enc_sampling_rate (audio_ldac_encoder_config.sampling_rate c)
                            (set_bt_encoder_format ENC_CODEC_TYPE_LDAC s))))).
Proof.
  unfold configure_ldac_enc_format. destruct cfg as [c|]; wp;
    [|splits; auto; discriminate].
  wp_case; [|wp; splits; auto; discriminate].
  cbv zeta. eapply runs_weaken; [apply configure_tail_runs; commit_runs|].
  cbv beta. intros ok s' w' t (Ht & Hhd & Hs). splits; eauto.
  - intros c0 ctl0 Hc _. inversion Hc; subst c0.
    destruct t as [|e t]; [discriminate|]. inversion Hhd; subst.
    exists t. reflexivity.
  - destruct Hs as [Hs|[-> ->]]; eauto.
Qed.

(* The APTX variant may fault: it follows the pointer kept in the union. *)
Lemma configure_aptx_enc_format_may cfg s w :
  may (configure_aptx_enc_format cfg) s w
    (fun ok s' _ t =>
       forallb config_event t = true
       /\ codec_erased s' = codec_erased s
       /\ (ok = false -> s' = s)
       /\ (ok = true -> bt_encoder_format s' = ENC_CODEC_TYPE_APTX)).
Proof.
  unfold configure_aptx_enc_format. destruct cfg as [u|].
  - wp. wp_case.
    + wp.
      destruct (audio_aptx_encoder_config.default_cfg u) as [d|];
        [|apply may_fault].
      destruct (audio_aptx_encoder_config.dual_mono_cfg u) as [dm|];
        [|apply may_fault].
      cbv zeta. apply runs_may.
      eapply runs_weaken; [apply configure_tail_runs; commit_runs|].
      cbv beta. intros ok s' w' t (Ht & _ & [[-> ->]|[-> ->]]);
        repeat split; auto; discriminate.
    + wp. repeat split; auto. discriminate.
  - wp. repeat split; auto. discriminate.
Qed.

End Configure.

Section Session.
Context {E : Env}.

(* Whatever codec is reported, the dispatcher touches none of the
   session bookkeeping, and stores an encoder format only on success. *)
Lemma configure_a2dp_encoder_format_may s w :
  may configure_a2dp_encoder_format s w
    (fun ok s' _ t =>
       forallb config_event t = true
       /\ codec_erased s' = codec_erased s
       /\ (ok = false -> enc_fields s' = enc_fields s)
       /\ (ok = true -> hd_error t = Some E_audio_get_codec_config)).
Proof.
  unfold configure_a2dp_encoder_format. wp.
  destruct (audio_get_codec_config s) as [f|]; cbn [call non_null negb];
    [|wp; splits; auto; discriminate].
  wp. destruct (f w) as [[info codec_type] w1]; cbn [fst snd].
  repeat wp_case.
  - wp_use configure_sbc_enc_format_runs.
    intros ok s' w' t (Ht & _ & [[-> ->]|[-> (c & _ & ->)]]);
      splits; auto; discriminate.
  - wp. wp_use configure_aptx_enc_format_may.
    intros ok s' w' t (Ht & Hs & Hf & _). splits; auto.
    intros ->. rewrite (Hf eq_refl). reflexivity.
  - wp_use configure_aptx_hd_enc_format_runs.
    intros ok s' w' t (Ht & [[-> ->]|[-> (c & _ & ->)]]);
      splits; auto; discriminate.
  - wp_use configure_aac_enc_format_runs.
    intros ok s' w' t (Ht & _ & [[-> ->]|[-> (c & _ & ->)]]);
      splits; auto; discriminate.
  - wp_use configure_ldac_enc_format_runs.
    intros ok s' w' t (Ht & _ & [[-> ->]|[-> (c & _ & ->)]]);
      splits; auto; discriminate.
  - wp. splits; auto.
Qed.

Lemma reset_a2dp_enc_config_params_runs s w :
  runs reset_a2dp_enc_config_params s w
    (fun _ s' _ t =>
       forallb config_event t = true
       /\ (s' = s \/ s' = set_bt_encoder_format ENC_MEDIA_FMT_NONE s)).
Proof.
  unfold reset_a2dp_enc_config_params, set_array. wp. wp_case; wp.
  - wp_use a2dp_set_bit_format_runs.
    intros r s' w' t (-> & Ht & _). split; auto.
    simpl. apply aux_is_config in Ht. exact Ht.
  - wp_use a2dp_set_bit_format_runs.
    intros r s' w' t (-> & Ht & _). split; auto.
    simpl. apply aux_is_config in Ht. exact Ht.
Qed.

(** ** Stop and start *)

Lemma audio_extn_a2dp_stop_playback_runs s w :
  runs audio_extn_a2dp_stop_playback s w
    (fun r s' _ t =>
       session_erased s' = session_erased s
       /\ if bt_lib_handle s && non_null (audio_stream_stop s)
          then
            let c := a2dp_total_active_session_request s in
            let c' := if 0 <? c then c - 1 else c in
            r = 0
            /\ a2dp_total_active_session_request s' = c'
            /\ (if a2dp_started s && (c' =? 0)
                then a2dp_started s' = false
                     /\ count_events is_stream_stop t = 1%nat
                else a2dp_started s' = a2dp_started s
                     /\ count_events is_stream_stop t = 0%nat)
          else r = - ENOSYS /\ s' = s /\ t = []).
Proof.
  unfold audio_extn_a2dp_stop_playback. wp.
  destruct (bt_lib_handle s); cbn [andb negb]; [|wp; auto].
  destruct (audio_stream_stop s) as [f|] eqn:Hf; cbn [non_null negb]; [|wp; auto].
  apply runs_bind.
  apply runs_weaken with
    (Q := fun _ s1 w1 t1 =>
            s1 = set_a2dp_total_active_session_request
                   (if 0 <? a2dp_total_active_session_request s
                    then a2dp_total_active_session_request s - 1
                    else a2dp_total_active_session_request s) s
            /\ w1 = w /\ t1 = []).
  { destruct (0 <? a2dp_total_active_session_request s); wp;
      repeat split; destruct s; reflexivity. }
  intros _ s1 w1 t1 (-> & -> & ->).
  set (c := if 0 <? a2dp_total_active_session_request s
            then a2dp_total_active_session_request s - 1
            else a2dp_total_active_session_request s).
  wp.
  cbn [a2dp_started a2dp_total_active_session_request audio_stream_stop
       set_a2dp_total_active_session_request].
  rewrite Hf. destruct (a2dp_started s && (c =? 0)); cbn [call]; wp; auto.
  wp_use reset_a2dp_enc_config_params_runs.
  intros _ s1 w1 t1 (Ht1 & Hs1). wp.
  wp_use a2dp_reset_backend_cfg_runs.
  intros _ s2 w2 t2 (-> & Ht2). wp.
  repeat split.
  - destruct Hs1 as [->| ->]; reflexivity.
  - destruct Hs1 as [->| ->]; reflexivity.
  - rewrite !app_nil_r. cbn [app]. rewrite count_events_cons, count_events_app.
    rewrite (count_stop_config _ Ht1).
    rewrite (count_stop_config _ (aux_is_config _ Ht2)). reflexivity.
Qed.

Lemma session_erased_started v s :
  session_erased (set_a2dp_started v s) = session_erased s.
Proof. reflexivity. Qed.

Lemma codec_session_erased s s' :
  codec_erased s' = codec_erased s -> session_erased s' = session_erased s.
Proof. intros H. unfold session_erased. rewrite H. reflexivity. Qed.

Lemma codec_erased_total s s' :
  codec_erased s' = codec_erased s ->
  a2dp_total_active_session_request s' = a2dp_total_active_session_request s.
Proof. intros H. apply (f_equal a2dp_total_active_session_request) in H. exact H. Qed.

Lemma audio_extn_a2dp_start_playback_may s w :
  may audio_extn_a2dp_start_playback s w
    (fun r s' _ t =>
       session_erased s' = session_erased s
       /\ count_events is_stream_stop t = 0%nat
       /\ ((r = - ENOSYS /\ s' = s /\ t = [])
           \/ (a2dp_started s' = false
               /\ a2dp_total_active_session_request s'
                  = a2dp_total_active_session_request s)
           \/ (a2dp_started s' = true
               /\ a2dp_total_active_session_request s'
                  = wrap_int (a2dp_total_active_session_request s + 1)))
       /\ (a2dp_started s = false ->
           a2dp_total_active_session_request s = 0 ->
           r = 0 ->
           a2dp_started s' = true
           /\ hd_error t = Some E_audio_stream_start
           /\ In E_audio_get_codec_config t)).
Proof.
  unfold audio_extn_a2dp_start_playback. wp.
  wp_case; [wp; splits; auto; discriminate|].
  wp_case; [wp; splits; auto; discriminate|].
  apply may_bind.
  apply may_weaken with
    (Q := fun r1 s1 _ t1 =>
            session_erased s1 = session_erased s
            /\ a2dp_total_active_session_request s1
               = a2dp_total_active_session_request s
            /\ count_events is_stream_stop t1 = 0%nat
            /\ (a2dp_started s = false ->
                a2dp_total_active_session_request s = 0 ->
                r1 = 0 ->
                a2dp_started s1 = true
                /\ hd_error t1 = Some E_audio_stream_start
                /\ In E_audio_get_codec_config t1)).
  - wp_case.
    + apply andb_true_iff in Heqb1 as [Hns Hz].
      destruct (audio_stream_start s) as [f|]; cbn [call]; [|apply may_fault].
      wp. wp_case; wp.
      * splits; auto.
        intros _ _ H. rewrite H in Heqb1. discriminate.
      * wp_use configure_a2dp_encoder_format_may.
        intros ok s1 w1 t1 (Ht1 & Hs1 & _ & Hok).
        destruct ok; wp.
        -- splits; auto.
           ++ apply (codec_session_erased _ _ Hs1).
           ++ apply (codec_erased_total _ _ Hs1).
           ++ rewrite app_nil_r. cbn [app]. rewrite count_events_cons.
              rewrite (count_stop_config _ Ht1). reflexivity.
           ++ intros _ _ _. splits; auto.
              right. rewrite app_nil_r.
              destruct t1 as [|e t1]; [discriminate (Hok eq_refl)|].
              specialize (Hok eq_refl). inversion Hok. left. reflexivity.
        -- splits; auto.
           ++ apply (codec_session_erased _ _ Hs1).
           ++ apply (codec_erased_total _ _ Hs1).
           ++ rewrite app_nil_r. cbn [app]. rewrite count_events_cons.
              rewrite (count_stop_config _ Ht1). reflexivity.
           ++ discriminate.
    + wp. splits; auto.
      intros Hs Hz. rewrite Hs, Hz in Heqb1. discriminate.
  - cbv beta. intros r1 s1 w1 t1 (Hs1 & Hc1 & Ht1 & Hfirst).
    wp. wp_case; wp.
    + wp_use a2dp_check_and_set_scrambler_runs.
      intros _ s2 w2 t2 (-> & Ht2). wp.
      wp_use a2dp_set_backend_cfg_runs.
      intros _ s3 w3 t3 (-> & Ht3). wp.
      cbn [a2dp_started a2dp_total_active_session_request
           set_a2dp_total_active_session_request].
      splits.
      * exact Hs1.
      * rewrite !app_nil_r, !app_nil_l, !count_events_app, Ht1.
        rewrite (count_stop_config _ (aux_is_config _ Ht2)).
        rewrite (count_stop_config _ (aux_is_config _ Ht3)). reflexivity.
      * right. right. rewrite Hc1. auto.
      * intros Hs Hz Hr. destruct (Hfirst Hs Hz Hr) as (_ & Hhd & Hin).
        splits; auto.
        -- rewrite !app_nil_l. destruct t1; [discriminate|exact Hhd].
        -- rewrite !app_nil_l. apply in_or_app. left. exact Hin.
    + splits; auto.
      * rewrite !app_nil_r, !app_nil_l. exact Ht1.
      * intros Hs Hz Hr. destruct (Hfirst Hs Hz Hr) as (Habs & _).
        rewrite Habs in Heqb1. discriminate.
Qed.
Lemma serve_step r s w res s' w' t :
  serve r s w = Some (res, s', w', t) ->
  counter_inv s ->
  a2dp_total_active_session_request s < INT_MAX ->
  counter_inv s'
  /\ a2dp_total_active_session_request s' <= a2dp_total_active_session_request s + 1
  /\ step_ok (mk_step r s s' res t).
Proof.
  intros Hrun [Hpos Hst] Hmax. unfold step_ok, reaches_zero, counter_inv.
  cbn [req before after result calls]. unfold INT_MAX in Hmax.
  destruct r; cbn [serve] in Hrun.
  - apply audio_extn_a2dp_start_playback_may in Hrun.
    destruct Hrun as (_ & Hstop & Hcase & _). rewrite Hstop.
    assert (Hw : wrap_int (a2dp_total_active_session_request s + 1)
                 = a2dp_total_active_session_request s + 1)
      by (apply wrap_int_small; lia).
    rewrite Hw in Hcase.
    assert (Hz : (a2dp_started s
                  && (a2dp_total_active_session_request s =? 1)
                  && (a2dp_total_active_session_request s' =? 0)) = false).
    { destruct (Z.eqb_spec (a2dp_total_active_session_request s) 1);
        destruct (Z.eqb_spec (a2dp_total_active_session_request s') 0);
        rewrite ?andb_false_r; auto.
      destruct Hcase as [(_ & -> & _)|[(_ & Hc)|(_ & Hc)]]; lia. }
    rewrite Hz.
    destruct Hcase as [(_ & -> & _)|[(Hs' & Hc)|(Hs' & Hc)]];
      splits; auto; try lia; try discriminate.
    + intros H. rewrite H in Hs'. discriminate.
  - apply (runs_inv _ _ _ _ _ _ _ _ (audio_extn_a2dp_stop_playback_runs s w)) in Hrun.
    destruct Hrun as (_ & Hrun).
    destruct (bt_lib_handle s && non_null (audio_stream_stop s)).
    + cbv zeta in Hrun. destruct Hrun as (_ & Hc & Hrun). rewrite Hc.
      destruct (Z.ltb_spec 0 (a2dp_total_active_session_request s)) as [Hlt|Hle].
      * destruct (a2dp_started s) eqn:Hs; cbn [andb] in *.
        -- destruct (Z.eqb_spec (a2dp_total_active_session_request s - 1) 0)
             as [H0|H0].
           ++ destruct Hrun as (Hs' & ->). rewrite Hs'.
              replace (a2dp_total_active_session_request s =? 1) with true
                by (symmetry; apply Z.eqb_eq; lia).
              splits; auto; try lia; try discriminate.
           ++ destruct Hrun as (Hs' & ->).
              replace (a2dp_total_active_session_request s =? 1) with false
                by (symmetry; apply Z.eqb_neq; lia).
              splits; auto; try lia.
        -- destruct Hrun as (Hs' & ->).
           splits; auto; try lia. congruence.
      * assert (Hc0 : a2dp_total_active_session_request s = 0) by lia.
        assert (Hs : a2dp_started s = false).
        { destruct (a2dp_started s); auto. specialize (Hst eq_refl). lia. }
        rewrite Hs in *. cbn [andb] in *. destruct Hrun as (Hs' & ->).
        splits; auto; try lia. congruence.
    + destruct Hrun as (_ & -> & ->). cbn. splits; auto; try lia.
      destruct (a2dp_started s); cbn [andb]; auto.
      destruct (Z.eqb_spec (a2dp_total_active_session_request s) 1);
        destruct (Z.eqb_spec (a2dp_total_active_session_request s) 0);
        auto; lia.
Qed.
End Session.

Section Equations.
Context {E : Env}.

(** ** Equations of the run structure *)

Lemma bind_get {A : Type} (f : a2dp_data -> M A) s w :
  bind get f s w = f s s w.
Proof.
  unfold bind, get. destruct (f s s w) as [[[[a s'] w'] t]|]; reflexivity.
Qed.

Lemma bind_ret {A B : Type} (a : A) (f : A -> M B) s w :
  bind (ret a) f s w = f a s w.
Proof.
  unfold bind, ret. destruct (f a s w) as [[[[b s'] w'] t]|]; reflexivity.
Qed.

Lemma bind_modify {A : Type} g (f : unit -> M A) s w :
  bind (modify g) f s w = f tt (g s) w.
Proof.
  unfold bind, modify. destruct (f tt (g s) w) as [[[[b s'] w'] t]|]; reflexivity.
Qed.

Lemma bind_bind {A B C : Type} (m : M A) (f : A -> M B) (g : B -> M C) s w :
  bind (bind m f) g s w = bind m (fun a => bind (f a) g) s w.
Proof.
  unfold bind. destruct (m s w) as [[[[a s1] w1] t1]|]; [|reflexivity].
  destruct (f a s1 w1) as [[[[b s2] w2] t2]|]; [|reflexivity].
  destruct (g b s2 w2) as [[[[c s3] w3] t3]|]; [|reflexivity].
  rewrite app_assoc. reflexivity.
Qed.

(* A start request is turned away before anything is called. *)
Lemma start_refused s w :
  bt_lib_handle s && non_null (audio_stream_start s)
    && non_null (audio_get_codec_config s) = false
  \/ a2dp_suspended s = true ->
  audio_extn_a2dp_start_playback s w = Some (- ENOSYS, s, w, []).
Proof.
  intros H. unfold audio_extn_a2dp_start_playback. rewrite bind_get.
  destruct H as [-> | H]; [reflexivity|].
  destruct (negb _); [reflexivity|]. rewrite H. reflexivity.
Qed.

(* With the datapath already started, a start request only counts the
   session and configures scrambler and backend again. *)
Lemma start_when_started s w :
  bt_lib_handle s && non_null (audio_stream_start s)
    && non_null (audio_get_codec_config s) = true ->
  a2dp_suspended s = false ->
  a2dp_started s = true ->
  audio_extn_a2dp_start_playback s w
  = (modify (set_a2dp_total_active_session_request
               (wrap_int (a2dp_total_active_session_request s + 1))) ;;
     _ <- a2dp_check_and_set_scrambler ;;
     a2dp_set_backend_cfg ;;
     ret 0) s w.
Proof.
  intros Hg Hsus Hst. unfold audio_extn_a2dp_start_playback.
  rewrite bind_get, Hg, Hsus, Hst. cbn [negb andb].
  rewrite bind_ret, bind_get, Hst.
  repeat (rewrite bind_bind || rewrite bind_modify).
  reflexivity.
Qed.

End Equations.

(** * The session counter and the IPC stop *)

Section Counter.
Context {E : Env}.

Lemma a2dp_common_init_inv s w :
  runs a2dp_common_init s w (fun _ s' w' t => counter_inv s' /\ w' = w /\ t = []).
Proof.
  unfold a2dp_common_init. wp. splits; auto.
  split; cbn; [lia|discriminate].
Qed.

(** C1.  Along every sequence of start and stop requests served from a
    session in which the counter is not negative and a started
    datapath has at least one session (short enough for the [int]
    counter never to reach [INT_MAX]): the counter is never negative
    after a request; a stop request leaves it alone or, when it is
    positive, takes one off; the request invokes the IPC
    [audio_stream_stop] exactly once when it takes the counter of a
    started datapath from 1 to 0 and not at all otherwise, so never
    when the counter stays above 0; over the whole sequence the IPC
    stop is invoked once per such transition. *)
Theorem session_counter_and_ipc_stop :
  forall (rs : list request) (s : a2dp_data) (w : world),
    counter_inv s ->
    a2dp_total_active_session_request s + Z.of_nat (List.length rs) <= INT_MAX ->
    Forall step_ok (run rs s w)
    /\ count_events is_stream_stop (List.concat (map calls (run rs s w)))
       = List.length (filter reaches_zero (run rs s w)).
Proof.
  induction rs as [|r rs IH]; intros s w Hinv Hmax; cbn [run].
  - split; [constructor|reflexivity].
  - destruct (serve r s w) as [[[[res s'] w'] t]|] eqn:Hserve.
    2:{ split; [constructor|reflexivity]. }
    cbn [List.length] in Hmax.
    destruct (serve_step _ _ _ _ _ _ _ Hserve Hinv) as (Hinv' & Hle & Hok);
      [lia|].
    destruct (IH s' w' Hinv') as [Hall Hcount]; [lia|].
    split; [constructor; assumption|].
    cbn [map List.concat filter calls]. rewrite count_events_app, Hcount.
    destruct Hok as (_ & Hstop & _). cbn [calls] in Hstop. rewrite Hstop.
    destruct (reaches_zero _); reflexivity.
Qed.

End Counter.

Lemma session_counter_and_ipc_stop_witness :
  Forall step_ok
    (run [Start; Start; Stop; Stop; Stop] Sim.connected Sim.good_mixer)
  /\ count_events is_stream_stop
       (List.concat (map calls
          (run [Start; Start; Stop; Stop; Stop] Sim.connected Sim.good_mixer)))
     = 1%nat.
Proof.
  destruct (session_counter_and_ipc_stop (E := Sim.env)
              [Start; Start; Stop; Stop; Stop] Sim.connected Sim.good_mixer)
    as [Hall Hcount].
  - split; [vm_compute; discriminate|discriminate].
  - vm_compute. discriminate.
  - split; [exact Hall|]. rewrite Hcount. vm_compute. reflexivity.
Defined.

(** * Start requests: refusal while suspended, and the second start *)

Section Refusal.
Context {E : Env}.

(* What a start or stop request never touches. *)
Lemma session_erased_bindings s s' :
  session_erased s' = session_erased s ->
  bt_lib_handle s' = bt_lib_handle s
  /\ audio_stream_start s' = audio_stream_start s
  /\ audio_stream_stop s' = audio_stream_stop s
  /\ audio_stream_close s' = audio_stream_close s
  /\ audio_get_codec_config s' = audio_get_codec_config s
  /\ a2dp_suspended s' = a2dp_suspended s
  /\ bt_state s' = bt_state s.
Proof.
  intros H. splits.
  - exact (f_equal bt_lib_handle H).
  - exact (f_equal audio_stream_start H).
  - exact (f_equal audio_stream_stop H).
  - exact (f_equal audio_stream_close H).
  - exact (f_equal audio_get_codec_config H).
  - exact (f_equal a2dp_suspended H).
  - exact (f_equal bt_state H).
Qed.

(** C2.  With the library handle, the start entry point and the
    get-codec-config entry point bound, a start request made while
    [a2dp_suspended] is set returns the failure code [-ENOSYS] (the
    value the code has for the refusal the specification calls Busy),
    leaves the session, and so the counter, as it was, and makes no
    call at all, in particular no IPC start. *)
Theorem start_while_suspended_refused :
  forall (s : a2dp_data) (w : world),
    bt_lib_handle s = true ->
    non_null (audio_stream_start s) = true ->
    non_null (audio_get_codec_config s) = true ->
    a2dp_suspended s = true ->
    exists r s' w' t,
      audio_extn_a2dp_start_playback s w = Some (r, s', w', t)
      /\ r = - ENOSYS /\ r < 0
      /\ s' = s
      /\ a2dp_total_active_session_request s' = a2dp_total_active_session_request s
      /\ count_events is_stream_start t = 0%nat
      /\ t = [].
Proof.
  intros s w _ _ _ Hsus.
  exists (- ENOSYS), s, w, [].
  rewrite (start_refused s w (or_intror Hsus)).
  repeat split.
Qed.

(* The calls of the scrambler configuration, and the world it leaves. *)
Lemma a2dp_check_and_set_scrambler_calls s w :
  exists r ws ts,
    a2dp_check_and_set_scrambler s w = Some (r, s, ws, ts)
    /\ (ts, ws)
       = match audio_is_scrambling_enabled s with
         | Some enabled =>
             if A2DP_STATE_eqb (bt_state s) A2DP_STATE_DISCONNECTED
             then ([], w)
             else if fst (enabled w) =? 0
             then ([E_audio_is_scrambling_enabled], snd (enabled w))
             else
               match mixer_get_ctl_by_name (snd (enabled w)) MIXER_SCRAMBLER_MODE with
               | Some ctl =>
                   ([E_audio_is_scrambling_enabled;
                     E_mixer_get_ctl_by_name MIXER_SCRAMBLER_MODE;
                     E_mixer_ctl_set_value MIXER_SCRAMBLER_MODE 0 1],
                    snd (mixer_ctl_set_value ctl 0 1 (snd (enabled w))))
               | None =>
                   ([E_audio_is_scrambling_enabled;
                     E_mixer_get_ctl_by_name MIXER_SCRAMBLER_MODE],
                    snd (enabled w))
               end
         | None => ([], w)
         end.
Proof.
  unfold a2dp_check_and_set_scrambler. rewrite bind_get.
  destruct (audio_is_scrambling_enabled s) as [enabled|]; cbn [non_null andb].
  2:{ rewrite bind_ret. eexists _, _, _. split; reflexivity. }
  destruct (A2DP_STATE_eqb (bt_state s) A2DP_STATE_DISCONNECTED); cbn [negb].
  { rewrite bind_ret. eexists _, _, _. split; reflexivity. }
  unfold set_value, call. unfold bind, extern, ret, get_ctl.
  destruct (enabled w) as [r wq]. cbn [fst snd].
  destruct (r =? 0); cbn [negb].
  { eexists _, _, _. split; reflexivity. }
  destruct (mixer_get_ctl_by_name wq MIXER_SCRAMBLER_MODE) as [ctl|].
  - destruct (mixer_ctl_set_value ctl 0 1 wq) as [r' w']. cbn [fst snd].
    destruct (negb (r' =? 0)); eexists _, _, _; split; reflexivity.
  - eexists _, _, _. split; reflexivity.
Qed.

(* The calls of the backend configuration. *)
Lemma a2dp_set_backend_cfg_calls s w :
  exists w',
    a2dp_set_backend_cfg s w
    = Some (tt, s, w',
            E_mixer_get_ctl_by_name MIXER_SAMPLE_RATE
            :: match mixer_get_ctl_by_name w MIXER_SAMPLE_RATE with
               | Some ctl =>
                   E_mixer_ctl_set_enum_by_string MIXER_SAMPLE_RATE
                     (rate_str (backend_sampling_rate s))
                   :: (if fst (mixer_ctl_set_enum_by_string ctl
                                 (rate_str (backend_sampling_rate s)) w) =? 0
                       then
                         E_mixer_get_ctl_by_name MIXER_AFE_IN_CHANNELS
                         :: match mixer_get_ctl_by_name
                                    (snd (mixer_ctl_set_enum_by_string ctl
                                            (rate_str (backend_sampling_rate s)) w))
                                    MIXER_AFE_IN_CHANNELS with
                            | Some _ =>
                                [E_mixer_ctl_set_enum_by_string MIXER_AFE_IN_CHANNELS
                                   (in_channels (enc_channels s))]
                            | None => []
                            end
                       else [])
               | None => []
               end).
Proof.
  unfold a2dp_set_backend_cfg. rewrite bind_get.
  unfold bind, get_ctl, set_enum_by_string, extern, ret.
  destruct (mixer_get_ctl_by_name w MIXER_SAMPLE_RATE) as [ctl|].
  2:{ eexists. reflexivity. }
  destruct (mixer_ctl_set_enum_by_string ctl (rate_str (backend_sampling_rate s)) w)
    as [r w1]. cbn [fst snd].
  destruct (r =? 0); cbn [negb].
  2:{ eexists. reflexivity. }
  destruct (mixer_get_ctl_by_name w1 MIXER_AFE_IN_CHANNELS) as [ctl'|].
  - destruct (mixer_ctl_set_enum_by_string ctl' (in_channels (enc_channels s)) w1)
      as [r' w2]. eexists. reflexivity.
  - eexists. reflexivity.
Qed.

(** C3.  When a start request on a stopped session (counter 0,
    datapath not started) succeeds, it has called the IPC start and
    fetched the codec configuration, the datapath is started and the
    counter is 1.  A second start request right after it returns 0,
    calls neither the IPC start nor the codec configuration and writes
    no encoder block, and leaves the counter at 2.  Its calls are
    exactly those of the scrambler configuration followed by those of
    the backend configuration.  Scrambler: with the entry point set
    and the state not disconnected, the query
    audio_is_scrambling_enabled and, when it answers nonzero, the
    lookup of "AFE Scrambler Mode" and the write of 1 to it.  Backend:
    the lookup of "BT SampleRate", the write of the rate string of the
    session and, when that write is accepted, the lookup of "AFE
    Input Channels" and the write of the channels of the session. *)
Theorem second_start_reapplies_backend_only :
  forall (s : a2dp_data) (w : world) s1 w1 t1,
    a2dp_started s = false ->
    a2dp_total_active_session_request s = 0 ->
    audio_extn_a2dp_start_playback s w = Some (0, s1, w1, t1) ->
    (a2dp_started s1 = true
     /\ a2dp_total_active_session_request s1 = 1
     /\ hd_error t1 = Some E_audio_stream_start
     /\ In E_audio_get_codec_config t1)
    /\ exists s2 w2 t2,
         audio_extn_a2dp_start_playback s1 w1 = Some (0, s2, w2, t2)
         /\ a2dp_total_active_session_request s2 = 2
         /\ a2dp_started s2 = true
         /\ count_events is_stream_start t2 = 0%nat
         /\ count_events is_get_codec_config t2 = 0%nat
         /\ count_events is_enc_config_write t2 = 0%nat
         /\ (modify (set_a2dp_total_active_session_request 2) ;;
             _ <- a2dp_check_and_set_scrambler ;;
             a2dp_set_backend_cfg ;;
             ret 0) s1 w1 = Some (0, s2, w2, t2)
         /\ In (E_mixer_get_ctl_by_name MIXER_SAMPLE_RATE) t2
         /\ exists tscr ws,
              (* the scrambler configuration: the query, and the write
                 of 1 when the answer is not 0 *)
              (tscr, ws)
              = match audio_is_scrambling_enabled s1 with
                | Some enabled =>
                    if A2DP_STATE_eqb (bt_state s1) A2DP_STATE_DISCONNECTED
                    then ([], w1)
                    else if fst (enabled w1) =? 0
                    then ([E_audio_is_scrambling_enabled], snd (enabled w1))
                    else
                      match mixer_get_ctl_by_name (snd (enabled w1))
                              MIXER_SCRAMBLER_MODE with
                      | Some ctl =>
                          ([E_audio_is_scrambling_enabled;
                            E_mixer_get_ctl_by_name MIXER_SCRAMBLER_MODE;
                            E_mixer_ctl_set_value MIXER_SCRAMBLER_MODE 0 1],
                           snd (mixer_ctl_set_value ctl 0 1 (snd (enabled w1))))
                      | None =>
                          ([E_audio_is_scrambling_enabled;
                            E_mixer_get_ctl_by_name MIXER_SCRAMBLER_MODE],
                           snd (enabled w1))
                      end
                | None => ([], w1)
                end
              (* then the backend configuration: the sample rate, and
                 the input channels when that write is accepted *)
              /\ t2
                 = tscr
                   ++ E_mixer_get_ctl_by_name MIXER_SAMPLE_RATE
                      :: match mixer_get_ctl_by_name ws MIXER_SAMPLE_RATE with
                         | Some ctl =>
                             E_mixer_ctl_set_enum_by_string MIXER_SAMPLE_RATE
                               (rate_str (backend_sampling_rate s1))
                             :: (if fst (mixer_ctl_set_enum_by_string ctl
                                           (rate_str (backend_sampling_rate s1))
                                           ws) =? 0
                                 then
                                   E_mixer_get_ctl_by_name MIXER_AFE_IN_CHANNELS
                                   :: match mixer_get_ctl_by_name
                                              (snd (mixer_ctl_set_enum_by_string
                                                      ctl
                                                      (rate_str
                                                         (backend_sampling_rate s1))
                                                      ws))
                                              MIXER_AFE_IN_CHANNELS with
                                      | Some _ =>
                                          [E_mixer_ctl_set_enum_by_string
                                             MIXER_AFE_IN_CHANNELS
                                             (in_channels (enc_channels s1))]
                                      | None => []
                                      end
                                 else [])
                         | None => []
                         end.
Proof.
  intros s w s1 w1 t1 Hst Hz Hrun.
  destruct (bt_lib_handle s && non_null (audio_stream_start s)
            && non_null (audio_get_codec_config s)) eqn:Hg.
  2:{ rewrite (start_refused s w (or_introl Hg)) in Hrun. discriminate. }
  destruct (a2dp_suspended s) eqn:Hsus.
  { rewrite (start_refused s w (or_intror Hsus)) in Hrun. discriminate. }
  pose proof (audio_extn_a2dp_start_playback_may s w _ _ _ _ Hrun)
    as (Hframe & _ & Hcase & Hfirst).
  destruct (Hfirst Hst Hz eq_refl) as (Hst1 & Hhd & Hin).
  assert (Hc1 : a2dp_total_active_session_request s1 = 1).
  { destruct Hcase as [(Habs & _)|[(Habs & _)|(_ & ->)]];
      [discriminate|congruence|rewrite Hz; reflexivity]. }
  split; [auto|].
  destruct (session_erased_bindings _ _ Hframe)
    as (Hh & Hp & _ & _ & Hq & Hsus' & _).
  assert (Hg1 : bt_lib_handle s1 && non_null (audio_stream_start s1)
                && non_null (audio_get_codec_config s1) = true)
    by (rewrite Hh, Hp, Hq; exact Hg).
  assert (Hsus1 : a2dp_suspended s1 = false) by congruence.
  rewrite (start_when_started s1 w1 Hg1 Hsus1 Hst1), Hc1.
  change (wrap_int (1 + 1)) with 2.
  assert (Hrun2 :
    runs (modify (set_a2dp_total_active_session_request 2) ;;
          _ <- a2dp_check_and_set_scrambler ;;
          a2dp_set_backend_cfg ;;
          ret 0) s1 w1
      (fun r s2 _ t2 =>
         r = 0
         /\ s2 = set_a2dp_total_active_session_request 2 s1
         /\ forallb aux_event t2 = true
         /\ In (E_mixer_get_ctl_by_name MIXER_SAMPLE_RATE) t2)).
  { wp. wp_use a2dp_check_and_set_scrambler_runs.
    intros _ s2 w2 t2 (-> & Ht2). wp.
    unfold a2dp_set_backend_cfg. wp.
    apply runs_weaken with
      (Q := fun _ s3 _ t3 =>
              s3 = set_a2dp_total_active_session_request 2 s1
              /\ forallb aux_event t3 = true).
    - unfold set_enum_by_string. wp_all; auto.
    - intros _ s3 w3 t3 (-> & Ht3). wp. splits; auto.
      + rewrite !app_nil_l, !app_nil_r, !forallb_app, Ht2, Ht3. reflexivity.
      + rewrite !app_nil_l. apply in_or_app. right. left. reflexivity. }
  destruct Hrun2 as (r & s2 & w2 & t2 & Heq & -> & -> & Haux & Hin').
  exists (set_a2dp_total_active_session_request 2 s1), w2, t2.
  destruct (a2dp_check_and_set_scrambler_calls
              (set_a2dp_total_active_session_request 2 s1) w1)
    as (rs & ws & tscr & Hscr & Hpair).
  destruct (a2dp_set_backend_cfg_calls
              (set_a2dp_total_active_session_request 2 s1) ws)
    as (w' & Hbe).
  assert (Ht2 : t2 = tscr
                     ++ E_mixer_get_ctl_by_name MIXER_SAMPLE_RATE
                        :: match mixer_get_ctl_by_name ws MIXER_SAMPLE_RATE with
                           | Some ctl =>
                               E_mixer_ctl_set_enum_by_string MIXER_SAMPLE_RATE
                                 (rate_str (backend_sampling_rate s1))
                               :: (if fst (mixer_ctl_set_enum_by_string ctl
                                             (rate_str (backend_sampling_rate s1))
                                             ws) =? 0
                                   then
                                     E_mixer_get_ctl_by_name MIXER_AFE_IN_CHANNELS
                                     :: match mixer_get_ctl_by_name
                                                (snd (mixer_ctl_set_enum_by_string
                                                        ctl
                                                        (rate_str
                                                           (backend_sampling_rate s1))
                                                        ws))
                                                MIXER_AFE_IN_CHANNELS with
                                        | Some _ =>
                                            [E_mixer_ctl_set_enum_by_string
                                               MIXER_AFE_IN_CHANNELS
                                               (in_channels (enc_channels s1))]
                                        | None => []
                                        end
                                   else [])
                           | None => []
                           end).
  { clear - Heq Hscr Hbe. rewrite bind_modify in Heq. unfold bind in Heq.
    rewrite Hscr, Hbe in Heq. unfold ret in Heq.
    inversion Heq. rewrite app_nil_r. reflexivity. }
  splits; auto.
  4:{ exists tscr, ws. split; [exact Hpair|exact Ht2]. }
  - apply count_events_absent with (q := aux_event); [|exact Haux].
    intros e He. apply (aux_quiet e He).
  - apply count_events_absent with (q := aux_event); [|exact Haux].
    intros e He. apply (aux_quiet e He).
  - apply count_events_absent with (q := aux_event); [|exact Haux].
    intros e He. apply (aux_quiet e He).
Qed.
End Refusal.

Lemma start_while_suspended_refused_witness :
  exists r s' w' t,
    @audio_extn_a2dp_start_playback Sim.env
      (set_a2dp_suspended true Sim.connected) Sim.good_mixer
    = Some (r, s', w', t)
    /\ r = - ENOSYS /\ r < 0
    /\ s' = set_a2dp_suspended true Sim.connected
    /\ a2dp_total_active_session_request s' = 0
    /\ count_events is_stream_start t = 0%nat
    /\ t = [].
Proof.
  exact (start_while_suspended_refused (E := Sim.env)
           (set_a2dp_suspended true Sim.connected) Sim.good_mixer
           eq_refl eq_refl eq_refl eq_refl).
Defined.

(* Two start requests on a connected session whose Bluetooth stack
   asks for scrambling. *)
Lemma second_start_reapplies_backend_only_witness :
  exists s1 w1 t1,
    @audio_extn_a2dp_start_playback Sim.env
      (set_audio_is_scrambling_enabled (Sim.ipc 1) Sim.connected) Sim.good_mixer
    = Some (0, s1, w1, t1)
    /\ a2dp_total_active_session_request s1 = 1
    /\ exists s2 w2 t2,
         audio_extn_a2dp_start_playback s1 w1 = Some (0, s2, w2, t2)
         /\ a2dp_total_active_session_request s2 = 2
         /\ count_events is_stream_start t2 = 0%nat
         /\ t2 = [E_audio_is_scrambling_enabled;
                  E_mixer_get_ctl_by_name "AFE Scrambler Mode";
                  E_mixer_ctl_set_value "AFE Scrambler Mode" 0 1;
                  E_mixer_get_ctl_by_name "BT SampleRate";
                  E_mixer_ctl_set_enum_by_string "BT SampleRate" "KHZ_44P1";
                  E_mixer_get_ctl_by_name "AFE Input Channels";
                  E_mixer_ctl_set_enum_by_string "AFE Input Channels" "Two"]%string.
Proof.
  assert (H : @audio_extn_a2dp_start_playback Sim.env
                (set_audio_is_scrambling_enabled (Sim.ipc 1) Sim.connected)
                Sim.good_mixer
              = Some (0, Sim.on_air
                           (set_audio_is_scrambling_enabled (Sim.ipc 1) Sim.connected),
                      Sim.good_mixer,
                      match @audio_extn_a2dp_start_playback Sim.env
                              (set_audio_is_scrambling_enabled (Sim.ipc 1)
                                 Sim.connected) Sim.good_mixer with
                      | Some (_, _, _, t) => t
                      | None => []
                      end))
    by (vm_compute; reflexivity).
  destruct (second_start_reapplies_backend_only (E := Sim.env)
              (set_audio_is_scrambling_enabled (Sim.ipc 1) Sim.connected)
              Sim.good_mixer _ _ _ eq_refl eq_refl H)
    as ((_ & Hc1 & _) & s2 & w2 & t2 & H2 & Hc2 & _ & Hn & _ & _ & _ & _
        & tscr & ws & Hpair & Ht2).
  eexists _, _, _. split; [exact H|]. split; [exact Hc1|].
  exists s2, w2, t2. split; [exact H2|]. split; [exact Hc2|]. split; [exact Hn|].
  vm_compute in Hpair. inversion Hpair; subst tscr ws.
  rewrite Ht2. vm_compute. reflexivity.
Defined.

(** * Stop, disconnect and readiness *)

Section Lifecycle.
Context {E : Env}.

Lemma close_a2dp_output_runs s w :
  runs close_a2dp_output s w
    (fun r s' _ t =>
       if bt_lib_handle s && non_null (audio_stream_close s)
       then r = 0
            /\ s' = set_enc_channels 0
                     (set_enc_sampling_rate 0
                        (set_bt_state A2DP_STATE_DISCONNECTED
                           (set_bt_encoder_format ENC_CODEC_TYPE_INVALID
                              (set_a2dp_suspended false
                                 (set_a2dp_total_active_session_request 0
                                    (set_a2dp_started false s))))))
            /\ t = (if A2DP_STATE_eqb (bt_state s) A2DP_STATE_DISCONNECTED
                    then [] else [E_audio_stream_close])
       else r = - ENOSYS /\ s' = s /\ t = []).
Proof.
  unfold close_a2dp_output, a2dp_common_init. wp.
  destruct (bt_lib_handle s); cbn [andb negb]; [|wp; auto].
  destruct (audio_stream_close s) as [f|]; cbn [non_null negb call]; [|wp; auto].
  destruct (A2DP_STATE_eqb (bt_state s) A2DP_STATE_DISCONNECTED);
    cbn [negb]; wp; auto.
Qed.

(** C4 (as amended).  With the library handle and the close entry point
    bound, a stop request followed by [close_a2dp_output] returns, the
    close returns 0, and the session then has [enc_sampling_rate] 0 (not
    48000, which only [audio_extn_a2dp_init] stores), [enc_channels] 0
    and the encoder format [ENC_CODEC_TYPE_INVALID]; the counter is 0,
    the datapath not started, and the state disconnected.  When the
    handle or the close entry point is not bound, [close_a2dp_output]
    returns -ENOSYS, calls nothing and leaves the session as it is, be
    it called on its own or after a stop request: nothing is reset. *)
Theorem stop_then_close_resets_to_zero :
  (forall (s : a2dp_data) (w : world),
     bt_lib_handle s = true ->
     non_null (audio_stream_close s) = true ->
     exists r1 s1 w1 t1 s2 w2 t2,
       audio_extn_a2dp_stop_playback s w = Some (r1, s1, w1, t1)
       /\ close_a2dp_output s1 w1 = Some (0, s2, w2, t2)
       /\ enc_sampling_rate s2 = 0
       /\ enc_channels s2 = 0
       /\ bt_encoder_format s2 = ENC_CODEC_TYPE_INVALID
       /\ a2dp_total_active_session_request s2 = 0
       /\ a2dp_started s2 = false
       /\ bt_state s2 = A2DP_STATE_DISCONNECTED)
  /\ (forall (s : a2dp_data) (w : world),
        bt_lib_handle s && non_null (audio_stream_close s) = false ->
        close_a2dp_output s w = Some (- ENOSYS, s, w, [])
        /\ exists r1 s1 w1 t1,
             audio_extn_a2dp_stop_playback s w = Some (r1, s1, w1, t1)
             /\ close_a2dp_output s1 w1 = Some (- ENOSYS, s1, w1, [])).
Proof.
  split.
  - intros s w Hh Hc.
    destruct (audio_extn_a2dp_stop_playback_runs s w)
      as (r1 & s1 & w1 & t1 & Hstop & Hframe & _).
    destruct (session_erased_bindings _ _ Hframe) as (Hh1 & _ & _ & Hc1 & _).
    destruct (close_a2dp_output_runs s1 w1) as (r2 & s2 & w2 & t2 & Hclose & H2).
    rewrite Hh1, Hc1, Hh, Hc in H2. cbn [andb] in H2.
    destruct H2 as (-> & -> & _).
    exists r1, s1, w1, t1. eexists _, w2, t2.
    split; [exact Hstop|]. split; [exact Hclose|].
    repeat split.
  - intros s w Hb.
    assert (Hclose : forall s0 w0,
              bt_lib_handle s0 && non_null (audio_stream_close s0) = false ->
              close_a2dp_output s0 w0 = Some (- ENOSYS, s0, w0, [])).
    { intros s0 w0 H0. unfold close_a2dp_output. rewrite bind_get, H0.
      reflexivity. }
    split; [exact (Hclose s w Hb)|].
    destruct (audio_extn_a2dp_stop_playback_runs s w)
      as (r1 & s1 & w1 & t1 & Hstop & Hframe & _).
    destruct (session_erased_bindings _ _ Hframe) as (Hh1 & _ & _ & Hc1 & _).
    exists r1, s1, w1, t1. split; [exact Hstop|].
    apply Hclose. rewrite Hh1, Hc1. exact Hb.
Qed.

(** C8 (as amended).  With the library handle and the stop entry point
    bound, a stop request returns 0 whatever the IPC stop and the mixer
    writes answer.  When the handle or the stop entry point is not
    bound, it returns -ENOSYS, calls nothing and leaves the session as
    it is. *)
Theorem stop_returns_zero_when_bound :
  (forall (s : a2dp_data) (w : world),
     bt_lib_handle s = true ->
     non_null (audio_stream_stop s) = true ->
     exists s' w' t, audio_extn_a2dp_stop_playback s w = Some (0, s', w', t))
  /\ (forall (s : a2dp_data) (w : world),
        bt_lib_handle s && non_null (audio_stream_stop s) = false ->
        audio_extn_a2dp_stop_playback s w = Some (- ENOSYS, s, w, [])).
Proof.
  split.
  - intros s w Hh Hp.
    destruct (audio_extn_a2dp_stop_playback_runs s w)
      as (r & s' & w' & t & Hstop & _ & H).
    rewrite Hh, Hp in H. cbn [andb] in H. destruct H as (-> & _).
    exists s', w', t. exact Hstop.
  - intros s w Hb. unfold audio_extn_a2dp_stop_playback.
    rewrite bind_get, Hb. reflexivity.
Qed.

(** C10.  [audio_extn_a2dp_is_ready] always returns and leaves the
    session as it was.  In the disconnected state it returns false
    without calling anything, whatever the other flags are.  It calls
    the IPC ready check only when the session is not suspended, the
    state is not disconnected, offload is supported and the ready-check
    entry point is bound, and in that case it calls it once. *)
Theorem is_ready_false_when_disconnected :
  forall (s : a2dp_data) (w : world),
    exists r w' t,
      audio_extn_a2dp_is_ready s w = Some (r, s, w', t)
      /\ (bt_state s = A2DP_STATE_DISCONNECTED -> r = false /\ t = [])
      /\ (In E_audio_check_a2dp_ready t ->
          bt_state s <> A2DP_STATE_DISCONNECTED
          /\ a2dp_suspended s = false
          /\ is_a2dp_offload_supported s = true
          /\ non_null (audio_check_a2dp_ready s) = true)
      /\ (bt_state s <> A2DP_STATE_DISCONNECTED ->
          a2dp_suspended s = false ->
          is_a2dp_offload_supported s = true ->
          non_null (audio_check_a2dp_ready s) = true ->
          t = [E_audio_check_a2dp_ready]).
Proof.
  intros s w.
  assert (H : runs audio_extn_a2dp_is_ready s w
    (fun r s' _ t =>
       s' = s
       /\ ((t = [] /\ r = false
            /\ (a2dp_suspended s = true
                \/ bt_state s = A2DP_STATE_DISCONNECTED
                \/ is_a2dp_offload_supported s = false
                \/ non_null (audio_check_a2dp_ready s) = false))
           \/ (t = [E_audio_check_a2dp_ready]
               /\ a2dp_suspended s = false
               /\ bt_state s <> A2DP_STATE_DISCONNECTED
               /\ is_a2dp_offload_supported s = true
               /\ non_null (audio_check_a2dp_ready s) = true)))).
  { unfold audio_extn_a2dp_is_ready. wp.
    destruct (a2dp_suspended s) eqn:Hsus; [wp; auto 10|].
    destruct (A2DP_STATE_eqb (bt_state s) A2DP_STATE_DISCONNECTED) eqn:Heq;
      cbn [negb andb].
    - wp. split; auto. left. splits; auto. right; left.
      destruct (bt_state s); try discriminate; reflexivity.
    - destruct (is_a2dp_offload_supported s) eqn:Hoff; cbn [andb];
        [|wp; auto 10].
      destruct (audio_check_a2dp_ready s) as [f|] eqn:Hp;
        cbn [non_null call]; [|wp; auto 10].
      wp. split; auto. right. splits; auto.
      intros H. rewrite H in Heq. discriminate. }
  destruct H as (r & s' & w' & t & Hrun & -> & Hcase).
  exists r, w', t. split; [exact Hrun|].
  destruct Hcase as [(-> & -> & Hwhy)|(-> & Hsus & Hst & Hoff & Hp)].
  - splits.
    + auto.
    + intros [].
    + intros Hst Hsus Hoff Hp.
      destruct Hwhy as [H|[H|[H|H]]]; congruence.
  - splits; auto.
    intros H. contradiction.
Qed.

End Lifecycle.

(* The concrete sessions are what the code makes of them. *)
Example start_gives_playing :
  exists t,
    @audio_extn_a2dp_start_playback Sim.env Sim.connected Sim.good_mixer
    = Some (0, Sim.playing, Sim.good_mixer, t).
Proof. eexists. vm_compute. reflexivity. Qed.

Example init_gives_initialised :
  exists t,
    @audio_extn_a2dp_init Sim.env Sim.unloaded Sim.good_mixer
    = Some (tt, Sim.initialised, Sim.good_mixer, t).
Proof. eexists. vm_compute. reflexivity. Qed.

(** C4, as stated, fails: after stop and close_a2dp_output the
    negotiated sample rate is 0, not 48000; and when the close entry
    point is not bound nothing is reset at all. *)
Lemma stop_then_close_rate_is_not_48000 :
  (exists s1 w1 t1 s2 w2 t2,
     @audio_extn_a2dp_stop_playback Sim.env Sim.playing Sim.good_mixer
     = Some (0, s1, w1, t1)
     /\ close_a2dp_output s1 w1 = Some (0, s2, w2, t2)
     /\ enc_sampling_rate s2 = 0
     /\ enc_sampling_rate s2 <> 48000)
  /\ (exists s1 w1 t1 s2 w2 t2,
        @audio_extn_a2dp_stop_playback Sim.env
          (Sim.on_air (Sim.loaded None (Sim.ipc 0) ENC_CODEC_TYPE_SBC))
          Sim.good_mixer
        = Some (0, s1, w1, t1)
        /\ close_a2dp_output s1 w1 = Some (- ENOSYS, s2, w2, t2)
        /\ enc_sampling_rate s2 = 44100
        /\ bt_encoder_format s2 <> ENC_CODEC_TYPE_INVALID).
Proof.
  split.
  - vm_compute. eexists _, _, _, _, _, _.
    split; [reflexivity|]. split; [reflexivity|]. split; [reflexivity|].
    discriminate.
  - vm_compute. eexists _, _, _, _, _, _.
    split; [reflexivity|]. split; [reflexivity|]. split; [reflexivity|].
    discriminate.
Qed.

(* A playback that is stopped and closed; and a close without the
   close entry point. *)
Lemma stop_then_close_resets_to_zero_witness :
  (exists r1 s1 w1 t1 s2 w2 t2,
     @audio_extn_a2dp_stop_playback Sim.env Sim.playing Sim.good_mixer
     = Some (r1, s1, w1, t1)
     /\ close_a2dp_output s1 w1 = Some (0, s2, w2, t2)
     /\ enc_sampling_rate s2 = 0
     /\ enc_channels s2 = 0
     /\ bt_encoder_format s2 = ENC_CODEC_TYPE_INVALID
     /\ a2dp_total_active_session_request s2 = 0
     /\ a2dp_started s2 = false
     /\ bt_state s2 = A2DP_STATE_DISCONNECTED)
  /\ @close_a2dp_output Sim.env
       (Sim.on_air (Sim.loaded None (Sim.ipc 0) ENC_CODEC_TYPE_SBC))
       Sim.good_mixer
     = Some (- ENOSYS, Sim.on_air (Sim.loaded None (Sim.ipc 0) ENC_CODEC_TYPE_SBC),
             Sim.good_mixer, []).
Proof.
  split.
  - exact (proj1 (stop_then_close_resets_to_zero (E := Sim.env))
             Sim.playing Sim.good_mixer eq_refl eq_refl).
  - exact (proj1 (proj2 (stop_then_close_resets_to_zero (E := Sim.env))
                    (Sim.on_air (Sim.loaded None (Sim.ipc 0) ENC_CODEC_TYPE_SBC))
                    Sim.good_mixer eq_refl)).
Defined.

(** C8, as stated, fails: before anything is loaded a stop request
    returns -ENOSYS. *)
Lemma stop_fails_when_not_loaded :
  @audio_extn_a2dp_stop_playback Sim.env Sim.initialised Sim.good_mixer
  = Some (- ENOSYS, Sim.initialised, Sim.good_mixer, [])
  /\ - ENOSYS <> 0.
Proof. split; [vm_compute; reflexivity|discriminate]. Qed.

(* The IPC stop fails and the mixer has no control at all; and a stop
   without the stop entry point. *)
Lemma stop_returns_zero_when_bound_witness :
  (exists s' w' t,
     @audio_extn_a2dp_stop_playback Sim.env
       (Sim.on_air (Sim.loaded (Sim.ipc 1) (Sim.ipc (-1)) ENC_CODEC_TYPE_SBC))
       Sim.empty_mixer
     = Some (0, s', w', t))
  /\ @audio_extn_a2dp_stop_playback Sim.env
       (Sim.on_air (Sim.loaded (Sim.ipc 1) None ENC_CODEC_TYPE_SBC))
       Sim.good_mixer
     = Some (- ENOSYS, Sim.on_air (Sim.loaded (Sim.ipc 1) None ENC_CODEC_TYPE_SBC),
             Sim.good_mixer, []).
Proof.
  split.
  - exact (proj1 (stop_returns_zero_when_bound (E := Sim.env))
             (Sim.on_air (Sim.loaded (Sim.ipc 1) (Sim.ipc (-1)) ENC_CODEC_TYPE_SBC))
             Sim.empty_mixer eq_refl eq_refl).
  - exact (proj2 (stop_returns_zero_when_bound (E := Sim.env))
             (Sim.on_air (Sim.loaded (Sim.ipc 1) None ENC_CODEC_TYPE_SBC))
             Sim.good_mixer eq_refl).
Defined.

Example is_ready_disconnected :
  @audio_extn_a2dp_is_ready Sim.env
    (set_bt_state A2DP_STATE_DISCONNECTED Sim.connected) Sim.good_mixer
  = Some (false, set_bt_state A2DP_STATE_DISCONNECTED Sim.connected,
          Sim.good_mixer, [])
  /\ @audio_extn_a2dp_is_ready Sim.env Sim.connected Sim.good_mixer
     = Some (true, Sim.connected, Sim.good_mixer, [E_audio_check_a2dp_ready]).
Proof. split; vm_compute; reflexivity. Qed.

(** * A failed configuration stores nothing *)

Section FailedConfigure.
Context {E : Env}.


End FailedConfigure.


(** * The codec records *)

Section Sbc.
Context {E : Env}.

(* With the encoder config control present, a configure function
   writes the record it built as its first mixer write. *)
Lemma configure_sbc_writes cfg s w ctl :
  mixer_get_ctl_by_name w MIXER_ENC_CONFIG_BLOCK = Some ctl ->
  exists ok s' w' t,
    configure_sbc_enc_format (Some cfg) s w
    = Some (ok, s', w',
            E_mixer_get_ctl_by_name MIXER_ENC_CONFIG_BLOCK
            :: E_mixer_ctl_set_array MIXER_ENC_CONFIG_BLOCK
                 (BlkSbc (sbc_dsp_cfg cfg)) sbc_enc_cfg_t.sizeof
            :: t).
Proof.
  intros Hctl.
  destruct (configure_sbc_enc_format_runs (Some cfg) s w)
    as (ok & s' & w' & t & Hrun & _ & Hw & _).
  destruct (Hw cfg ctl eq_refl Hctl) as (t' & ->). eauto.
Qed.

(** C5.  For every SBC parameter set, the record
    [configure_sbc_enc_format] builds (and writes to the encoder config
    control when the mixer has it) has channel mode Mono for channel
    index 0, Dual-Mono for 1, Joint-Stereo for 3 and Stereo for 2 and
    every other value; its allocation method is the Loudness constant
    for a non-zero [alloc] and the SNR constant for a zero one; on
    success the session records 1 channel for Mono and 2 otherwise.
    For the parameters {channels=2, alloc=0, samplingRate=44100} the
    record has Stereo, SNR and 44100, and the session records
    [enc_channels] 2. *)
Theorem sbc_channel_mode_and_alloc_mapping :
  forall (cfg : audio_sbc_encoder_config.t),
    let dsp := sbc_dsp_cfg cfg in
    let channels := audio_sbc_encoder_config.channels cfg in
    let alloc := audio_sbc_encoder_config.alloc cfg in
    (* the channel mode *)
    (channels = 0 ->
     sbc_enc_cfg_t.channel_mode dsp = MEDIA_FMT_SBC_CHANNEL_MODE_MONO)
    /\ (channels = 1 ->
        sbc_enc_cfg_t.channel_mode dsp = MEDIA_FMT_SBC_CHANNEL_MODE_DUAL_MONO)
    /\ (channels = 3 ->
        sbc_enc_cfg_t.channel_mode dsp = MEDIA_FMT_SBC_CHANNEL_MODE_JOINT_STEREO)
    /\ (channels <> 0 -> channels <> 1 -> channels <> 3 ->
        sbc_enc_cfg_t.channel_mode dsp = MEDIA_FMT_SBC_CHANNEL_MODE_STEREO)
    (* the allocation method *)
    /\ (alloc <> 0 ->
        sbc_enc_cfg_t.alloc_method dsp = MEDIA_FMT_SBC_ALLOCATION_METHOD_LOUDNESS)
    /\ (alloc = 0 ->
        sbc_enc_cfg_t.alloc_method dsp = MEDIA_FMT_SBC_ALLOCATION_METHOD_SNR)
    /\ sbc_enc_cfg_t.sample_rate dsp = audio_sbc_encoder_config.sampling_rate cfg
    (* this record is what goes to the mixer *)
    /\ (forall (s : a2dp_data) (w : world) ctl,
          mixer_get_ctl_by_name w MIXER_ENC_CONFIG_BLOCK = Some ctl ->
          exists ok s' w' t,
            configure_sbc_enc_format (Some cfg) s w
            = Some (ok, s', w',
                    E_mixer_get_ctl_by_name MIXER_ENC_CONFIG_BLOCK
                    :: E_mixer_ctl_set_array MIXER_ENC_CONFIG_BLOCK
                         (BlkSbc dsp) sbc_enc_cfg_t.sizeof
                    :: t))
    (* what the session records on success *)
    /\ (forall (s : a2dp_data) (w : world) s' w' t,
          configure_sbc_enc_format (Some cfg) s w = Some (true, s', w', t) ->
          bt_encoder_format s' = ENC_CODEC_TYPE_SBC
          /\ enc_sampling_rate s' = audio_sbc_encoder_config.sampling_rate cfg
          /\ enc_channels s' = (if channels =? 0 then 1 else 2))
    (* Scenario 1 *)
    /\ (channels = 2 -> alloc = 0 ->
        audio_sbc_encoder_config.sampling_rate cfg = 44100 ->
        sbc_enc_cfg_t.channel_mode dsp = MEDIA_FMT_SBC_CHANNEL_MODE_STEREO
        /\ sbc_enc_cfg_t.alloc_method dsp = MEDIA_FMT_SBC_ALLOCATION_METHOD_SNR
        /\ sbc_enc_cfg_t.sample_rate dsp = 44100
        /\ forall (s : a2dp_data) (w : world) s' w' t,
             configure_sbc_enc_format (Some cfg) s w = Some (true, s', w', t) ->
             enc_channels s' = 2).
Proof.
  intros cfg dsp channels alloc.
  assert (Hrec : forall (s : a2dp_data) (w : world) s' w' t,
    configure_sbc_enc_format (Some cfg) s w = Some (true, s', w', t) ->
    bt_encoder_format s' = ENC_CODEC_TYPE_SBC
    /\ enc_sampling_rate s' = audio_sbc_encoder_config.sampling_rate cfg
    /\ enc_channels s' = (if channels =? 0 then 1 else 2)).
  { intros s w s' w' t H.
    apply (runs_inv _ _ _ _ _ _ _ _ (configure_sbc_enc_format_runs _ s w)) in H.
    destruct H as (_ & _ & [(Habs & _)|(_ & c & Hc & ->)]); [discriminate|].
    inversion Hc; subst c. splits; try reflexivity.
    cbn [enc_channels set_enc_channels sbc_dsp_cfg sbc_enc_cfg_t.channel_mode].
    fold channels.
    destruct (Z.eqb_spec channels 0); [reflexivity|].
    destruct (Z.eqb_spec channels 1); [reflexivity|].
    destruct (Z.eqb_spec channels 3); reflexivity. }
  subst dsp. unfold sbc_dsp_cfg.
  cbn [sbc_enc_cfg_t.channel_mode sbc_enc_cfg_t.alloc_method
       sbc_enc_cfg_t.sample_rate].
  fold channels. fold alloc.
  splits.
  - intros ->. reflexivity.
  - intros ->. reflexivity.
  - intros ->. reflexivity.
  - intros H0 H1 H3.
    destruct (Z.eqb_spec channels 0); [contradiction|].
    destruct (Z.eqb_spec channels 1); [contradiction|].
    destruct (Z.eqb_spec channels 3); [contradiction|reflexivity].
  - intros H. destruct (Z.eqb_spec alloc 0); [contradiction|reflexivity].
  - intros ->. reflexivity.
  - reflexivity.
  - intros s w ctl Hctl. exact (configure_sbc_writes cfg s w ctl Hctl).
  - exact Hrec.
  - intros Hc Ha Hr. rewrite Hc, Ha. splits; try reflexivity; [exact Hr|].
    intros s w s' w' t H. destruct (Hrec s w s' w' t H) as (_ & _ & ->).
    rewrite Hc. reflexivity.
Qed.

End Sbc.

(* Scenario 1 on the concrete platform. *)
Lemma sbc_channel_mode_and_alloc_mapping_witness :
  sbc_enc_cfg_t.channel_mode (sbc_dsp_cfg Sim.sbc_params)
  = MEDIA_FMT_SBC_CHANNEL_MODE_STEREO
  /\ sbc_enc_cfg_t.alloc_method (sbc_dsp_cfg Sim.sbc_params)
     = MEDIA_FMT_SBC_ALLOCATION_METHOD_SNR
  /\ sbc_enc_cfg_t.sample_rate (sbc_dsp_cfg Sim.sbc_params) = 44100
  /\ exists s' w' t,
       @configure_sbc_enc_format Sim.env (Some Sim.sbc_params)
         Sim.connected Sim.good_mixer
       = Some (true, s', w', t)
       /\ enc_channels s' = 2.
Proof.
  destruct (sbc_channel_mode_and_alloc_mapping (E := Sim.env) Sim.sbc_params)
    as (_ & _ & _ & _ & _ & _ & _ & _ & _ & Hscenario).
  destruct (Hscenario eq_refl eq_refl eq_refl) as (Hm & Ha & Hr & Hch).
  splits; auto.
  assert (H : exists s' w' t,
             @configure_sbc_enc_format Sim.env (Some Sim.sbc_params)
               Sim.connected Sim.good_mixer
             = Some (true, s', w', t))
    by (vm_compute; eexists _, _, _; reflexivity).
  destruct H as (s' & w' & t & H).
  exists s', w', t. split; [exact H|]. exact (Hch _ _ _ _ _ H).
Defined.

Section Aac.
Context {E : Env}.

(** C7.  For every AAC parameter set, the record
    [configure_aac_enc_format] builds (and writes to the encoder config
    control when the mixer has it) has encoder mode LC for [enc_mode]
    0, PS for 2, and SBR for 1 and for every other value. *)
Theorem aac_enc_mode_mapping :
  forall (cfg : audio_aac_encoder_config.t),
    let dsp := aac_dsp_cfg cfg in
    let enc_mode := audio_aac_encoder_config.enc_mode cfg in
    (enc_mode = 0 -> aac_enc_cfg_t.enc_mode dsp = MEDIA_FMT_AAC_AOT_LC)
    /\ (enc_mode = 2 -> aac_enc_cfg_t.enc_mode dsp = MEDIA_FMT_AAC_AOT_PS)
    /\ (enc_mode = 1 -> aac_enc_cfg_t.enc_mode dsp = MEDIA_FMT_AAC_AOT_SBR)
    /\ (enc_mode <> 0 -> enc_mode <> 2 ->
        aac_enc_cfg_t.enc_mode dsp = MEDIA_FMT_AAC_AOT_SBR)
    /\ (forall (s : a2dp_data) (w : world) ctl,
          mixer_get_ctl_by_name w MIXER_ENC_CONFIG_BLOCK = Some ctl ->
          exists ok s' w' t,
            configure_aac_enc_format (Some cfg) s w
            = Some (ok, s', w',
                    E_mixer_get_ctl_by_name MIXER_ENC_CONFIG_BLOCK
                    :: E_mixer_ctl_set_array MIXER_ENC_CONFIG_BLOCK
                         (BlkAac dsp) aac_enc_cfg_t.sizeof
                    :: t)).
Proof.
  intros cfg dsp enc_mode. subst dsp. unfold aac_dsp_cfg at 1 2 3 4.
  cbn [aac_enc_cfg_t.enc_mode]. fold enc_mode.
  splits.
  - intros ->. reflexivity.
  - intros ->. reflexivity.
  - intros ->. reflexivity.
  - intros H0 H2.
    destruct (Z.eqb_spec enc_mode 0); [contradiction|].
    destruct (Z.eqb_spec enc_mode 2); [contradiction|reflexivity].
  - intros s w ctl Hctl.
    destruct (configure_aac_enc_format_runs (Some cfg) s w)
      as (ok & s' & w' & t & Hrun & _ & Hw & _).
    destruct (Hw cfg ctl eq_refl Hctl) as (t' & ->). eauto.
Qed.

End Aac.

Lemma aac_enc_mode_mapping_witness :
  aac_enc_cfg_t.enc_mode (aac_dsp_cfg Sim.aac_params) = MEDIA_FMT_AAC_AOT_SBR
  /\ aac_enc_cfg_t.enc_mode
       (aac_dsp_cfg (audio_aac_encoder_config.mk 7 0 2 44100 256000 16))
     = MEDIA_FMT_AAC_AOT_SBR.
Proof.
  split.
  - exact (proj1 (proj2 (proj2 (aac_enc_mode_mapping (E := Sim.env) Sim.aac_params)))
             eq_refl).
  - refine (proj1 (proj2 (proj2 (proj2
             (aac_enc_mode_mapping (E := Sim.env)
                (audio_aac_encoder_config.mk 7 0 2 44100 256000 16))))) _ _);
      discriminate.
Defined.

Section Ldac.
Context {E : Env}.




End Ldac.


(** * The disconnect of set_parameters, and concrete runs *)

Section Disconnect.
Context {E : Env}.

(* The same holds when the disconnect is the one of
   audio_extn_a2dp_set_parameters, which resets the encoder
   configuration before it closes. *)
Lemma stop_then_device_disconnect_resets s w :
  bt_lib_handle s = true ->
  non_null (audio_stream_close s) = true ->
  runs (_ <- audio_extn_a2dp_stop_playback ;; device_disconnect) s w
    (fun r s2 _ _ =>
       r = 0
       /\ enc_sampling_rate s2 = 0
       /\ enc_channels s2 = 0
       /\ bt_encoder_format s2 = ENC_CODEC_TYPE_INVALID).
Proof.
  intros Hh Hc. wp. wp_use audio_extn_a2dp_stop_playback_runs.
  intros r1 s1 w1 t1 (Hframe & _).
  destruct (session_erased_bindings _ _ Hframe) as (Hh1 & _ & _ & Hc1 & _).
  unfold device_disconnect. wp. wp_use reset_a2dp_enc_config_params_runs.
  intros r2 s2 w2 t2 (_ & Hs2).
  wp_use close_a2dp_output_runs. intros r3 s3 w3 t3 H3.
  assert (Hb : bt_lib_handle s2 && non_null (audio_stream_close s2) = true).
  { destruct Hs2 as [-> | ->];
      cbn [bt_lib_handle audio_stream_close set_bt_encoder_format];
      rewrite Hh1, Hc1, Hh, Hc; reflexivity. }
  rewrite Hb in H3. destruct H3 as (-> & -> & _). repeat split.
Qed.

End Disconnect.

(** ** Concrete runs *)

(* LDAC at 48 kHz, mono: the backend is opened at 96 kHz with one
   channel. *)
Example start_ldac_doubles_backend_rate :
  exists s' t,
    @audio_extn_a2dp_start_playback Sim.env
      (Sim.loaded (Sim.ipc 1) (Sim.ipc 0) ENC_CODEC_TYPE_LDAC) Sim.good_mixer
    = Some (0, s', Sim.good_mixer, t)
    /\ enc_fields s' = (ENC_CODEC_TYPE_LDAC, 48000, 1)
    /\ In (E_mixer_ctl_set_enum_by_string MIXER_SAMPLE_RATE "KHZ_96") t
    /\ In (E_mixer_ctl_set_enum_by_string MIXER_AFE_IN_CHANNELS "One") t.
Proof.
  vm_compute. eexists _, _. split; [reflexivity|].
  split; [reflexivity|]. split; simpl; auto 20.
Qed.

(* The IPC start fails: its status is returned and nothing is counted. *)
Example start_ipc_failure :
  @audio_extn_a2dp_start_playback Sim.env
    (mk_a2dp_data true (Sim.ipc 0) (Sim.ipc 1) (Sim.ipc (-5)) (Sim.ipc 0)
       (Sim.ipc 0) Sim.ipc_void Sim.ipc_void
       (Sim.get_codec ENC_CODEC_TYPE_SBC) (Sim.ipc 1) (Sim.ipc 0)
       A2DP_STATE_CONNECTED ENC_CODEC_TYPE_INVALID 48000 0
       false false 0 true false false)
    Sim.good_mixer
  = Some (-5,
          mk_a2dp_data true (Sim.ipc 0) (Sim.ipc 1) (Sim.ipc (-5)) (Sim.ipc 0)
            (Sim.ipc 0) Sim.ipc_void Sim.ipc_void
            (Sim.get_codec ENC_CODEC_TYPE_SBC) (Sim.ipc 1) (Sim.ipc 0)
            A2DP_STATE_CONNECTED ENC_CODEC_TYPE_INVALID 48000 0
            false false 0 true false false,
          Sim.good_mixer, [E_audio_stream_start]).
Proof. vm_compute. reflexivity. Qed.

(* The encoder config control is missing: the start fails with
   -ETIMEDOUT after the IPC start, and nothing is counted. *)
Example start_without_encoder_control :
  exists t,
    @audio_extn_a2dp_start_playback Sim.env Sim.connected Sim.empty_mixer
    = Some (- ETIMEDOUT, Sim.connected, Sim.empty_mixer, t)
    /\ hd_error t = Some E_audio_stream_start.
Proof. vm_compute. eexists. split; reflexivity. Qed.

(* APTX reported with a null codec_info: configure_aptx_enc_format
   follows the null pointer kept in the union. *)
Example start_aptx_null_codec_info :
  @audio_extn_a2dp_start_playback Sim.env
    (mk_a2dp_data true (Sim.ipc 0) (Sim.ipc 1) (Sim.ipc 0) (Sim.ipc 0)
       (Sim.ipc 0) Sim.ipc_void Sim.ipc_void
       (Some (fun w => ((None, ENC_CODEC_TYPE_APTX), w))) (Sim.ipc 1) (Sim.ipc 0)
       A2DP_STATE_CONNECTED ENC_CODEC_TYPE_INVALID 48000 0
       false false 0 true false false)
    Sim.good_mixer
  = None.
Proof. vm_compute. reflexivity. Qed.

(* Start, start, stop, stop, stop: the IPC stop is called by the second
   stop only, and the third stop finds the counter at 0. *)
Example start_start_stop_stop_stop :
  map (fun st => (result st,
                  a2dp_total_active_session_request (after st),
                  count_events is_stream_stop (calls st)))
      (@run Sim.env [Start; Start; Stop; Stop; Stop] Sim.connected Sim.good_mixer)
  = [(0, 1, 0%nat); (0, 2, 0%nat); (0, 1, 0%nat); (0, 0, 1%nat); (0, 0, 0%nat)].
Proof. vm_compute. reflexivity. Qed.

(** * Reasoning about the runs of the second part *)

Section HostRunsLemmas.
Context {E : Env}.

Lemma runsL_weaken {A : Type} (m : L A) s w (Q Q' : postL A) :
  runsL m s w Q -> (forall a s' w' t, Q a s' w' t -> Q' a s' w' t) ->
  runsL m s w Q'.
Proof.
  intros (a & s' & w' & t & Hm & HQ) HQQ'. exists a, s', w', t. auto.
Qed.

Lemma runsL_ret {A : Type} (a : A) s w (Q : postL A) :
  Q a s w [] -> runsL (retL a) s w Q.
Proof. intros HQ. exists a, s, w, []. auto. Qed.

Lemma runsL_get s w (Q : postL a2dp_data) : Q s s w [] -> runsL getL s w Q.
Proof. intros HQ. exists s, s, w, []. auto. Qed.

Lemma runsL_modify f s w (Q : postL unit) :
  Q tt (f s) w [] -> runsL (modifyL f) s w Q.
Proof. intros HQ. exists tt, (f s), w, []. auto. Qed.

Lemma runsL_read {A : Type} (f : world -> A) s w (Q : postL A) :
  Q (f w) s w [] -> runsL (readL f) s w Q.
Proof. intros HQ. exists (f w), s, w, []. auto. Qed.

Lemma runsL_extern {A : Type} e (f : world -> A * world) s w (Q : postL A) :
  Q (fst (f w)) s (snd (f w)) [e] -> runsL (externL e f) s w Q.
Proof.
  unfold runsL, externL. destruct (f w) as [a w']; simpl.
  intros HQ. exists a, s, w', [e]. auto.
Qed.

Lemma runsL_bind {A B : Type} (m : L A) (f : A -> L B) s w (Q : postL B) :
  runsL m s w (fun a s1 w1 t1 =>
    runsL (f a) s1 w1 (fun b s2 w2 t2 => Q b s2 w2 (t1 ++ t2))) ->
  runsL (bindL m f) s w Q.
Proof.
  intros (a & s1 & w1 & t1 & Hm & b & s2 & w2 & t2 & Hf & HQ).
  exists b, s2, w2, (t1 ++ t2). unfold bindL. rewrite Hm, Hf. auto.
Qed.

Lemma runsL_lift {A : Type} (m : M A) s w (Q : postL A) :
  runs m s w (fun a s' w' t => Q a s' w' (map Traced t)) ->
  runsL (lift m) s w Q.
Proof.
  intros (a & s' & w' & t & Hm & HQ).
  exists a, s', w', (map Traced t). unfold lift. rewrite Hm. auto.
Qed.

(* A run that returns is the only run. *)
Lemma runsL_inv {A : Type} (m : L A) s w (Q : postL A) a s' w' t :
  runsL m s w Q -> m s w = Some (a, s', w', t) -> Q a s' w' t.
Proof.
  intros (a0 & s0 & w0 & t0 & Hm & HQ) H. rewrite Hm in H.
  inversion H; subst. exact HQ.
Qed.

Lemma runsL_eq {A : Type} (m : L A) s w a s' w' t :
  m s w = Some (a, s', w', t) ->
  runsL m s w (fun a0 s0 w0 t0 => a0 = a /\ s0 = s' /\ w0 = w' /\ t0 = t).
Proof. intros H. exists a, s', w', t. auto. Qed.

Lemma bindL_retL {A B : Type} (a : A) (f : A -> L B) s w :
  bindL (retL a) f s w = f a s w.
Proof.
  unfold bindL, retL. destruct (f a s w) as [[[[b s2] w2] t2]|]; reflexivity.
Qed.

Lemma bindL_getL {A : Type} (f : a2dp_data -> L A) s w :
  bindL getL f s w = f s s w.
Proof.
  unfold bindL, getL. destruct (f s s w) as [[[[b s2] w2] t2]|]; reflexivity.
Qed.

Lemma bindL_modifyL {A : Type} g (f : unit -> L A) s w :
  bindL (modifyL g) f s w = f tt (g s) w.
Proof.
  unfold bindL, modifyL. destruct (f tt (g s) w) as [[[[b s2] w2] t2]|]; reflexivity.
Qed.

Lemma bindL_readL {A B : Type} (g : world -> A) (f : A -> L B) s w :
  bindL (readL g) f s w = f (g w) s w.
Proof.
  unfold bindL, readL. destruct (f (g w) s w) as [[[[b s2] w2] t2]|]; reflexivity.
Qed.

Lemma count_host_events_app p t1 t2 :
  count_host_events p (t1 ++ t2)
  = (count_host_events p t1 + count_host_events p t2)%nat.
Proof. unfold count_host_events. rewrite filter_app, length_app. reflexivity. Qed.

Lemma count_host_events_cons p e t :
  count_host_events p (e :: t)
  = ((if p e then 1 else 0) + count_host_events p t)%nat.
Proof. unfold count_host_events. simpl. destruct (p e); reflexivity. Qed.

Lemma count_host_events_nil p : count_host_events p [] = 0%nat.
Proof. reflexivity. Qed.

(* Calls recorded by the first part of the file, seen in a host trace. *)
Lemma count_host_events_traced p t :
  count_host_events p (map Traced t) = count_events (fun e => p (Traced e)) t.
Proof.
  unfold count_host_events, count_events.
  induction t as [|e t IH]; [reflexivity|].
  cbn [map filter]. destruct (p (Traced e)); cbn [List.length]; rewrite IH; reflexivity.
Qed.

End HostRunsLemmas.

Ltac wpL_step :=
  lazymatch goal with
  | |- runsL (bindL _ _) _ _ _ => apply runsL_bind
  | |- runsL (retL _) _ _ _ => apply runsL_ret
  | |- runsL getL _ _ _ => apply runsL_get
  | |- runsL (modifyL _) _ _ _ => apply runsL_modify
  | |- runsL (readL _) _ _ _ => apply runsL_read
  | |- runsL (externL _ _) _ _ _ => apply runsL_extern
  | |- runsL (lift _) _ _ _ => apply runsL_lift
  end.

Ltac wpL := repeat (wpL_step; cbv beta).

Ltac wpL_case :=
  match goal with
  | |- runsL (match ?x with _ => _ end) _ _ _ => destruct x eqn:?
  end.

(** * Loading the library and opening the stream *)

Section OpenOutput.
Context {E : Env} {HO : Host}.

Lemma A2DP_STATE_eqb_eq a b : A2DP_STATE_eqb a b = true <-> a = b.
Proof. destruct a, b; cbv; split; intros H; congruence. Qed.

Lemma A2DP_STATE_eqb_neq a b : A2DP_STATE_eqb a b = false <-> a <> b.
Proof. destruct a, b; cbv; split; intros H; congruence. Qed.

Lemma entry_points_open (s s' : a2dp_data) :
  entry_points s' = entry_points s -> audio_stream_open s' = audio_stream_open s.
Proof. unfold entry_points. intros H. congruence. Qed.

(* The second half of open_a2dp_output, once the library is loaded. *)
Lemma open_stream_runs s w :
  bt_lib_handle s = true ->
  runsL
    (if bt_lib_handle s && non_null (audio_stream_open s) then
       ret <~ callL H_audio_stream_open (audio_stream_open s) ;;
       if negb (ret =? 0) then
         _ <~ externL H_dlclose (fun w => (tt, dlclose w)) ;;
         _ <~ modifyL (set_bt_lib_handle false) ;;
         _ <~ modifyL (set_bt_state A2DP_STATE_DISCONNECTED) ;;
         retL ret
       else
         _ <~ modifyL (set_bt_state A2DP_STATE_CONNECTED) ;;
         retL ret
     else
       _ <~ modifyL (set_bt_state A2DP_STATE_DISCONNECTED) ;;
       retL (- ENOSYS)) s w
    (fun r s' _ t =>
       binding_erased s' = binding_erased s
       /\ entry_points s' = entry_points s
       /\ count_host_events is_dlopen t = 0%nat
       /\ ((bt_state s' = A2DP_STATE_CONNECTED /\ r = 0
            /\ bt_lib_handle s' = true
            /\ non_null (audio_stream_open s) = true
            /\ t = [H_audio_stream_open])
           \/ (bt_state s' = A2DP_STATE_DISCONNECTED /\ r <> 0
               /\ bt_lib_handle s' = false
               /\ non_null (audio_stream_open s) = true
               /\ t = [H_audio_stream_open; H_dlclose])
           \/ (bt_state s' = A2DP_STATE_DISCONNECTED /\ r = - ENOSYS
               /\ bt_lib_handle s' = true
               /\ audio_stream_open s = None
               /\ t = []))).
Proof.
  intros Hh. rewrite Hh. cbn [andb].
  destruct (audio_stream_open s) as [f|] eqn:Hf; cbn [non_null callL].
  - wpL. destruct (Z.eqb_spec (fst (f w)) 0) as [Hr|Hr]; cbn [negb]; wpL.
    + splits; [destruct s; reflexivity|destruct s; reflexivity|reflexivity|].
      left. cbn [bt_state set_bt_state bt_lib_handle]. auto.
    + splits; [destruct s; reflexivity|destruct s; reflexivity|reflexivity|].
      right. left. cbn [bt_state set_bt_state set_bt_lib_handle bt_lib_handle].
      auto.
  - wpL. splits; [destruct s; reflexivity|destruct s; reflexivity|reflexivity|].
    right. right. cbn [bt_state set_bt_state bt_lib_handle]. auto.
Qed.

Lemma open_a2dp_output_runs s w :
  runsL open_a2dp_output s w
    (fun r s' w' t =>
       binding_erased s' = binding_erased s
       /\ if A2DP_STATE_eqb (bt_state s) A2DP_STATE_DISCONNECTED then
            (bt_lib_handle s = true ->
             entry_points s' = entry_points s
             /\ count_host_events is_dlopen t = 0%nat)
            /\ (bt_lib_handle s = false ->
                hd_error t = Some (H_dlopen BT_IPC_LIB_NAME))
            /\ ((bt_state s' = A2DP_STATE_CONNECTED /\ r = 0
                 /\ bt_lib_handle s' = true
                 /\ non_null (audio_stream_open s') = true
                 /\ count_host_events is_host_stream_open t = 1%nat
                 /\ count_host_events is_dlclose t = 0%nat)
                \/ (bt_state s' = A2DP_STATE_DISCONNECTED /\ r <> 0
                    /\ bt_lib_handle s' = false
                    /\ non_null (audio_stream_open s') = true
                    /\ count_host_events is_host_stream_open t = 1%nat
                    /\ count_host_events is_dlclose t = 1%nat)
                \/ (bt_state s' = A2DP_STATE_DISCONNECTED /\ r = - ENOSYS
                    /\ bt_lib_handle s' = true
                    /\ audio_stream_open s' = None
                    /\ count_host_events is_host_stream_open t = 0%nat
                    /\ count_host_events is_dlclose t = 0%nat)
                \/ (bt_lib_handle s = false
                    /\ fst (dlopen BT_IPC_LIB_NAME w) = None
                    /\ r = - errno (snd (dlopen BT_IPC_LIB_NAME w))
                    /\ s' = s
                    /\ w' = snd (dlopen BT_IPC_LIB_NAME w)
                    /\ t = [H_dlopen BT_IPC_LIB_NAME]))
          else r = - ENOSYS /\ s' = s /\ w' = w /\ t = []).
Proof.
  unfold open_a2dp_output. wpL.
  destruct (A2DP_STATE_eqb (bt_state s) A2DP_STATE_DISCONNECTED) eqn:Hst;
    cbn [negb]; [|wpL; auto].
  apply A2DP_STATE_eqb_eq in Hst.
  destruct (bt_lib_handle s) eqn:Hh; cbn [negb]; wpL.
  - eapply runsL_weaken; [apply (open_stream_runs s w Hh)|]. cbv beta.
    intros r s' w' t (Hb & He & Hd & Hcase).
    splits; auto; [discriminate|].
    apply entry_points_open in He.
    destruct Hcase as [(H1 & H2 & H3 & H4 & ->)|[(H1 & H2 & H3 & H4 & ->)
                      |(H1 & H2 & H3 & H4 & ->)]].
    + left. splits; auto. congruence.
    + right. left. splits; auto. congruence.
    + right. right. left. splits; auto. congruence.
  - destruct (fst (dlopen BT_IPC_LIB_NAME w)) as [lib|] eqn:Hlib; wpL.
    + match goal with
      | |- runsL _ ?s1 ?w1 _ =>
          eapply runsL_weaken; [apply (open_stream_runs s1 w1 eq_refl)|]
      end.
      cbv beta. intros r s' w' t (Hb & He & Hd & Hcase).
      split; [rewrite Hb; destruct s; reflexivity|].
      splits; [discriminate|reflexivity|].
      apply entry_points_open in He.
      destruct Hcase as [(H1 & H2 & H3 & H4 & ->)|[(H1 & H2 & H3 & H4 & ->)
                        |(H1 & H2 & H3 & H4 & ->)]].
      * left. splits; auto. rewrite He. exact H4.
      * right. left. splits; auto. rewrite He. exact H4.
      * right. right. left. splits; auto. rewrite He. exact H4.
    + splits; [destruct s; reflexivity|discriminate|reflexivity|].
      right. right. right. splits; auto.
      destruct s; cbn in Hst |- *; rewrite Hst; reflexivity.
Qed.

(** X1.  [open_a2dp_output] always returns, and changes nothing of the
    session but the library handle, the entry points and [bt_state].
    Called in another state than DISCONNECTED it returns -ENOSYS and
    does nothing at all.  Called in DISCONNECTED it ends in CONNECTED
    only after exactly one audio_stream_open call and no dlclose, with
    the library loaded and 0 returned; otherwise it ends in
    DISCONNECTED, and then a return value of 0 can only come from a
    failed dlopen that left errno at 0. *)
Theorem open_a2dp_output_outcome s w :
  runsL open_a2dp_output s w
    (fun r s' w' t =>
       binding_erased s' = binding_erased s
       /\ (bt_state s <> A2DP_STATE_DISCONNECTED ->
           r = - ENOSYS /\ s' = s /\ w' = w /\ t = [])
       /\ (bt_state s = A2DP_STATE_DISCONNECTED ->
           (bt_state s' = A2DP_STATE_CONNECTED /\ r = 0
            /\ bt_lib_handle s' = true
            /\ count_host_events is_host_stream_open t = 1%nat
            /\ count_host_events is_dlclose t = 0%nat)
           \/ (bt_state s' = A2DP_STATE_DISCONNECTED
               /\ (r = 0 ->
                   bt_lib_handle s' = false
                   /\ fst (dlopen BT_IPC_LIB_NAME w) = None
                   /\ errno (snd (dlopen BT_IPC_LIB_NAME w)) = 0
                   /\ t = [H_dlopen BT_IPC_LIB_NAME])))).
Proof.
  eapply runsL_weaken; [apply open_a2dp_output_runs|]. cbv beta.
  intros r s' w' t (Hb & H).
  destruct (A2DP_STATE_eqb (bt_state s) A2DP_STATE_DISCONNECTED) eqn:Hst.
  - apply A2DP_STATE_eqb_eq in Hst. splits; [exact Hb|congruence|].
    intros _. destruct H as (_ & _ & [HA|[HB|[HC|HD]]]).
    + left. tauto.
    + right. destruct HB as (H1 & H2 & _). split; [exact H1|]. intros Hr. tauto.
    + right. destruct HC as (H1 & H2 & _). split; [exact H1|].
      intros Hr. rewrite Hr in H2. discriminate.
    + right. destruct HD as (H1 & H2 & H3 & -> & H5 & H6).
      split; [exact Hst|]. intros Hr. splits; auto. lia.
  - apply A2DP_STATE_eqb_neq in Hst. splits; [exact Hb|auto|].
    intros Habs. contradiction.
Qed.

(* What open_a2dp_output returns once it has called audio_stream_open. *)
Lemma open_stream_status s w :
  runsL
    (if bt_lib_handle s && non_null (audio_stream_open s) then
       ret <~ callL H_audio_stream_open (audio_stream_open s) ;;
       if negb (ret =? 0) then
         _ <~ externL H_dlclose (fun w => (tt, dlclose w)) ;;
         _ <~ modifyL (set_bt_lib_handle false) ;;
         _ <~ modifyL (set_bt_state A2DP_STATE_DISCONNECTED) ;;
         retL ret
       else
         _ <~ modifyL (set_bt_state A2DP_STATE_CONNECTED) ;;
         retL ret
     else
       _ <~ modifyL (set_bt_state A2DP_STATE_DISCONNECTED) ;;
       retL (- ENOSYS)) s w
    (fun r s' w' t =>
       In H_audio_stream_open t ->
       exists f,
         audio_stream_open s' = Some f
         /\ r = fst (f w)
         /\ w' = (if fst (f w) =? 0 then snd (f w) else dlclose (snd (f w)))).
Proof.
  destruct (bt_lib_handle s); cbn [andb].
  - destruct (audio_stream_open s) as [f|] eqn:Hf; cbn [non_null callL].
    + wpL. destruct (fst (f w) =? 0) eqn:Hz; cbn [negb]; wpL;
        intros _; exists f; rewrite ?Hz; splits; auto.
    + wpL. intros [].
  - wpL. intros [].
Qed.

Lemma open_a2dp_output_status s w :
  runsL open_a2dp_output s w
    (fun r s' w' t =>
       In H_audio_stream_open t ->
       let wc := if bt_lib_handle s then w
                 else snd (dlopen BT_IPC_LIB_NAME w) in
       exists f,
         audio_stream_open s' = Some f
         /\ r = fst (f wc)
         /\ w' = (if fst (f wc) =? 0 then snd (f wc) else dlclose (snd (f wc)))).
Proof.
  unfold open_a2dp_output. wpL.
  destruct (A2DP_STATE_eqb (bt_state s) A2DP_STATE_DISCONNECTED);
    cbn [negb]; [|wpL; intros []].
  destruct (bt_lib_handle s) eqn:Hh; cbn [negb]; wpL.
  - eapply runsL_weaken; [apply (open_stream_status s w)|]. cbv beta.
    intros r s' w' t H Hin. rewrite !app_nil_l in Hin.
    exact (H Hin).
  - destruct (fst (dlopen BT_IPC_LIB_NAME w)) as [lib|] eqn:Hlib; wpL.
    + match goal with
      | |- runsL _ ?s1 ?w1 _ =>
          eapply runsL_weaken; [apply (open_stream_status s1 w1)|]
      end.
      cbv beta. intros r s' w' t H Hin. apply H.
      rewrite !app_nil_l, !app_nil_r in Hin. cbn [app] in Hin.
      destruct Hin as [Habs|Hin]; [discriminate|exact Hin].
    + intros [Habs|[]]. discriminate.
Qed.

(** X2.  Whenever [open_a2dp_output] calls audio_stream_open, what it
    returns is the status of that call.  When the status is not 0 the
    library is closed by exactly one dlclose, right after the call,
    and its handle dropped, and the state is DISCONNECTED; from then
    on a start, stop or close request is refused with -ENOSYS without
    calling anything, although the entry points are still set. *)
Theorem rejected_stream_open_unloads s w r s' w' t :
  open_a2dp_output s w = Some (r, s', w', t) ->
  In H_audio_stream_open t ->
  exists f,
    audio_stream_open s' = Some f
    /\ r = fst (f (if bt_lib_handle s then w
                   else snd (dlopen BT_IPC_LIB_NAME w)))
    /\ (fst (f (if bt_lib_handle s then w
                else snd (dlopen BT_IPC_LIB_NAME w))) <> 0 ->
        w' = dlclose (snd (f (if bt_lib_handle s then w
                              else snd (dlopen BT_IPC_LIB_NAME w))))
        /\ bt_lib_handle s' = false
        /\ bt_state s' = A2DP_STATE_DISCONNECTED
        /\ count_host_events is_dlclose t = 1%nat
        /\ forall w2,
             audio_extn_a2dp_start_playback s' w2 = Some (- ENOSYS, s', w2, [])
             /\ audio_extn_a2dp_stop_playback s' w2 = Some (- ENOSYS, s', w2, [])
             /\ close_a2dp_output s' w2 = Some (- ENOSYS, s', w2, [])).
Proof.
  intros Hrun Hin.
  pose proof (runsL_inv _ _ _ _ _ _ _ _ (open_a2dp_output_status s w) Hrun Hin)
    as (f & Hf & Hr & Hw).
  exists f. split; [exact Hf|]. split; [exact Hr|].
  intros Hrej. rewrite <- Hr in Hrej.
  apply Z.eqb_neq in Hrej. rewrite <- Hr, Hrej in Hw.
  apply Z.eqb_neq in Hrej. split; [exact Hw|].
  apply (runsL_inv _ _ _ _ _ _ _ _ (open_a2dp_output_runs s w)) in Hrun.
  destruct Hrun as (_ & H).
  assert (Hcount : count_host_events is_host_stream_open t <> 0%nat).
  { clear - Hin. induction t as [|e t IH]; [destruct Hin|].
    rewrite count_host_events_cons. destruct Hin as [->|Hin]; cbn; [lia|].
    specialize (IH Hin). destruct (is_host_stream_open e); lia. }
  destruct (A2DP_STATE_eqb (bt_state s) A2DP_STATE_DISCONNECTED).
  - destruct H as (_ & _ & [HA|[HB|[HC|HD]]]).
    + destruct HA as (_ & H2 & _). contradiction.
    + destruct HB as (H1 & _ & H3 & _ & _ & H5). splits; auto.
      intros w2. unfold audio_extn_a2dp_start_playback,
        audio_extn_a2dp_stop_playback, close_a2dp_output.
      rewrite !bind_get, H3. auto.
    + destruct HC as (_ & _ & _ & _ & H5 & _). contradiction.
    + destruct HD as (_ & _ & _ & _ & _ & ->). cbn in Hcount. contradiction.
  - destruct H as (_ & _ & _ & ->). destruct Hin.
Qed.

(** X3.  When the library cannot be loaded, [open_a2dp_output] returns
    minus the errno left by dlopen and leaves the session as it was:
    no entry point is resolved and no IPC call is made. *)
Theorem dlopen_failure_returns_errno s w :
  bt_state s = A2DP_STATE_DISCONNECTED ->
  bt_lib_handle s = false ->
  fst (dlopen BT_IPC_LIB_NAME w) = None ->
  open_a2dp_output s w
  = Some (- errno (snd (dlopen BT_IPC_LIB_NAME w)), s,
          snd (dlopen BT_IPC_LIB_NAME w), [H_dlopen BT_IPC_LIB_NAME]).
Proof.
  intros Hst Hh Hlib. unfold open_a2dp_output.
  rewrite bindL_getL, Hst, Hh. cbn [A2DP_STATE_eqb negb].
  unfold bindL, externL, readL, modifyL, retL.
  destruct (dlopen BT_IPC_LIB_NAME w) as [o w1]. cbn [fst snd] in *. subst o.
  cbn. destruct s; cbn in *. subst. reflexivity.
Qed.

(** X4.  A disconnect followed by a connect does not load the library
    again: with the library loaded and audio_stream_close set,
    [close_a2dp_output] then [open_a2dp_output] call dlopen not once
    and keep every entry point; audio_stream_open is called once if it
    is set; the connection is CONNECTED exactly when 0 is returned;
    and the session bookkeeping is the one close left (no request, not
    started, not suspended, no encoder). *)
Theorem reconnect_keeps_library s w :
  bt_lib_handle s = true ->
  non_null (audio_stream_close s) = true ->
  runsL (_ <~ lift close_a2dp_output ;; open_a2dp_output) s w
    (fun r s' _ t =>
       count_host_events is_dlopen t = 0%nat
       /\ entry_points s' = entry_points s
       /\ count_host_events is_host_stream_open t
          = (if non_null (audio_stream_open s) then 1%nat else 0%nat)
       /\ (r = 0 <-> bt_state s' = A2DP_STATE_CONNECTED)
       /\ a2dp_total_active_session_request s' = 0
       /\ a2dp_started s' = false
       /\ a2dp_suspended s' = false
       /\ enc_fields s' = (ENC_CODEC_TYPE_INVALID, 0, 0)).
Proof.
  intros Hh Hc. wpL.
  eapply runs_weaken; [apply close_a2dp_output_runs|]. cbv beta.
  rewrite Hh, Hc. cbn [andb]. intros r1 s1 w1 t1 (-> & Hs1 & Ht1).
  eapply runsL_weaken; [apply open_a2dp_output_runs|]. cbv beta.
  intros r s' w' t (Hb & H).
  assert (Hst1 : bt_state s1 = A2DP_STATE_DISCONNECTED) by (rewrite Hs1; reflexivity).
  assert (Hh1 : bt_lib_handle s1 = true) by (rewrite Hs1; exact Hh).
  assert (He1 : entry_points s1 = entry_points s) by (rewrite Hs1; reflexivity).
  rewrite Hst1 in H. cbn [A2DP_STATE_eqb] in H.
  destruct H as (Hload & _ & Hcase).
  destruct (Hload Hh1) as (He & Hd).
  assert (Hfields : a2dp_total_active_session_request s' = 0
                    /\ a2dp_started s' = false
                    /\ a2dp_suspended s' = false
                    /\ enc_fields s' = (ENC_CODEC_TYPE_INVALID, 0, 0)).
  { assert (Hb' : binding_erased s' = binding_erased s1) by exact Hb.
    rewrite Hs1 in Hb'. unfold enc_fields.
    pose proof (f_equal a2dp_total_active_session_request Hb') as F1.
    pose proof (f_equal a2dp_started Hb') as F2.
    pose proof (f_equal a2dp_suspended Hb') as F3.
    pose proof (f_equal bt_encoder_format Hb') as F4.
    pose proof (f_equal enc_sampling_rate Hb') as F5.
    pose proof (f_equal enc_channels Hb') as F6.
    cbn in F1, F2, F3, F4, F5, F6. rewrite F4, F5, F6. auto. }
  assert (Ht : forall p, (forall e, p (Traced e) = false) ->
                count_host_events p (map Traced t1) = 0%nat).
  { intros p Hp. rewrite count_host_events_traced.
    rewrite Ht1. destruct (A2DP_STATE_eqb _ _); cbn; rewrite ?Hp; reflexivity. }
  assert (Hopen : audio_stream_open s' = audio_stream_open s).
  { rewrite He1 in He.
    apply (f_equal (fun p => fst (fst (fst (fst (fst (fst (fst (fst (fst p)))))))))) in He.
    exact He. }
  rewrite !count_host_events_app, !Ht by reflexivity. cbn [Nat.add].
  split; [exact Hd|]. split; [congruence|].
  rewrite <- Hopen.
  destruct Hcase as [HA|[HB|[HC|HD]]].
  - destruct HA as (H1 & H2 & H3 & H4 & H5 & _). rewrite H4, H5.
    split; [reflexivity|]. split; [tauto|exact Hfields].
  - destruct HB as (H1 & H2 & H3 & H4 & H5 & _). rewrite H4, H5.
    split; [reflexivity|]. split; [|exact Hfields].
    rewrite H1. split; [contradiction|discriminate].
  - destruct HC as (H1 & H2 & H3 & H4 & H5 & _). rewrite H4, H5.
    split; [reflexivity|]. split; [|exact Hfields].
    rewrite H1, H2. split; discriminate.
  - destruct HD as (Habs & _). congruence.
Qed.

End OpenOutput.

(* The stream open is rejected with status 7 on a fresh session. *)
Lemma rejected_stream_open_unloads_witness :
  exists s' w' t,
    @open_a2dp_output Sim.env (SimHost.host true 7 0 0 EmptyString)
      Sim.initialised Sim.good_mixer = Some (7, s', w', t)
    /\ bt_lib_handle s' = false
    /\ audio_extn_a2dp_start_playback s' Sim.good_mixer
       = Some (- ENOSYS, s', Sim.good_mixer, []).
Proof.
  assert (H : exists r s' w' t,
             @open_a2dp_output Sim.env (SimHost.host true 7 0 0 EmptyString)
               Sim.initialised Sim.good_mixer = Some (r, s', w', t)
             /\ In H_audio_stream_open t
             /\ audio_stream_open s' = Sim.ipc 7)
    by (vm_compute; eexists _, _, _, _;
        split; [reflexivity|split; [right; left; reflexivity|reflexivity]]).
  destruct H as (r & s' & w' & t & H & Hin & Hp).
  destruct (rejected_stream_open_unloads (HO := SimHost.host true 7 0 0 EmptyString)
              _ _ _ _ _ _ H Hin) as (f & Hf & Hr & Hrej).
  rewrite Hp in Hf. inversion Hf; subst f. cbn in Hr, Hrej. subst r.
  destruct (Hrej ltac:(discriminate)) as (_ & Hh & _ & _ & Hw).
  exists s', w', t. split; [exact H|].
  split; [exact Hh|]. exact (proj1 (Hw Sim.good_mixer)).
Defined.

(* No library on the device: errno is 2. *)
Lemma dlopen_failure_returns_errno_witness :
  @open_a2dp_output Sim.env (SimHost.host false 0 0 0 EmptyString)
    Sim.initialised Sim.good_mixer
  = Some (-2, Sim.initialised, Sim.good_mixer, [H_dlopen BT_IPC_LIB_NAME]).
Proof.
  exact (dlopen_failure_returns_errno (HO := SimHost.host false 0 0 0 EmptyString)
           Sim.initialised Sim.good_mixer eq_refl eq_refl eq_refl).
Defined.

(* Disconnect and connect in the middle of a playback. *)
Lemma reconnect_keeps_library_witness :
  runsL (_ <~ lift close_a2dp_output ;; @open_a2dp_output Sim.env SimHost.plain)
    Sim.playing Sim.good_mixer
    (fun r s' _ t =>
       count_host_events is_dlopen t = 0%nat
       /\ entry_points s' = entry_points Sim.playing
       /\ count_host_events is_host_stream_open t
          = (if non_null (audio_stream_open Sim.playing) then 1%nat else 0%nat)
       /\ (r = 0 <-> bt_state s' = A2DP_STATE_CONNECTED)
       /\ a2dp_total_active_session_request s' = 0
       /\ a2dp_started s' = false
       /\ a2dp_suspended s' = false
       /\ enc_fields s' = (ENC_CODEC_TYPE_INVALID, 0, 0)).
Proof.
  exact (reconnect_keeps_library (HO := SimHost.plain) Sim.playing Sim.good_mixer
           eq_refl eq_refl).
Defined.

(** * Connect, disconnect, suspend and resume events *)

Section SetParameters.
Context {E : Env} {HO : Host}.

Lemma set_parameters_suspend_request parms value s w :
  suspend_request parms value s ->
  audio_extn_a2dp_set_parameters parms s w
  = (if String.eqb value "true" && negb (a2dp_suspended s)
     then suspend_branch
     else if a2dp_suspended s then resume_branch
     else retL tt) s w.
Proof.
  intros (Hoff & Hc & Hd & Hk & Hv & Hh & Hst).
  unfold audio_extn_a2dp_set_parameters. rewrite bindL_getL, Hoff. cbn [negb].
  destruct (str_parms_get_str parms AUDIO_PARAMETER_DEVICE_CONNECT) as [r1 v1].
  destruct (str_parms_get_str parms AUDIO_PARAMETER_DEVICE_DISCONNECT) as [r2 v2].
  destruct (str_parms_get_str parms "A2dpSuspended") as [r3 v3].
  cbn [fst snd] in *. subst v3.
  destruct (Z.leb_spec 0 r1); [lia|].
  destruct (Z.leb_spec 0 r2); [lia|].
  destruct (Z.leb_spec 0 r3); [|lia].
  rewrite Hh. apply A2DP_STATE_eqb_neq in Hst. rewrite Hst. reflexivity.
Qed.

Lemma set_parameters_disconnect_request parms s w :
  disconnect_request parms s ->
  audio_extn_a2dp_set_parameters parms s w
  = (_ <~ lift reset_a2dp_enc_config_params ;;
     _ <~ lift close_a2dp_output ;;
     retL tt) s w.
Proof.
  intros (Hoff & Hc & Hd & Hdev).
  unfold audio_extn_a2dp_set_parameters. rewrite bindL_getL, Hoff. cbn [negb].
  destruct (str_parms_get_str parms AUDIO_PARAMETER_DEVICE_CONNECT) as [r1 v1].
  destruct (str_parms_get_str parms AUDIO_PARAMETER_DEVICE_DISCONNECT) as [r2 v2].
  cbn [fst snd] in *.
  destruct (Z.leb_spec 0 r1); [lia|].
  destruct (Z.leb_spec 0 r2); [|lia].
  rewrite Hdev. reflexivity.
Qed.

(* Without an A2DP playback among the use cases, the loop over them
   calls nothing. *)
Lemma restore_usecases_idle restore usecases s w :
  (forall uc, In uc usecases -> is_a2dp_playback uc w = false) ->
  restore_usecases restore usecases s w = Some (tt, s, w, []).
Proof.
  induction usecases as [|uc rest IH]; intros Hno; [reflexivity|].
  cbn [restore_usecases]. rewrite bindL_readL.
  rewrite (Hno uc (or_introl eq_refl)). rewrite bindL_retL.
  apply IH. intros uc' Hin. apply Hno. right. exact Hin.
Qed.

Lemma runsL_restore_usecases restore s w (Q : postL unit) :
  no_a2dp_playback w ->
  Q tt s w [] ->
  runsL (restore_usecases restore (usecase_list w)) s w Q.
Proof.
  intros Hno HQ. exists tt, s, w, []. split; [|exact HQ].
  apply restore_usecases_idle. exact Hno.
Qed.

Lemma count_traced_config p t :
  (forall e, config_event e = true -> p (Traced e) = false) ->
  forallb config_event t = true ->
  count_host_events p (map Traced t) = 0%nat.
Proof.
  intros Hp Ht. rewrite count_host_events_traced.
  apply (count_events_absent _ config_event); auto.
Qed.

(* With the encoder config control in the mixer, the reset stores
   ENC_MEDIA_FMT_NONE whatever the writes return. *)
Lemma reset_a2dp_enc_config_params_stores s w ctl :
  mixer_get_ctl_by_name w MIXER_ENC_CONFIG_BLOCK = Some ctl ->
  runs reset_a2dp_enc_config_params s w
    (fun _ s' _ _ => s' = set_bt_encoder_format ENC_MEDIA_FMT_NONE s).
Proof.
  intros Hctl. unfold reset_a2dp_enc_config_params. wp. rewrite Hctl.
  unfold set_array. wp.
  eapply runs_weaken; [apply a2dp_set_bit_format_runs|]. cbv beta.
  intros r s' w' t (-> & _). reflexivity.
Qed.

Lemma reset_a2dp_enc_config_params_full s w :
  runs reset_a2dp_enc_config_params s w
    (fun _ s' _ t =>
       forallb config_event t = true
       /\ (s' = s \/ s' = set_bt_encoder_format ENC_MEDIA_FMT_NONE s)
       /\ (forall ctl, mixer_get_ctl_by_name w MIXER_ENC_CONFIG_BLOCK = Some ctl ->
           s' = set_bt_encoder_format ENC_MEDIA_FMT_NONE s)).
Proof.
  destruct (reset_a2dp_enc_config_params_runs s w)
    as (r & s' & w' & t & Hrun & Ht & Hs).
  exists r, s', w', t. split; [exact Hrun|]. splits; auto.
  intros ctl Hctl.
  exact (runs_inv _ _ _ _ _ _ _ _
           (reset_a2dp_enc_config_params_stores s w ctl Hctl) Hrun).
Qed.

Lemma suspend_branch_runs s w :
  no_a2dp_playback w ->
  runsL suspend_branch s w
    (fun _ s' _ t =>
       (s' = set_a2dp_suspended true s
        \/ s' = set_bt_encoder_format ENC_MEDIA_FMT_NONE (set_a2dp_suspended true s))
       /\ (forall ctl, mixer_get_ctl_by_name w MIXER_ENC_CONFIG_BLOCK = Some ctl ->
           bt_encoder_format s' = ENC_MEDIA_FMT_NONE)
       /\ count_host_events is_host_stream_suspend t
          = (if non_null (audio_stream_suspend s) then 1%nat else 0%nat)
       /\ count_host_events is_host_stream_start t = 0%nat
       /\ count_host_events is_host_stream_stop t = 0%nat
       /\ count_host_events is_host_stream_close t = 0%nat).
Proof.
  intros Hno. unfold suspend_branch. wpL.
  apply runsL_restore_usecases; [exact Hno|]. wpL.
  eapply runs_weaken; [apply reset_a2dp_enc_config_params_full|]. cbv beta.
  intros r1 s1 w1 t1 (Ht1 & Hs1 & Hctl). wpL.
  assert (Hfmt : forall ctl,
            mixer_get_ctl_by_name w MIXER_ENC_CONFIG_BLOCK = Some ctl ->
            bt_encoder_format s1 = ENC_MEDIA_FMT_NONE)
    by (intros ctl Hc'; rewrite (Hctl ctl Hc'); reflexivity).
  assert (Hsus : audio_stream_suspend s1 = audio_stream_suspend s)
    by (destruct Hs1 as [->| ->]; reflexivity).
  rewrite Hsus.
  assert (Hc : forall p, (forall e, config_event e = true -> p (Traced e) = false) ->
               count_host_events p (map Traced t1) = 0%nat)
    by (intros p Hp; apply count_traced_config; auto).
  destruct (audio_stream_suspend s) as [f|]; cbn [non_null callL]; wpL.
  - rewrite !app_nil_l, !app_nil_r, !count_host_events_app.
    rewrite !Hc by (intros e He; destruct e; cbv in He |- *; congruence).
    splits; auto.
  - rewrite !app_nil_l, !app_nil_r.
    rewrite !Hc by (intros e He; destruct e; cbv in He |- *; congruence).
    splits; auto.
Qed.

Lemma resume_branch_runs s w :
  no_a2dp_playback (resume_loop_world s w) ->
  runsL resume_branch s w
    (fun _ s' _ t =>
       count_host_events is_clear_suspend_flag t
       = (if non_null (clear_a2dp_suspend_flag s) then 1%nat else 0%nat)
       /\ count_host_events is_host_stream_stop t = 0%nat
       /\ match audio_stream_start s with
          | Some f =>
              if 0 <? a2dp_total_active_session_request s then
                count_host_events is_host_stream_start t = 1%nat
                /\ s' = (if fst (f (after_clear_flag s w)) =? 0
                         then set_a2dp_suspended false s
                         else set_a2dp_started false (set_a2dp_suspended false s))
              else count_host_events is_host_stream_start t = 0%nat
                   /\ s' = set_a2dp_suspended false s
          | None =>
              count_host_events is_host_stream_start t = 0%nat
              /\ s' = set_a2dp_suspended false s
          end).
Proof.
  intros Hno. unfold resume_loop_world in Hno. unfold resume_branch. wpL.
  apply runsL_weaken with
    (Q := fun _ s1 w1 t1 =>
            s1 = s /\ w1 = after_clear_flag s w
            /\ t1 = (if non_null (clear_a2dp_suspend_flag s)
                     then [H_clear_a2dp_suspend_flag] else [])).
  { unfold after_clear_flag.
    destruct (clear_a2dp_suspend_flag s) as [g|]; cbn [non_null call_voidL]; wpL; auto. }
  intros _ s1 w1 t1 (-> & -> & ->). wpL.
  cbn [a2dp_total_active_session_request set_a2dp_suspended audio_stream_start].
  assert (Hflag : forall p, p H_clear_a2dp_suspend_flag = false ->
            count_host_events p
              (if non_null (clear_a2dp_suspend_flag s)
               then [H_clear_a2dp_suspend_flag] else []) = 0%nat).
  { intros p Hp. destruct (non_null _); cbn; rewrite ?Hp; reflexivity. }
  assert (Hflag' : count_host_events is_clear_suspend_flag
              (if non_null (clear_a2dp_suspend_flag s)
               then [H_clear_a2dp_suspend_flag] else [])
            = (if non_null (clear_a2dp_suspend_flag s) then 1%nat else 0%nat)).
  { destruct (non_null _); reflexivity. }
  destruct (audio_stream_start s) as [f|] eqn:Hf; cbn [non_null];
    destruct (0 <? a2dp_total_active_session_request s); wpL;
    try (apply runsL_restore_usecases; [exact Hno|];
         rewrite !app_nil_l, !app_nil_r, ?Hflag', ?Hflag by reflexivity;
         splits; reflexivity).
  cbn [call]. wp.
  destruct (Z.eqb_spec (fst (f (after_clear_flag s w))) 0) as [Hr|Hr];
    cbn [negb]; wpL;
    (apply runsL_restore_usecases; [exact Hno|]);
    rewrite !app_nil_l, !app_nil_r, !count_host_events_app, ?Hflag', ?Hflag
      by reflexivity; cbn [map]; rewrite !count_host_events_cons;
    cbn [is_clear_suspend_flag is_host_stream_stop is_host_stream_start
         count_host_events filter List.length];
    splits; try reflexivity; lia.
Qed.

(** X5.  The keys of a parameter set are looked at in the order
    connect, disconnect, "A2dpSuspended", and only the first one
    present is acted upon: two parameter sets with the same connect
    entry are handled alike, whatever else they hold, and so are two
    sets without connect key and with the same disconnect entry. *)
Theorem first_key_decides parms parms' s w :
  (0 <= fst (str_parms_get_str parms AUDIO_PARAMETER_DEVICE_CONNECT)
   /\ str_parms_get_str parms' AUDIO_PARAMETER_DEVICE_CONNECT
      = str_parms_get_str parms AUDIO_PARAMETER_DEVICE_CONNECT)
  \/ (fst (str_parms_get_str parms AUDIO_PARAMETER_DEVICE_CONNECT) < 0
      /\ fst (str_parms_get_str parms' AUDIO_PARAMETER_DEVICE_CONNECT) < 0
      /\ 0 <= fst (str_parms_get_str parms AUDIO_PARAMETER_DEVICE_DISCONNECT)
      /\ str_parms_get_str parms' AUDIO_PARAMETER_DEVICE_DISCONNECT
         = str_parms_get_str parms AUDIO_PARAMETER_DEVICE_DISCONNECT) ->
  audio_extn_a2dp_set_parameters parms' s w
  = audio_extn_a2dp_set_parameters parms s w.
Proof.
  unfold audio_extn_a2dp_set_parameters. rewrite !bindL_getL.
  destruct (is_a2dp_offload_supported s); cbn [negb]; [|reflexivity].
  intros [(Hc & ->)|(Hc & Hc' & Hd & Hd')].
  - destruct (str_parms_get_str parms AUDIO_PARAMETER_DEVICE_CONNECT) as [r1 v1].
    cbn [fst] in Hc. destruct (Z.leb_spec 0 r1); [reflexivity|lia].
  - destruct (str_parms_get_str parms AUDIO_PARAMETER_DEVICE_CONNECT) as [r1 v1].
    destruct (str_parms_get_str parms' AUDIO_PARAMETER_DEVICE_CONNECT) as [r1' v1'].
    cbn [fst] in Hc, Hc'.
    destruct (Z.leb_spec 0 r1); [lia|]. destruct (Z.leb_spec 0 r1'); [lia|].
    rewrite Hd'.
    destruct (str_parms_get_str parms AUDIO_PARAMETER_DEVICE_DISCONNECT) as [r2 v2].
    cbn [fst] in Hd. destruct (Z.leb_spec 0 r2); [reflexivity|lia].
Qed.

(** X6.  A disconnect request for an A2DP device, with the library
    loaded and audio_stream_close set, always ends in the reset
    session: DISCONNECTED, not started, not suspended, no active
    request, no encoder, rate and channels 0.  It does so in the
    middle of a playback too, and then without calling
    audio_stream_stop; audio_stream_close is called once unless the
    state was DISCONNECTED already.  The library stays loaded. *)
Theorem disconnect_event_drops_session parms s w :
  disconnect_request parms s ->
  bt_lib_handle s = true ->
  non_null (audio_stream_close s) = true ->
  runsL (audio_extn_a2dp_set_parameters parms) s w
    (fun _ s' _ t =>
       bt_state s' = A2DP_STATE_DISCONNECTED
       /\ a2dp_started s' = false
       /\ a2dp_suspended s' = false
       /\ a2dp_total_active_session_request s' = 0
       /\ enc_fields s' = (ENC_CODEC_TYPE_INVALID, 0, 0)
       /\ bt_lib_handle s' = true
       /\ entry_points s' = entry_points s
       /\ count_host_events is_host_stream_stop t = 0%nat
       /\ count_host_events is_host_stream_close t
          = (if A2DP_STATE_eqb (bt_state s) A2DP_STATE_DISCONNECTED
             then 0%nat else 1%nat)).
Proof.
  intros Hreq Hh Hc.
  unfold runsL. rewrite (set_parameters_disconnect_request _ _ _ Hreq).
  change (runsL (_ <~ lift reset_a2dp_enc_config_params ;;
                 _ <~ lift close_a2dp_output ;; retL tt) s w
            (fun _ s' _ t =>
               bt_state s' = A2DP_STATE_DISCONNECTED
               /\ a2dp_started s' = false
               /\ a2dp_suspended s' = false
               /\ a2dp_total_active_session_request s' = 0
               /\ enc_fields s' = (ENC_CODEC_TYPE_INVALID, 0, 0)
               /\ bt_lib_handle s' = true
               /\ entry_points s' = entry_points s
               /\ count_host_events is_host_stream_stop t = 0%nat
               /\ count_host_events is_host_stream_close t
                  = (if A2DP_STATE_eqb (bt_state s) A2DP_STATE_DISCONNECTED
                     then 0%nat else 1%nat))).
  wpL.
  eapply runs_weaken; [apply reset_a2dp_enc_config_params_runs|]. cbv beta.
  intros r1 s1 w1 t1 (Ht1 & Hs1). wpL.
  eapply runs_weaken; [apply close_a2dp_output_runs|]. cbv beta.
  assert (Hh1 : bt_lib_handle s1 = true) by (destruct Hs1 as [->| ->]; exact Hh).
  assert (Hc1 : audio_stream_close s1 = audio_stream_close s)
    by (destruct Hs1 as [->| ->]; reflexivity).
  assert (Hst1 : bt_state s1 = bt_state s) by (destruct Hs1 as [->| ->]; reflexivity).
  assert (He1 : entry_points s1 = entry_points s)
    by (destruct Hs1 as [->| ->]; reflexivity).
  rewrite Hh1, Hc1, Hc, Hst1. cbn [andb].
  intros r2 s2 w2 t2 (_ & -> & ->). wpL.
  rewrite !app_nil_r, !count_host_events_app.
  rewrite !(count_traced_config _ t1)
    by (try exact Ht1; intros e He; destruct e; cbv in He |- *; congruence).
  splits; try reflexivity; try assumption;
    destruct (A2DP_STATE_eqb (bt_state s) A2DP_STATE_DISCONNECTED); reflexivity.
Qed.

(** X7.  The parameter events that are ignored: [audio_extn_a2dp_set_parameters]
    returns without any call and without touching the session when
    offload is not supported; when the connect key, or else the
    disconnect key, names a device that is not an A2DP output; and,
    with neither key, when "A2dpSuspended" is absent, or the library
    is not loaded, or the state is DISCONNECTED, or the session is not
    suspended and the value is not "true". *)
Theorem ignored_parameter_events parms s w :
  is_a2dp_offload_supported s = false
  \/ (0 <= fst (str_parms_get_str parms AUDIO_PARAMETER_DEVICE_CONNECT)
      /\ audio_is_a2dp_out_device
           (atoi (snd (str_parms_get_str parms AUDIO_PARAMETER_DEVICE_CONNECT)))
         = false)
  \/ (fst (str_parms_get_str parms AUDIO_PARAMETER_DEVICE_CONNECT) < 0
      /\ 0 <= fst (str_parms_get_str parms AUDIO_PARAMETER_DEVICE_DISCONNECT)
      /\ audio_is_a2dp_out_device
           (atoi (snd (str_parms_get_str parms AUDIO_PARAMETER_DEVICE_DISCONNECT)))
         = false)
  \/ (fst (str_parms_get_str parms AUDIO_PARAMETER_DEVICE_CONNECT) < 0
      /\ fst (str_parms_get_str parms AUDIO_PARAMETER_DEVICE_DISCONNECT) < 0
      /\ (fst (str_parms_get_str parms "A2dpSuspended") < 0
          \/ bt_lib_handle s = false
          \/ bt_state s = A2DP_STATE_DISCONNECTED
          \/ (a2dp_suspended s = false
              /\ snd (str_parms_get_str parms "A2dpSuspended") <> "true"%string))) ->
  audio_extn_a2dp_set_parameters parms s w = Some (tt, s, w, []).
Proof.
  unfold audio_extn_a2dp_set_parameters. rewrite bindL_getL.
  intros [Hoff|H]; [rewrite Hoff; reflexivity|].
  destruct (is_a2dp_offload_supported s); cbn [negb]; [|reflexivity].
  destruct (str_parms_get_str parms AUDIO_PARAMETER_DEVICE_CONNECT) as [r1 v1].
  destruct (str_parms_get_str parms AUDIO_PARAMETER_DEVICE_DISCONNECT) as [r2 v2].
  destruct (str_parms_get_str parms "A2dpSuspended") as [r3 v3].
  cbn [fst snd] in H.
  destruct H as [(Hc & Hdev)|[(Hc & Hd & Hdev)|(Hc & Hd & H)]].
  - destruct (Z.leb_spec 0 r1); [|lia]. rewrite Hdev. reflexivity.
  - destruct (Z.leb_spec 0 r1); [lia|]. destruct (Z.leb_spec 0 r2); [|lia].
    rewrite Hdev. reflexivity.
  - destruct (Z.leb_spec 0 r1); [lia|]. destruct (Z.leb_spec 0 r2); [lia|].
    destruct (Z.leb_spec 0 r3); [|reflexivity].
    destruct H as [H|[H|[H|(Hs & Hv)]]].
    + lia.
    + rewrite H. reflexivity.
    + rewrite H. rewrite andb_false_r. reflexivity.
    + rewrite Hs. apply String.eqb_neq in Hv. rewrite Hv. cbn [andb negb].
      destruct (_ && _); reflexivity.
Qed.

(** X8.  While the session is suspended, an "A2dpSuspended" event
    resumes it whatever its value is, "true" included.  With no A2DP
    playback among the use cases when the event walks them (after its
    calls of the Bluetooth stack), the event clears [a2dp_suspended];
    calls audio_stream_start once exactly when a request is active and
    the entry point is set, and never audio_stream_stop; clears
    [a2dp_started] when that call returns nonzero; and changes nothing
    else: the request counter and the encoder fields are as before. *)
Theorem resume_whatever_the_value parms value s w :
  suspend_request parms value s ->
  a2dp_suspended s = true ->
  no_a2dp_playback (resume_loop_world s w) ->
  runsL (audio_extn_a2dp_set_parameters parms) s w
    (fun _ s' _ t =>
       a2dp_suspended s' = false
       /\ set_a2dp_started false s'
          = set_a2dp_started false (set_a2dp_suspended false s)
       /\ a2dp_started s'
          = match audio_stream_start s with
            | Some f =>
                if (0 <? a2dp_total_active_session_request s)
                   && negb (fst (f (after_clear_flag s w)) =? 0)
                then false else a2dp_started s
            | None => a2dp_started s
            end
       /\ count_host_events is_host_stream_start t
          = (if (0 <? a2dp_total_active_session_request s)
                && non_null (audio_stream_start s)
             then 1%nat else 0%nat)
       /\ count_host_events is_host_stream_stop t = 0%nat).
Proof.
  intros Hreq Hsus Hno.
  unfold runsL. rewrite (set_parameters_suspend_request _ _ _ _ Hreq).
  rewrite Hsus, andb_false_r.
  eapply runsL_weaken; [apply (resume_branch_runs s w Hno)|]. cbv beta.
  intros _ s' w' t (_ & Hstop & H).
  destruct (audio_stream_start s) as [f|]; cbn [non_null].
  - destruct (0 <? a2dp_total_active_session_request s); cbn [andb].
    + destruct H as (Hstart & ->).
      destruct (fst (f (after_clear_flag s w)) =? 0); cbn [negb];
        splits; auto.
    + destruct H as (Hstart & ->). splits; auto.
  - rewrite andb_false_r. destruct H as (Hstart & ->). splits; auto.
Qed.

(** X9.  An "A2dpSuspended" = "true" event on a session that is not
    suspended, with no A2DP playback among the use cases, sets
    [a2dp_suspended] and resets the encoder, and changes nothing else:
    [a2dp_started] and the request counter are kept.  [bt_encoder_format]
    is ENC_MEDIA_FMT_NONE afterwards when the mixer has the encoder
    config control.  audio_stream_suspend is called once if it is set,
    audio_stream_start, audio_stream_stop and audio_stream_close are
    not called.  From then on a start request is refused with -ENOSYS,
    [audio_extn_a2dp_is_ready] answers false and
    [audio_extn_a2dp_is_suspended] true, all without calling anything. *)
Theorem suspend_event_outcome parms s w :
  suspend_request parms "true" s ->
  a2dp_suspended s = false ->
  no_a2dp_playback w ->
  runsL (audio_extn_a2dp_set_parameters parms) s w
    (fun _ s' _ t =>
       a2dp_suspended s' = true
       /\ set_bt_encoder_format 0 s'
          = set_bt_encoder_format 0 (set_a2dp_suspended true s)
       /\ (forall ctl, mixer_get_ctl_by_name w MIXER_ENC_CONFIG_BLOCK = Some ctl ->
           bt_encoder_format s' = ENC_MEDIA_FMT_NONE)
       /\ count_host_events is_host_stream_suspend t
          = (if non_null (audio_stream_suspend s) then 1%nat else 0%nat)
       /\ count_host_events is_host_stream_start t = 0%nat
       /\ count_host_events is_host_stream_stop t = 0%nat
       /\ count_host_events is_host_stream_close t = 0%nat
       /\ forall w2,
            audio_extn_a2dp_start_playback s' w2 = Some (- ENOSYS, s', w2, [])
            /\ audio_extn_a2dp_is_ready s' w2 = Some (false, s', w2, [])
            /\ audio_extn_a2dp_is_suspended s' w2 = Some (true, s', w2, [])).
Proof.
  intros Hreq Hsus Hno.
  unfold runsL. rewrite (set_parameters_suspend_request _ _ _ _ Hreq).
  rewrite Hsus. cbn [String.eqb Ascii.eqb Bool.eqb andb negb].
  eapply runsL_weaken; [apply (suspend_branch_runs s w Hno)|]. cbv beta.
  intros _ s' w' t (Hs' & Hfmt & H1 & H2 & H3 & H4).
  assert (Hsus' : a2dp_suspended s' = true) by (destruct Hs' as [->| ->]; reflexivity).
  splits; auto.
  - destruct Hs' as [->| ->]; reflexivity.
  - intros w2. splits.
    + apply start_refused. right. exact Hsus'.
    + unfold audio_extn_a2dp_is_ready. rewrite bind_get, Hsus'. reflexivity.
    + unfold audio_extn_a2dp_is_suspended. rewrite bind_get, Hsus'. reflexivity.
Qed.

(** X10.  A suspend event followed by a resume event (an
    "A2dpSuspended" event of any value), with no A2DP playback among
    the use cases when either event walks them, gives back the session
    it started from except for two fields: [bt_encoder_format], which
    is ENC_MEDIA_FMT_NONE when the mixer has the encoder config control
    (the resume does not configure the encoder again), and
    [a2dp_started], which a failed audio_stream_start of the resume
    clears. *)
Theorem suspend_resume_round_trip parms1 parms2 value s w :
  suspend_request parms1 "true" s ->
  suspend_request parms2 value s ->
  a2dp_suspended s = false ->
  no_a2dp_playback w ->
  runsL (audio_extn_a2dp_set_parameters parms1) s w
    (fun _ s1 w1 t1 =>
       no_a2dp_playback (resume_loop_world s1 w1) ->
       runsL (audio_extn_a2dp_set_parameters parms2) s1 w1
         (fun _ s' _ t2 =>
            set_a2dp_started false (set_bt_encoder_format 0 s')
            = set_a2dp_started false (set_bt_encoder_format 0 s)
            /\ (forall ctl,
                  mixer_get_ctl_by_name w MIXER_ENC_CONFIG_BLOCK = Some ctl ->
                  bt_encoder_format s' = ENC_MEDIA_FMT_NONE)
            /\ (a2dp_started s' = a2dp_started s \/ a2dp_started s' = false)
            /\ count_host_events is_host_stream_start (t1 ++ t2)
               = (if (0 <? a2dp_total_active_session_request s)
                     && non_null (audio_stream_start s)
                  then 1%nat else 0%nat)
            /\ count_host_events is_host_stream_stop (t1 ++ t2) = 0%nat)).
Proof.
  intros Hreq1 Hreq2 Hsus Hno.
  unfold runsL at 1. rewrite (set_parameters_suspend_request _ _ _ _ Hreq1).
  rewrite Hsus. cbn [String.eqb Ascii.eqb Bool.eqb andb negb].
  eapply runsL_weaken; [apply (suspend_branch_runs s w Hno)|]. cbv beta.
  intros _ s1 w1 t1 (Hs1 & Hfmt & _ & Hstart1 & Hstop1 & _) Hno1.
  assert (Hreq : suspend_request parms2 value s1).
  { destruct Hreq2 as (H1 & H2 & H3 & H4 & H5 & H6 & H7).
    unfold suspend_request. destruct Hs1 as [->| ->]; splits; auto. }
  unfold runsL. rewrite (set_parameters_suspend_request _ _ _ _ Hreq).
  assert (Hsus1 : a2dp_suspended s1 = true) by (destruct Hs1 as [->| ->]; reflexivity).
  rewrite Hsus1, andb_false_r.
  eapply runsL_weaken; [apply (resume_branch_runs s1 w1 Hno1)|]. cbv beta.
  intros _ s2 w2 t2 (_ & Hstop2 & H).
  rewrite !count_host_events_app, Hstart1, Hstop1, Hstop2. cbn [Nat.add].
  assert (Hc1 : a2dp_total_active_session_request s1
                = a2dp_total_active_session_request s)
    by (destruct Hs1 as [->| ->]; reflexivity).
  assert (Hp1 : audio_stream_start s1 = audio_stream_start s)
    by (destruct Hs1 as [->| ->]; reflexivity).
  assert (Hst1 : a2dp_started s1 = a2dp_started s)
    by (destruct Hs1 as [->| ->]; reflexivity).
  assert (Hfr : set_a2dp_started false
                  (set_bt_encoder_format 0 (set_a2dp_suspended false s1))
                = set_a2dp_started false (set_bt_encoder_format 0 s)).
  { destruct Hs1 as [->| ->]; destruct s; cbn in Hsus |- *; rewrite Hsus;
      reflexivity. }
  rewrite Hc1, Hp1 in H.
  destruct (audio_stream_start s) as [f|]; cbn [non_null].
  - destruct (0 <? a2dp_total_active_session_request s); cbn [andb].
    + destruct H as (Hstart & ->).
      destruct (fst (f (after_clear_flag s1 w1)) =? 0);
        splits; auto.
    + destruct H as (Hstart & ->). splits; auto.
  - rewrite andb_false_r. destruct H as (Hstart & ->). splits; auto.
Qed.



End SetParameters.

(* A connect for an A2DP device, alone and with two more keys. *)
Lemma first_key_decides_witness :
  @audio_extn_a2dp_set_parameters Sim.env SimHost.plain
    [("connect", "128"); ("disconnect", "128"); ("A2dpSuspended", "true")]%string
    Sim.initialised Sim.good_mixer
  = @audio_extn_a2dp_set_parameters Sim.env SimHost.plain
      [("connect", "128")]%string Sim.initialised Sim.good_mixer.
Proof.
  apply (first_key_decides (HO := SimHost.plain)).
  left. split; [cbn; lia|reflexivity].
Defined.

(* A disconnect in the middle of a playback. *)
Lemma disconnect_event_drops_session_witness :
  exists s' w' t,
    @audio_extn_a2dp_set_parameters Sim.env SimHost.plain
      [("disconnect", "128")]%string Sim.playing Sim.good_mixer
    = Some (tt, s', w', t)
    /\ bt_state s' = A2DP_STATE_DISCONNECTED
    /\ a2dp_total_active_session_request s' = 0
    /\ count_host_events is_host_stream_stop t = 0%nat
    /\ count_host_events is_host_stream_close t = 1%nat.
Proof.
  assert (Hreq : @disconnect_request Sim.env SimHost.plain
                   [("disconnect", "128")]%string Sim.playing)
    by (unfold disconnect_request; cbn; repeat split; lia).
  destruct (disconnect_event_drops_session (HO := SimHost.plain)
              [("disconnect", "128")]%string Sim.playing Sim.good_mixer
              Hreq eq_refl eq_refl)
    as ([] & s' & w' & t & Hrun & H1 & _ & _ & H4 & _ & _ & _ & H8 & H9).
  exists s', w', t. repeat split; assumption.
Defined.

(* A resume event for a session that is not suspended. *)
Lemma ignored_parameter_events_witness :
  @audio_extn_a2dp_set_parameters Sim.env SimHost.plain
    [("A2dpSuspended", "false")]%string Sim.playing Sim.good_mixer
  = Some (tt, Sim.playing, Sim.good_mixer, []).
Proof.
  apply (ignored_parameter_events (HO := SimHost.plain)).
  right. right. right. cbn. repeat split; try lia.
  right. right. right. split; [reflexivity|discriminate].
Defined.

(* A second "true" while suspended in the middle of a playback. *)
Lemma resume_whatever_the_value_witness :
  exists s' w' t,
    @audio_extn_a2dp_set_parameters Sim.env SimHost.plain
      [("A2dpSuspended", "true")]%string
      (set_a2dp_suspended true Sim.playing) Sim.good_mixer
    = Some (tt, s', w', t)
    /\ a2dp_suspended s' = false
    /\ count_host_events is_host_stream_start t = 1%nat.
Proof.
  assert (Hreq : @suspend_request Sim.env SimHost.plain
                   [("A2dpSuspended", "true")]%string "true"
                   (set_a2dp_suspended true Sim.playing))
    by (unfold suspend_request; cbn; repeat split; try lia; discriminate).
  destruct (resume_whatever_the_value (HO := SimHost.plain)
              _ _ _ Sim.good_mixer Hreq eq_refl
              (fun uc (Hin : In uc []) => match Hin with end))
    as ([] & s' & w' & t & Hrun & H1 & _ & _ & H4 & _).
  exists s', w', t. repeat split; assumption.
Defined.

(* A suspend in the middle of a playback. *)
Lemma suspend_event_outcome_witness :
  exists s' w' t,
    @audio_extn_a2dp_set_parameters Sim.env SimHost.plain
      [("A2dpSuspended", "true")]%string Sim.playing Sim.good_mixer
    = Some (tt, s', w', t)
    /\ a2dp_suspended s' = true
    /\ bt_encoder_format s' = ENC_MEDIA_FMT_NONE
    /\ audio_extn_a2dp_start_playback s' Sim.good_mixer
       = Some (- ENOSYS, s', Sim.good_mixer, []).
Proof.
  assert (Hreq : @suspend_request Sim.env SimHost.plain
                   [("A2dpSuspended", "true")]%string "true" Sim.playing)
    by (unfold suspend_request; cbn; repeat split; try lia; discriminate).
  destruct (suspend_event_outcome (HO := SimHost.plain)
              _ _ Sim.good_mixer Hreq eq_refl
              (fun uc (Hin : In uc []) => match Hin with end))
    as ([] & s' & w' & t & Hrun & H1 & _ & H3 & _ & _ & _ & _ & H8).
  exists s', w', t. split; [exact Hrun|]. split; [exact H1|].
  split; [exact (H3 _ eq_refl)|]. exact (proj1 (H8 Sim.good_mixer)).
Defined.

(* Two "true" events in the middle of a playback. *)
Lemma suspend_resume_round_trip_witness :
  exists s1 w1 t1 s' w' t2,
    @audio_extn_a2dp_set_parameters Sim.env SimHost.plain
      [("A2dpSuspended", "true")]%string Sim.playing Sim.good_mixer
    = Some (tt, s1, w1, t1)
    /\ @audio_extn_a2dp_set_parameters Sim.env SimHost.plain
         [("A2dpSuspended", "true")]%string s1 w1
       = Some (tt, s', w', t2)
    /\ a2dp_suspended s' = false
    /\ a2dp_total_active_session_request s' = 1
    /\ bt_encoder_format s' = ENC_MEDIA_FMT_NONE
    /\ count_host_events is_host_stream_start (t1 ++ t2) = 1%nat.
Proof.
  assert (Hreq : @suspend_request Sim.env SimHost.plain
                   [("A2dpSuspended", "true")]%string "true" Sim.playing)
    by (unfold suspend_request; cbn; repeat split; try lia; discriminate).
  destruct (suspend_resume_round_trip (HO := SimHost.plain)
              _ _ _ _ Sim.good_mixer Hreq Hreq eq_refl
              (fun uc (Hin : In uc []) => match Hin with end))
    as ([] & s1 & w1 & t1 & Hrun1 & Hnext).
  destruct (Hnext (fun uc (Hin : In uc []) => match Hin with end))
    as ([] & s' & w' & t2 & Hrun2 & H1 & H2 & _ & H4 & _).
  exists s1, w1, t1, s', w', t2. split; [exact Hrun1|]. split; [exact Hrun2|].
  split; [exact (f_equal a2dp_suspended H1)|].
  split; [exact (f_equal a2dp_total_active_session_request H1)|].
  split; [exact (H2 _ eq_refl)|exact H4].
Defined.


(** * Failed starts, starts after a close, and initialisation *)

Section StartEdges.
Context {E : Env}.

Lemma dual_mono_erased_started s :
  a2dp_started s = false ->
  set_a2dp_started false s = s.
Proof. destruct s; cbn. intros ->. reflexivity. Qed.

Lemma dual_mono_erased_codec s s' :
  codec_erased s' = codec_erased s ->
  enc_fields s' = enc_fields s ->
  set_is_aptx_dual_mono_supported false s'
  = set_is_aptx_dual_mono_supported false s.
Proof.
  destruct s, s'. unfold codec_erased, enc_fields. cbn.
  intros H1 H2. inversion H1; inversion H2; subst. reflexivity.
Qed.

Lemma runs_read {A : Type} (f : world -> A) s w (Q : post A) :
  Q (f w) s w [] -> runs (read f) s w Q.
Proof. intros HQ. exists (f w), s, w, []. auto. Qed.

(* A start request that does not return 0. *)
Lemma start_failure_may s w :
  may audio_extn_a2dp_start_playback s w
    (fun r s' _ t =>
       r <> 0 ->
       set_is_aptx_dual_mono_supported false s'
       = set_is_aptx_dual_mono_supported false s
       /\ count_events is_stream_stop t = 0%nat
       /\ ((r = - ENOSYS /\ s' = s /\ t = []
            /\ (bt_lib_handle s && non_null (audio_stream_start s)
                  && non_null (audio_get_codec_config s) = false
                \/ a2dp_suspended s = true))
           \/ (a2dp_started s = false
               /\ a2dp_total_active_session_request s = 0
               /\ hd_error t = Some E_audio_stream_start))).
Proof.
  unfold audio_extn_a2dp_start_playback. wp.
  wp_case.
  { wp. intros _. splits; auto. left. splits; auto. left.
    apply negb_true_iff. assumption. }
  wp_case.
  { wp. intros _. splits; auto. left. splits; auto. }
  apply may_bind.
  apply may_weaken with
    (Q := fun r1 s1 _ t1 =>
            r1 <> 0 ->
            a2dp_started s1 = false
            /\ set_is_aptx_dual_mono_supported false s1
               = set_is_aptx_dual_mono_supported false s
            /\ count_events is_stream_stop t1 = 0%nat
            /\ a2dp_started s = false
            /\ a2dp_total_active_session_request s = 0
            /\ hd_error t1 = Some E_audio_stream_start).
  - wp_case.
    + apply andb_true_iff in Heqb1 as [Hns Hz].
      apply negb_true_iff in Hns. apply Z.eqb_eq in Hz.
      destruct (audio_stream_start s) as [f|]; cbn [call]; [|apply may_fault].
      wp. wp_case; wp.
      * intros _. splits; auto.
        rewrite (dual_mono_erased_started _ Hns). reflexivity.
      * wp_use configure_a2dp_encoder_format_may.
        intros ok s1 w1 t1 (Ht1 & Hs1 & Hfail & _).
        destruct ok; wp.
        -- intros Habs. contradiction.
        -- intros _. splits; auto.
           ++ assert (Hst1 : a2dp_started s1 = false).
              { apply (f_equal a2dp_started) in Hs1. cbn in Hs1. congruence. }
              rewrite (dual_mono_erased_started _ Hst1).
              apply dual_mono_erased_codec; auto.
           ++ rewrite app_nil_r. cbn [app]. rewrite count_events_cons.
              rewrite (count_stop_config _ Ht1). reflexivity.
    + wp. intros Habs. contradiction.
  - cbv beta. intros r1 s1 w1 t1 H. wp. wp_case; wp.
    + wp_use a2dp_check_and_set_scrambler_runs.
      intros _ s2 w2 t2 (-> & Ht2). wp.
      wp_use a2dp_set_backend_cfg_runs.
      intros _ s3 w3 t3 (-> & Ht3). wp.
      intros Hr. destruct (H Hr) as (Habs & _). congruence.
    + intros Hr. destruct (H Hr) as (_ & H2 & H3 & H4 & H5 & H6).
      rewrite !app_nil_r, !app_nil_l. splits; auto.
Qed.

(** X12.  A start request that does not return 0 leaves the session as
    it was, [is_aptx_dual_mono_supported] apart: the request counter,
    [a2dp_started] and the encoder fields are unchanged.  It does not
    call audio_stream_stop, not even when audio_stream_start had
    succeeded and only the encoder configuration failed: the Bluetooth
    stack is then left started. *)
Theorem failed_start_keeps_session s w r s' w' t :
  audio_extn_a2dp_start_playback s w = Some (r, s', w', t) ->
  r <> 0 ->
  set_is_aptx_dual_mono_supported false s'
  = set_is_aptx_dual_mono_supported false s
  /\ a2dp_total_active_session_request s' = a2dp_total_active_session_request s
  /\ a2dp_started s' = a2dp_started s
  /\ enc_fields s' = enc_fields s
  /\ count_events is_stream_stop t = 0%nat.
Proof.
  intros Hrun Hr.
  destruct (start_failure_may s w _ _ _ _ Hrun Hr) as (Hs & Hstop & _).
  splits; auto.
  - exact (f_equal a2dp_total_active_session_request Hs).
  - exact (f_equal a2dp_started Hs).
  - exact (f_equal enc_fields Hs).
Qed.

(** X13.  Start requests do not look at [bt_state].  After
    [close_a2dp_output] has put the session in DISCONNECTED, where
    [audio_extn_a2dp_is_ready] answers false without calling anything,
    a start request is still not refused: it calls audio_stream_start
    first, and returns its status if that is not 0. *)
Theorem start_after_close_reaches_stack s w f :
  bt_lib_handle s = true ->
  non_null (audio_stream_close s) = true ->
  audio_stream_start s = Some f ->
  non_null (audio_get_codec_config s) = true ->
  runs close_a2dp_output s w
    (fun _ s1 w1 _ =>
       bt_state s1 = A2DP_STATE_DISCONNECTED
       /\ audio_extn_a2dp_is_ready s1 w1 = Some (false, s1, w1, [])
       /\ (fst (f w1) <> 0 ->
           audio_extn_a2dp_start_playback s1 w1
           = Some (fst (f w1), s1, snd (f w1), [E_audio_stream_start]))
       /\ (forall r s2 w2 t,
             audio_extn_a2dp_start_playback s1 w1 = Some (r, s2, w2, t) ->
             hd_error t = Some E_audio_stream_start)).
Proof.
  intros Hh Hc Hf Hg.
  eapply runs_weaken; [apply close_a2dp_output_runs|]. cbv beta.
  rewrite Hh, Hc. cbn [andb]. intros r1 s1 w1 t1 (_ & Hs1 & _).
  assert (Hb : bt_lib_handle s1 && non_null (audio_stream_start s1)
               && non_null (audio_get_codec_config s1) = true).
  { rewrite Hs1. cbn. rewrite Hh, Hf, Hg. reflexivity. }
  assert (Hst : a2dp_started s1 = false) by (rewrite Hs1; reflexivity).
  assert (Hsus : a2dp_suspended s1 = false) by (rewrite Hs1; reflexivity).
  assert (Hcnt : a2dp_total_active_session_request s1 = 0)
    by (rewrite Hs1; reflexivity).
  assert (Hf1 : audio_stream_start s1 = Some f) by (rewrite Hs1; exact Hf).
  splits.
  - rewrite Hs1. reflexivity.
  - unfold audio_extn_a2dp_is_ready. rewrite bind_get, Hsus.
    rewrite Hs1. reflexivity.
  - intros Hr. unfold audio_extn_a2dp_start_playback.
    rewrite bind_get, Hb, Hsus, Hst, Hcnt, Hf1. cbn [negb andb Z.eqb call].
    unfold bind, extern, modify, ret, get.
    destruct (f w1) as [r w2]. cbn [fst snd] in *.
    apply Z.eqb_neq in Hr. rewrite Hr. cbn [negb].
    rewrite (dual_mono_erased_started _ Hst), Hst. reflexivity.
  - intros r s2 w2 t Hrun.
    destruct (Z.eq_dec r 0) as [->|Hr].
    + destruct (audio_extn_a2dp_start_playback_may s1 w1 _ _ _ _ Hrun)
        as (_ & _ & _ & Hfirst).
      apply (Hfirst Hst Hcnt eq_refl).
    + destruct (start_failure_may s1 w1 _ _ _ _ Hrun Hr)
        as (_ & _ & [(_ & _ & _ & [Habs|Habs])|(_ & _ & Hhd)]);
        [congruence|congruence|exact Hhd].
Qed.

(** X14.  After [audio_extn_a2dp_init], whatever the session was
    before: the state is DISCONNECTED with no request, not started and
    not suspended; the sampling rate is 48000; offload support is what
    the property says; the entry points are left as they were, only
    the library handle is dropped.  So a start, stop or close request
    is refused with -ENOSYS, [audio_extn_a2dp_is_ready] answers false,
    [audio_extn_a2dp_is_force_device_switch] true and
    [audio_extn_a2dp_get_sample_rate] 48000, all without calling
    anything. *)
Theorem init_refuses_requests s0 w :
  runs audio_extn_a2dp_init s0 w
    (fun _ s w1 _ =>
       bt_state s = A2DP_STATE_DISCONNECTED
       /\ a2dp_total_active_session_request s = 0
       /\ a2dp_started s = false
       /\ a2dp_suspended s = false
       /\ is_a2dp_offload_supported s
          = property_get_bool SYSPROP_A2DP_OFFLOAD_ENABLED false w1
       /\ bt_lib_handle s = false
       /\ entry_points s = entry_points s0
       /\ forall w2,
            audio_extn_a2dp_start_playback s w2 = Some (- ENOSYS, s, w2, [])
            /\ audio_extn_a2dp_stop_playback s w2 = Some (- ENOSYS, s, w2, [])
            /\ close_a2dp_output s w2 = Some (- ENOSYS, s, w2, [])
            /\ audio_extn_a2dp_is_ready s w2 = Some (false, s, w2, [])
            /\ audio_extn_a2dp_is_force_device_switch s w2
               = Some (true, s, w2, [])
            /\ audio_extn_a2dp_get_sample_rate s w2 = Some (48000, s, w2, [])).
Proof.
  unfold audio_extn_a2dp_init, a2dp_common_init, update_offload_codec_support.
  wp.
  wp_use reset_a2dp_enc_config_params_runs.
  intros r1 s1 w1 t1 (_ & Hs1). wp.
  apply runs_read. wp.
  destruct Hs1 as [->| ->];
    (splits; try reflexivity; intros w2;
     unfold audio_extn_a2dp_start_playback, audio_extn_a2dp_stop_playback,
       close_a2dp_output, audio_extn_a2dp_is_ready,
       audio_extn_a2dp_is_force_device_switch, audio_extn_a2dp_get_sample_rate;
     rewrite !bind_get; cbn [a2dp_started set_is_a2dp_offload_supported
       set_is_aptx_dual_mono_supported set_is_handoff_in_progress
       set_enc_sampling_rate set_bt_state set_bt_encoder_format
       set_a2dp_suspended set_a2dp_total_active_session_request
       set_a2dp_started set_bt_lib_handle negb];
     rewrite ?orb_true_r; splits; reflexivity).
Qed.

(** X15.  When the Bluetooth stack reports APTX with a codec_info,
    [configure_a2dp_encoder_format] clears [is_aptx_dual_mono_supported]
    before it configures, so the dual-mono record is never built: the
    record written to the encoder config control has the sample rate
    and the channels of the default configuration, the channel mapping
    of those channels and sync_mode 0, whatever the flag was, and on
    success the session records APTX with the sampling rate and
    channels of the default configuration. *)
Theorem aptx_configured_from_default s w g info w1 :
  audio_get_codec_config s = Some g ->
  g w = ((Some info, ENC_CODEC_TYPE_APTX), w1) ->
  runs configure_a2dp_encoder_format s w
    (fun ok s' _ t =>
       is_aptx_dual_mono_supported s' = false
       /\ (forall ctl,
             mixer_get_ctl_by_name w1 MIXER_ENC_CONFIG_BLOCK = Some ctl ->
             In (E_mixer_ctl_set_array MIXER_ENC_CONFIG_BLOCK
                   (BlkAptx
                      {| aptx_enc_cfg_t.custom_cfg :=
                           {| custom_enc_cfg_t.enc_format := ENC_MEDIA_FMT_APTX;
                              custom_enc_cfg_t.sample_rate :=
                                audio_aptx_default_config.sampling_rate
                                  (codec_info.as_aptx_default info);
                              custom_enc_cfg_t.num_channels :=
                                audio_aptx_default_config.channels
                                  (codec_info.as_aptx_default info);
                              custom_enc_cfg_t.reserved := 0;
                              custom_enc_cfg_t.channel_mapping :=
                                (if audio_aptx_default_config.channels
                                      (codec_info.as_aptx_default info) =? 1
                                 then [PCM_CHANNEL_C; 0; 0; 0; 0; 0; 0; 0]
                                 else [PCM_CHANNEL_L; PCM_CHANNEL_R;
                                       0; 0; 0; 0; 0; 0]);
                              custom_enc_cfg_t.custom_size := 0 |};
                         aptx_enc_cfg_t.aptx_v2_cfg :=
                           {| aptx_v2_enc_cfg_ext_t.sync_mode := 0 |} |})
                   aptx_enc_cfg_t.sizeof) t)
       /\ (ok = true ->
           enc_fields s'
           = (ENC_CODEC_TYPE_APTX,
              audio_aptx_default_config.sampling_rate (codec_info.as_aptx_default info),
              audio_aptx_default_config.channels (codec_info.as_aptx_default info)))).
Proof.
  intros Hg Hgw. unfold configure_a2dp_encoder_format. wp.
  rewrite Hg. cbn [call non_null negb]. wp. rewrite Hgw. cbn [fst snd].
  change (ENC_CODEC_TYPE_APTX =? ENC_CODEC_TYPE_SBC) with false.
  change (ENC_CODEC_TYPE_APTX =? ENC_CODEC_TYPE_APTX) with true.
  cbv iota. wp. unfold configure_aptx_enc_format. wp.
  destruct (mixer_get_ctl_by_name w1 MIXER_ENC_CONFIG_BLOCK) as [ctl|] eqn:Hctl.
  - wp. cbn [audio_aptx_encoder_config.default_cfg
             audio_aptx_encoder_config.dual_mono_cfg option_map
             is_aptx_dual_mono_supported set_is_aptx_dual_mono_supported negb].
    cbv zeta.
    eapply runs_weaken; [apply configure_tail_runs; intros; wp; splits; reflexivity|].
    cbv beta. intros ok s' w' t (Ht & Hhd & Hcase).
    splits.
    + destruct Hcase as [[_ ->]|[_ ->]]; reflexivity.
    + intros ctl' Hc'. inversion Hc'; subst ctl'.
      rewrite !app_nil_l. right. right.
      destruct t as [|e t]; [discriminate|]. inversion Hhd. left. reflexivity.
    + intros ->. destruct Hcase as [[Habs _]|[_ ->]]; [discriminate|].
      reflexivity.
  - wp. splits; [reflexivity|discriminate|discriminate].
Qed.

End StartEdges.

(* No encoder config control: audio_stream_start succeeds, the
   configuration fails. *)
Lemma failed_start_keeps_session_witness :
  exists s' w' t,
    @audio_extn_a2dp_start_playback Sim.env Sim.connected Sim.empty_mixer
    = Some (- ETIMEDOUT, s', w', t)
    /\ hd_error t = Some E_audio_stream_start
    /\ a2dp_total_active_session_request s' = 0
    /\ count_events is_stream_stop t = 0%nat.
Proof.
  assert (H : exists s' w' t,
             @audio_extn_a2dp_start_playback Sim.env Sim.connected Sim.empty_mixer
             = Some (- ETIMEDOUT, s', w', t)
             /\ hd_error t = Some E_audio_stream_start)
    by (vm_compute; eexists _, _, _; split; reflexivity).
  destruct H as (s' & w' & t & H & Hhd).
  exists s', w', t. split; [exact H|]. split; [exact Hhd|].
  destruct (failed_start_keeps_session (E := Sim.env) _ _ _ _ _ _ H
              ltac:(discriminate)) as (_ & Hc & _ & _ & Hstop).
  split; [exact Hc|exact Hstop].
Defined.

(* A close in the middle of a playback. *)
Lemma start_after_close_reaches_stack_witness :
  exists r s1 w1 t1,
    @close_a2dp_output Sim.env Sim.playing Sim.good_mixer = Some (r, s1, w1, t1)
    /\ bt_state s1 = A2DP_STATE_DISCONNECTED
    /\ forall r2 s2 w2 t,
         audio_extn_a2dp_start_playback s1 w1 = Some (r2, s2, w2, t) ->
         hd_error t = Some E_audio_stream_start.
Proof.
  destruct (start_after_close_reaches_stack (E := Sim.env)
              Sim.playing Sim.good_mixer (fun w => (0, w))
              eq_refl eq_refl eq_refl eq_refl)
    as (r & s1 & w1 & t1 & Hrun & H1 & _ & _ & H4).
  exists r, s1, w1, t1. split; [exact Hrun|]. split; [exact H1|exact H4].
Defined.

(* APTX negotiated on a session whose dual-mono flag is set. *)
Lemma aptx_configured_from_default_witness :
  exists ok s' w' t,
    @configure_a2dp_encoder_format Sim.env
      (set_is_aptx_dual_mono_supported true
         (Sim.loaded (Sim.ipc 1) (Sim.ipc 0) ENC_CODEC_TYPE_APTX))
      Sim.good_mixer
    = Some (ok, s', w', t)
    /\ is_aptx_dual_mono_supported s' = false
    /\ In (E_mixer_ctl_set_array MIXER_ENC_CONFIG_BLOCK
             (BlkAptx
                (aptx_enc_cfg_t.mk
                   (custom_enc_cfg_t.mk ENC_MEDIA_FMT_APTX 48000 2 0
                      [PCM_CHANNEL_L; PCM_CHANNEL_R; 0; 0; 0; 0; 0; 0] 0)
                   (aptx_v2_enc_cfg_ext_t.mk 0)))
             aptx_enc_cfg_t.sizeof) t.
Proof.
  destruct (aptx_configured_from_default (E := Sim.env)
              (set_is_aptx_dual_mono_supported true
                 (Sim.loaded (Sim.ipc 1) (Sim.ipc 0) ENC_CODEC_TYPE_APTX))
              Sim.good_mixer
              (fun w => ((Some Sim.info, ENC_CODEC_TYPE_APTX), w))
              Sim.info Sim.good_mixer eq_refl eq_refl)
    as (ok & s' & w' & t & Hrun & H1 & H2 & _).
  exists ok, s', w', t. split; [exact Hrun|]. split; [exact H1|].
  exact (H2 _ eq_refl).
Defined.

(** * Latency, the counter across events, and the codec of a start *)

Section Queries.
Context {E : Env} {HO : Host}.

Lemma bind_read {A B : Type} (g : world -> A) (f : A -> M B) s w :
  bind (read g) f s w = f (g w) s w.
Proof.
  unfold bind, read. destruct (f (g w) s w) as [[[[b s2] w2] t2]|]; reflexivity.
Qed.

Lemma codec_latency_default offset encoder sink :
  0 <= encoder + sink < 2 ^ 32 ->
  0 <= encoder < 2 ^ 32 ->
  codec_latency false offset encoder sink = encoder + sink.
Proof.
  intros H1 H2. unfold codec_latency, to_uint32.
  rewrite (Z.mod_small encoder) by exact H2. apply Z.mod_small. exact H1.
Qed.

Lemma codec_latency_runtime offset encoder sink :
  codec_latency true offset encoder sink = (offset + sink) mod 2 ^ 32.
Proof.
  unfold codec_latency, to_uint32. apply Z.add_mod_idemp_l. lia.
Qed.

(** X16.  Without a usable latency property (it is empty, or it does
    not parse as five integers) [audio_extn_a2dp_get_encoder_latency]
    returns the built-in encoder plus sink latency of the current
    codec: 150 for SBC, 200 for APTX, 200 for APTX HD, 250 for AAC,
    220 for LDAC, and 200 for any other value of [bt_encoder_format],
    in particular after a reset of the encoder.  The session is not
    changed. *)
Theorem encoder_latency_defaults s w :
  fst (property_get SYSPROP_A2DP_CODEC_LATENCIES w) <= 0
  \/ fst (sscanf_offsets (snd (property_get SYSPROP_A2DP_CODEC_LATENCIES w))) <> 5 ->
  audio_extn_a2dp_get_encoder_latency s w
  = Some ((let fmt := bt_encoder_format s in
           if fmt =? ENC_CODEC_TYPE_SBC then 150
           else if fmt =? ENC_CODEC_TYPE_APTX then 200
           else if fmt =? ENC_CODEC_TYPE_APTX_HD then 200
           else if fmt =? ENC_CODEC_TYPE_AAC then 250
           else if fmt =? ENC_CODEC_TYPE_LDAC then 220
           else 200), s, w, []).
Proof.
  intros H. unfold audio_extn_a2dp_get_encoder_latency.
  rewrite bind_read.
  destruct (property_get SYSPROP_A2DP_CODEC_LATENCIES w) as [len value].
  cbn [fst snd] in H.
  assert (Hrt : (0 <? (if 0 <? len
                       then if negb (fst (sscanf_offsets value) =? 5)
                            then 0 else len
                       else len)) = false).
  { destruct (Z.ltb_spec 0 len) as [Hl|Hl].
    - destruct H as [H|H]; [lia|]. apply Z.eqb_neq in H. rewrite H. reflexivity.
    - apply Z.ltb_ge. exact Hl. }
  rewrite Hrt.
  destruct (if 0 <? len then snd (sscanf_offsets value) else (0, 0, 0, 0, 0))
    as [[[[o1 o2] o3] o4] o5].
  rewrite bind_get. cbv zeta.
  rewrite !codec_latency_default by (cbv; split; congruence).
  unfold ret.
  destruct (bt_encoder_format s =? ENC_CODEC_TYPE_SBC); [reflexivity|].
  destruct (bt_encoder_format s =? ENC_CODEC_TYPE_APTX); [reflexivity|].
  destruct (bt_encoder_format s =? ENC_CODEC_TYPE_APTX_HD); [reflexivity|].
  destruct (bt_encoder_format s =? ENC_CODEC_TYPE_AAC); [reflexivity|].
  destruct (bt_encoder_format s =? ENC_CODEC_TYPE_LDAC); reflexivity.
Qed.

(** X17.  With a latency property that parses as five integers,
    [audio_extn_a2dp_get_encoder_latency] returns the offset of the
    current codec plus the sink latency of that codec (140 for SBC,
    160 for APTX, 180 for APTX HD, AAC and LDAC), computed in
    uint32_t: a negative offset below minus the sink latency wraps
    around.  For any other value of [bt_encoder_format] the property
    is ignored and 200 is returned. *)
Theorem encoder_latency_from_property s w sbc aptx aptxhd aac ldac :
  0 < fst (property_get SYSPROP_A2DP_CODEC_LATENCIES w) ->
  sscanf_offsets (snd (property_get SYSPROP_A2DP_CODEC_LATENCIES w))
  = (5, (sbc, aptx, aptxhd, aac, ldac)) ->
  audio_extn_a2dp_get_encoder_latency s w
  = Some ((let fmt := bt_encoder_format s in
           if fmt =? ENC_CODEC_TYPE_SBC then (sbc + 140) mod 2 ^ 32
           else if fmt =? ENC_CODEC_TYPE_APTX then (aptx + 160) mod 2 ^ 32
           else if fmt =? ENC_CODEC_TYPE_APTX_HD then (aptxhd + 180) mod 2 ^ 32
           else if fmt =? ENC_CODEC_TYPE_AAC then (aac + 180) mod 2 ^ 32
           else if fmt =? ENC_CODEC_TYPE_LDAC then (ldac + 180) mod 2 ^ 32
           else 200), s, w, []).
Proof.
  intros Hlen Hscan. unfold audio_extn_a2dp_get_encoder_latency.
  rewrite bind_read.
  destruct (property_get SYSPROP_A2DP_CODEC_LATENCIES w) as [len value].
  cbn [fst snd] in Hlen, Hscan. rewrite Hscan. cbn [fst snd].
  apply Z.ltb_lt in Hlen. rewrite Hlen. cbn [Z.eqb Pos.eqb negb]. rewrite Hlen.
  rewrite bind_get. cbv zeta. rewrite !codec_latency_runtime.
  unfold ret.
  destruct (bt_encoder_format s =? ENC_CODEC_TYPE_SBC); [reflexivity|].
  destruct (bt_encoder_format s =? ENC_CODEC_TYPE_APTX); [reflexivity|].
  destruct (bt_encoder_format s =? ENC_CODEC_TYPE_APTX_HD); [reflexivity|].
  destruct (bt_encoder_format s =? ENC_CODEC_TYPE_AAC); [reflexivity|].
  destruct (bt_encoder_format s =? ENC_CODEC_TYPE_LDAC); reflexivity.
Qed.




(* APTX from the default configuration, with the dual-mono flag clear. *)
Lemma configure_aptx_default_runs i s w :
  is_aptx_dual_mono_supported s = false ->
  runs (configure_aptx_enc_format (Some (Some i))) s w
    (fun ok s' _ _ =>
       ok = true ->
       bt_encoder_format s' = ENC_CODEC_TYPE_APTX
       /\ enc_sampling_rate s'
          = audio_aptx_default_config.sampling_rate (codec_info.as_aptx_default i)).
Proof.
  intros Hdm. unfold configure_aptx_enc_format. wp.
  destruct (mixer_get_ctl_by_name w MIXER_ENC_CONFIG_BLOCK) as [ctl|].
  - wp. cbn [audio_aptx_encoder_config.default_cfg
             audio_aptx_encoder_config.dual_mono_cfg option_map].
    rewrite Hdm. cbn [negb]. cbv zeta.
    eapply runs_weaken;
      [apply configure_tail_runs; intros; wp; splits; reflexivity|].
    cbv beta. intros ok s' w' t (_ & _ & [[-> _]|[_ ->]]);
      [discriminate|]. intros _. split; reflexivity.
  - wp. discriminate.
Qed.

(* What a successful configuration stores, by the codec type the
   Bluetooth stack reported. *)
Lemma configure_a2dp_encoder_format_stores s w g info ty w1 :
  audio_get_codec_config s = Some g ->
  g w = ((info, ty), w1) ->
  may configure_a2dp_encoder_format s w
    (fun ok s' _ _ =>
       a2dp_total_active_session_request s' = a2dp_total_active_session_request s
       /\ (ok = true ->
       exists i,
         info = Some i
         /\ bt_encoder_format s' = ty
         /\ enc_sampling_rate s'
            = (if ty =? ENC_CODEC_TYPE_SBC
               then audio_sbc_encoder_config.sampling_rate (codec_info.as_sbc i)
               else if ty =? ENC_CODEC_TYPE_APTX
               then audio_aptx_default_config.sampling_rate
                      (codec_info.as_aptx_default i)
               else if ty =? ENC_CODEC_TYPE_APTX_HD
               then audio_aptx_default_config.sampling_rate
                      (codec_info.as_aptx_default i)
               else if ty =? ENC_CODEC_TYPE_AAC
               then audio_aac_encoder_config.sampling_rate (codec_info.as_aac i)
               else audio_ldac_encoder_config.sampling_rate
                      (codec_info.as_ldac i)))).
Proof.
  intros Hg Hgw.
  enough (H : may configure_a2dp_encoder_format s w
            (fun ok s' _ _ =>
               ok = true ->
               exists i,
                 info = Some i
                 /\ bt_encoder_format s' = ty
                 /\ enc_sampling_rate s'
                    = (if ty =? ENC_CODEC_TYPE_SBC
                       then audio_sbc_encoder_config.sampling_rate
                              (codec_info.as_sbc i)
                       else if ty =? ENC_CODEC_TYPE_APTX
                       then audio_aptx_default_config.sampling_rate
                              (codec_info.as_aptx_default i)
                       else if ty =? ENC_CODEC_TYPE_APTX_HD
                       then audio_aptx_default_config.sampling_rate
                              (codec_info.as_aptx_default i)
                       else if ty =? ENC_CODEC_TYPE_AAC
                       then audio_aac_encoder_config.sampling_rate
                              (codec_info.as_aac i)
                       else audio_ldac_encoder_config.sampling_rate
                              (codec_info.as_ldac i)))).
  { intros ok s' w' t Hrun. split.
    - destruct (configure_a2dp_encoder_format_may s w _ _ _ _ Hrun)
        as (_ & Hs & _).
      exact (codec_erased_total _ _ Hs).
    - exact (H _ _ _ _ Hrun). }
  unfold configure_a2dp_encoder_format. wp.
  rewrite Hg. cbn [call non_null negb]. wp. rewrite Hgw. cbn [fst snd].
  destruct (Z.eqb_spec ty ENC_CODEC_TYPE_SBC) as [->|N1].
  { apply runs_may. wp_use configure_sbc_enc_format_runs.
    intros ok s' w' t (_ & _ & [[-> _]|[_ (c & Hc & ->)]]); [discriminate|].
    intros _. destruct info as [i|]; [|discriminate]. inversion Hc; subst c.
    exists i. splits; reflexivity. }
  destruct (Z.eqb_spec ty ENC_CODEC_TYPE_APTX) as [->|N2].
  { wp. destruct info as [i|].
    - apply runs_may. wp_use configure_aptx_default_runs; [reflexivity|].
      intros ok s' w' t H Hok. destruct (H Hok) as (H1 & H2).
      exists i. splits; auto.
    - unfold configure_aptx_enc_format. wp. wp_case; wp; [|discriminate].
      cbn [audio_aptx_encoder_config.default_cfg option_map]. apply may_fault. }
  destruct (Z.eqb_spec ty ENC_CODEC_TYPE_APTX_HD) as [->|N3].
  { apply runs_may. wp_use configure_aptx_hd_enc_format_runs.
    intros ok s' w' t (_ & [[-> _]|[_ (c & Hc & ->)]]); [discriminate|].
    intros _. destruct info as [i|]; [|discriminate]. inversion Hc; subst c.
    exists i. splits; reflexivity. }
  destruct (Z.eqb_spec ty ENC_CODEC_TYPE_AAC) as [->|N4].
  { apply runs_may. wp_use configure_aac_enc_format_runs.
    intros ok s' w' t (_ & _ & [[-> _]|[_ (c & Hc & ->)]]); [discriminate|].
    intros _. destruct info as [i|]; [|discriminate]. inversion Hc; subst c.
    exists i. splits; reflexivity. }
  destruct (Z.eqb_spec ty ENC_CODEC_TYPE_LDAC) as [->|N5].
  { apply runs_may. wp_use configure_ldac_enc_format_runs.
    intros ok s' w' t (_ & _ & [[-> _]|[_ (c & Hc & ->)]]); [discriminate|].
    intros _. destruct info as [i|]; [|discriminate]. inversion Hc; subst c.
    exists i. splits; reflexivity. }
  wp. discriminate.
Qed.

(** X19.  After a first start request that returns 0 the session is
    started with one active request, [bt_encoder_format] is the codec
    type the Bluetooth stack reported (SBC, APTX, APTX HD, AAC or
    LDAC), and [audio_extn_a2dp_get_sample_rate] gives the sampling
    rate of that codec's configuration (for APTX the one of the
    default configuration) as converted to the int of the caller: the
    rate itself when it is below 2^31. *)
Theorem first_start_records_codec s w f g info ty w2 s' w' t :
  a2dp_started s = false ->
  a2dp_total_active_session_request s = 0 ->
  audio_stream_start s = Some f ->
  audio_get_codec_config s = Some g ->
  g (snd (f w)) = ((info, ty), w2) ->
  audio_extn_a2dp_start_playback s w = Some (0, s', w', t) ->
  a2dp_started s' = true
  /\ a2dp_total_active_session_request s' = 1
  /\ bt_encoder_format s' = ty
  /\ exists i,
       info = Some i
       /\ audio_extn_a2dp_get_sample_rate s' w'
          = Some (wrap_int
                    (if ty =? ENC_CODEC_TYPE_SBC
                     then audio_sbc_encoder_config.sampling_rate
                            (codec_info.as_sbc i)
                     else if ty =? ENC_CODEC_TYPE_APTX
                     then audio_aptx_default_config.sampling_rate
                            (codec_info.as_aptx_default i)
                     else if ty =? ENC_CODEC_TYPE_APTX_HD
                     then audio_aptx_default_config.sampling_rate
                            (codec_info.as_aptx_default i)
                     else if ty =? ENC_CODEC_TYPE_AAC
                     then audio_aac_encoder_config.sampling_rate
                            (codec_info.as_aac i)
                     else audio_ldac_encoder_config.sampling_rate
                            (codec_info.as_ldac i)), s', w', [])
       /\ (0 <= enc_sampling_rate s' < 2 ^ 31 ->
           audio_extn_a2dp_get_sample_rate s' w'
           = Some (enc_sampling_rate s', s', w', [])).
Proof.
  intros Hst Hc Hf Hg Hgw Hrun.
  assert (H : may audio_extn_a2dp_start_playback s w
            (fun r s' _ _ =>
               r = 0 ->
               a2dp_started s' = true
               /\ a2dp_total_active_session_request s' = 1
               /\ bt_encoder_format s' = ty
               /\ exists i,
                    info = Some i
                    /\ enc_sampling_rate s'
                       = (if ty =? ENC_CODEC_TYPE_SBC
                          then audio_sbc_encoder_config.sampling_rate
                                 (codec_info.as_sbc i)
                          else if ty =? ENC_CODEC_TYPE_APTX
                          then audio_aptx_default_config.sampling_rate
                                 (codec_info.as_aptx_default i)
                          else if ty =? ENC_CODEC_TYPE_APTX_HD
                          then audio_aptx_default_config.sampling_rate
                                 (codec_info.as_aptx_default i)
                          else if ty =? ENC_CODEC_TYPE_AAC
                          then audio_aac_encoder_config.sampling_rate
                                 (codec_info.as_aac i)
                          else audio_ldac_encoder_config.sampling_rate
                                 (codec_info.as_ldac i)))).
  { unfold audio_extn_a2dp_start_playback. wp.
    wp_case; [wp; discriminate|].
    wp_case; [wp; discriminate|].
    rewrite Hst, Hc, Hf. cbn [negb andb Z.eqb call]. wp.
    wp_case; wp.
    - cbn [a2dp_started set_a2dp_started]. wp. intros Hr. rewrite Hr in Heqb1. discriminate.
    - wp_use (configure_a2dp_encoder_format_stores s (snd (f w)) g info ty w2 Hg Hgw).
      intros ok s1 w1 t1 (Hcnt & Hok). destruct ok; wp.
      + cbn [a2dp_started set_a2dp_started]. wp.
        wp_use a2dp_check_and_set_scrambler_runs.
        intros _ s2 w3 t2 (-> & _). wp.
        wp_use a2dp_set_backend_cfg_runs.
        intros _ s3 w4 t3 (-> & _). wp.
        intros _. destruct (Hok eq_refl) as (i & Hi & Hfmt & Hrate).
        splits; try reflexivity.
        * cbn [a2dp_total_active_session_request
                 set_a2dp_total_active_session_request set_a2dp_started].
          rewrite Hcnt, Hc. reflexivity.
        * exact Hfmt.
        * exists i. split; [exact Hi|exact Hrate].
      + cbn [a2dp_started set_a2dp_started]. wp. discriminate. }
  destruct (H _ _ _ _ Hrun eq_refl) as (H1 & H2 & H3 & i & Hi & Hrate).
  splits; auto. exists i. split; [exact Hi|].
  unfold audio_extn_a2dp_get_sample_rate. rewrite bind_get.
  split; [rewrite Hrate; reflexivity|].
  intros Hsmall. rewrite wrap_int_small by lia. reflexivity.
Qed.

End Queries.

(* No latency property, SBC playing. *)
Lemma encoder_latency_defaults_witness :
  @audio_extn_a2dp_get_encoder_latency Sim.env SimHost.plain
    Sim.playing Sim.good_mixer
  = Some (150, Sim.playing, Sim.good_mixer, []).
Proof.
  apply (encoder_latency_defaults (HO := SimHost.plain) Sim.playing Sim.good_mixer).
  left. cbn. lia.
Defined.

(* The property "10/20/30/40/50", LDAC playing. *)
Lemma encoder_latency_from_property_witness :
  @audio_extn_a2dp_get_encoder_latency Sim.env
    (SimHost.host true 0 0 0 "10/20/30/40/50")
    (set_bt_encoder_format ENC_CODEC_TYPE_LDAC Sim.playing) Sim.good_mixer
  = Some (230, set_bt_encoder_format ENC_CODEC_TYPE_LDAC Sim.playing,
          Sim.good_mixer, []).
Proof.
  apply (encoder_latency_from_property
           (HO := SimHost.host true 0 0 0 "10/20/30/40/50")
           (set_bt_encoder_format ENC_CODEC_TYPE_LDAC Sim.playing)
           Sim.good_mixer 10 20 30 40 50).
  - cbn. lia.
  - reflexivity.
Defined.


(* The first start of a connected session, SBC negotiated. *)
Lemma first_start_records_codec_witness :
  exists s' w' t,
    @audio_extn_a2dp_start_playback Sim.env Sim.connected Sim.good_mixer
    = Some (0, s', w', t)
    /\ bt_encoder_format s' = ENC_CODEC_TYPE_SBC
    /\ audio_extn_a2dp_get_sample_rate s' w' = Some (44100, s', w', []).
Proof.
  assert (H : exists s' w' t,
             @audio_extn_a2dp_start_playback Sim.env Sim.connected Sim.good_mixer
             = Some (0, s', w', t))
    by (vm_compute; eexists _, _, _; reflexivity).
  destruct H as (s' & w' & t & H).
  exists s', w', t. split; [exact H|].
  destruct (first_start_records_codec (E := Sim.env)
              Sim.connected Sim.good_mixer (fun w => (0, w))
              (fun w => ((Some Sim.info, ENC_CODEC_TYPE_SBC), w))
              (Some Sim.info) ENC_CODEC_TYPE_SBC Sim.good_mixer s' w' t
              eq_refl eq_refl eq_refl eq_refl eq_refl H)
    as (_ & _ & Hfmt & i & Hi & Hrate & _).
  split; [exact Hfmt|]. inversion Hi; subst i. exact Hrate.
Defined.

(* A rate that does not fit the int of the caller comes back negative. *)
Example get_sample_rate_above_int_max :
  @audio_extn_a2dp_get_sample_rate Sim.env
    (set_enc_sampling_rate 4294967295 Sim.playing) Sim.good_mixer
  = Some (-1, set_enc_sampling_rate 4294967295 Sim.playing, Sim.good_mixer, []).
Proof. vm_compute. reflexivity. Qed.

(** * The handoff flag *)

Section Handoff.
Context {E : Env} {HO : Host}.

(* Start and stop requests leave the handoff flag alone. *)
Lemma serve_handoff r s w res s' w' t :
  serve r s w = Some (res, s', w', t) ->
  is_handoff_in_progress s' = is_handoff_in_progress s.
Proof.
  intros Hrun. destruct r; cbn [serve] in Hrun.
  - destruct (audio_extn_a2dp_start_playback_may s w _ _ _ _ Hrun) as (H & _).
    exact (f_equal is_handoff_in_progress H).
  - destruct (runs_inv _ _ _ _ _ _ _ _
                (audio_extn_a2dp_stop_playback_runs s w) Hrun) as (H & _).
    exact (f_equal is_handoff_in_progress H).
Qed.

Lemma run_handoff rs s w st :
  In st (run rs s w) ->
  is_handoff_in_progress (after st) = is_handoff_in_progress s.
Proof.
  revert s w. induction rs as [|r rs IH]; intros s w Hin; [destruct Hin|].
  cbn [run] in Hin.
  destruct (serve r s w) as [[[[res s1] w1] t1]|] eqn:Hs; [|destruct Hin].
  pose proof (serve_handoff _ _ _ _ _ _ _ Hs) as H1.
  destruct Hin as [<-|Hin]; [exact H1|].
  rewrite (IH _ _ Hin). exact H1.
Qed.

(** X20.  The handoff flag belongs to
    [audio_extn_a2dp_set_handoff_mode]: no start or stop request
    changes it.  After the mode is set to [is_on], through any
    sequence of start and stop requests,
    [audio_extn_a2dp_is_force_device_switch] answers [is_on] or "not
    started" without calling anything: it answers true throughout
    while the handoff mode is on. *)
Theorem handoff_mode_survives_requests is_on rs s w :
  runs (audio_extn_a2dp_set_handoff_mode is_on) s w
    (fun _ s1 w1 _ =>
       forall st,
         In st (run rs s1 w1) ->
         is_handoff_in_progress (after st) = is_on
         /\ forall w2,
              audio_extn_a2dp_is_force_device_switch (after st) w2
              = Some (is_on || negb (a2dp_started (after st)), after st, w2, [])).
Proof.
  unfold audio_extn_a2dp_set_handoff_mode. wp.
  intros st Hin. pose proof (run_handoff _ _ _ _ Hin) as H.
  cbn [is_handoff_in_progress set_is_handoff_in_progress] in H.
  split; [exact H|]. intros w2.
  unfold audio_extn_a2dp_is_force_device_switch. rewrite bind_get, H.
  reflexivity.
Qed.

End Handoff.

(** * What a teardown writes *)

Section Teardown.
Context {E : Env}.

Ltac teardown :=
  rewrite ?app_nil_r, ?app_nil_l;
  repeat first
    [ apply Forall_nil
    | apply Forall_cons
    | apply Forall_app; split
    | assumption
    | exact I
    | cbn [teardown_call]; auto 6 ].

Lemma a2dp_set_bit_format_teardown s w :
  runs (a2dp_set_bit_format DEFAULT_ENCODER_BIT_FORMAT) s w
    (fun _ _ _ t => Forall teardown_call t).
Proof.
  unfold a2dp_set_bit_format, set_enum_by_string. wp_all; teardown.
Qed.

Lemma a2dp_reset_backend_cfg_teardown s w :
  runs a2dp_reset_backend_cfg s w (fun _ _ _ t => Forall teardown_call t).
Proof.
  unfold a2dp_reset_backend_cfg, set_enum_by_string. wp_all; teardown.
Qed.

Lemma reset_a2dp_enc_config_params_teardown s w :
  runs reset_a2dp_enc_config_params s w (fun _ _ _ t => Forall teardown_call t).
Proof.
  unfold reset_a2dp_enc_config_params, set_array. wp.
  wp_case; wp;
    (wp_use a2dp_set_bit_format_teardown; intros r s' w' t Ht; teardown).
Qed.

(** X21.  A stop request and a device disconnect never configure
    anything.  Besides audio_stream_stop and audio_stream_close, the
    only calls they make look up mixer controls and write reset
    values: the zeroed encoder block, "S16_LE" for the bit format,
    "KHZ_8" for the backend sample rate and "Zero" for the AFE input
    channels. *)
Theorem teardown_writes_reset_values s w :
  runs audio_extn_a2dp_stop_playback s w
    (fun _ _ _ t => Forall teardown_call t)
  /\ runs device_disconnect s w (fun _ _ _ t => Forall teardown_call t).
Proof.
  split.
  - unfold audio_extn_a2dp_stop_playback. wp.
    wp_case; [wp; teardown|].
    apply runs_bind.
    apply runs_weaken with
      (Q := fun _ s1 _ t1 =>
              t1 = [] /\ audio_stream_stop s1 = audio_stream_stop s).
    { wp_case; wp; split; reflexivity. }
    intros _ s1 w1 t1 (-> & Hp). wp.
    wp_case; wp; [|teardown].
    rewrite Hp. destruct (audio_stream_stop s) as [f|] eqn:Hf; cbn [call].
    + wp. wp_use reset_a2dp_enc_config_params_teardown.
      intros _ s2 w2 t2 Ht2. wp.
      wp_use a2dp_reset_backend_cfg_teardown.
      intros _ s3 w3 t3 Ht3. wp. teardown.
    + cbn [non_null] in Heqb. rewrite andb_false_r in Heqb. discriminate.
  - unfold device_disconnect. wp.
    wp_use reset_a2dp_enc_config_params_teardown.
    intros _ s1 w1 t1 Ht1.
    wp_use close_a2dp_output_runs.
    intros r s2 w2 t2 H.
    destruct (bt_lib_handle s1 && non_null (audio_stream_close s1)).
    + destruct H as (_ & _ & ->).
      destruct (A2DP_STATE_eqb (bt_state s1) A2DP_STATE_DISCONNECTED); teardown.
    + destruct H as (_ & _ & ->). teardown.
Qed.

End Teardown.
